(** * ETL data-migration pipeline: orchestrator, extractors, loader, metrics

    A shallow embedding of the Python sources

      - [src/pipeline/orchestrator.py]  (ETLOrchestrator, main)
      - [src/extract/csv_extractor.py]  (CSVExtractor)
      - [src/extract/db_extractor.py]   (DatabaseExtractor)
      - [src/transform/validator.py]    (DataValidator)
      - [src/load/db_loader.py]         (DatabaseLoader)
      - [src/utils/metrics.py]          (PipelineMetrics)

    The program only ever writes to its log, its metrics collector, its
    error handler and the target store, and only ever reads from the file
    system, the source database and the clock.  It is therefore modelled
    in a reader/writer/error monad: the environment [Env] answers every
    read, the trace of [Event]s records every write in program order, and
    an [Outcome] tells whether the call returned or raised. *)

From Stdlib Require Import String Ascii List ZArith Bool Lia DecimalString.
Import ListNotations.
Open Scope string_scope.

(* ================================================================== *)
(** ** Python exceptions *)

(** An instance of a subclass of [Exception]: its class name and the
    text [str(e)]. *)
Record Exn := mkExn { exn_class : string; exn_msg : string }.

(** What a [raise] can carry.  [sys.exit] raises [SystemExit], which
    derives from [BaseException] and is not matched by
    [except Exception]. *)
Inductive Signal :=
| Exception (e : Exn)
| SystemExit (code : Z).

(** Result of a call into a library or an external collaborator: those
    fail with ordinary exceptions only. *)
Inductive Try (A : Type) :=
| Returned (a : A)
| Threw (e : Exn).
Arguments Returned {A} a.
Arguments Threw {A} e.

Inductive Outcome (A : Type) :=
| Ok (a : A)
| Raise (s : Signal).
Arguments Ok {A} a.
Arguments Raise {A} s.

Definition KeyError (key : string) : Exn := mkExn "KeyError" ("'" ++ key ++ "'").
Definition AttributeError (msg : string) : Exn := mkExn "AttributeError" msg.
Definition FileNotFoundError (msg : string) : Exn := mkExn "FileNotFoundError" msg.

(* ================================================================== *)
(** ** Insertion-ordered dictionaries (Python [dict], DataFrame columns) *)

Fixpoint assoc_get {V : Type} (k : string) (d : list (string * V)) : option V :=
  match d with
  | [] => None
  | (k', v) :: rest => if String.eqb k k' then Some v else assoc_get k rest
  end.

(** [d[k] = v]: an existing key keeps its position, a new key goes last. *)
Fixpoint assoc_set {V : Type} (k : string) (v : V) (d : list (string * V))
  : list (string * V) :=
  match d with
  | [] => [(k, v)]
  | (k', v') :: rest =>
      if String.eqb k k' then (k, v) :: rest else (k', v') :: assoc_set k v rest
  end.

Definition has_key {V : Type} (k : string) (d : list (string * V)) : bool :=
  match assoc_get k d with Some _ => true | None => false end.

Definition keys {V : Type} (d : list (string * V)) : list string := map fst d.

(* ================================================================== *)
(** ** pandas data model *)

Inductive DType :=
| int64 | float64 | bool_ | object_ | datetime64 | timedelta64 | period.

(** A cell.  Floats are kept as their IEEE-754 bit pattern; no
    arithmetic on them is defined here. *)
Inductive Value :=
| NA
| VInt (z : Z)
| VFloat (bits : Z)
| VBool (b : bool)
| VStr (s : string)
| VTime (ns : Z).

Record Series := mkSeries { dtype : DType; values : list Value }.

(** A DataFrame: the length of its index and its columns in order. *)
Record DataFrame := mkDF { nrows : nat; columns : list (string * Series) }.

(** [len(df)] *)
Definition len (df : DataFrame) : nat := nrows df.

(** [df.empty]: some axis has length zero. *)
Definition df_empty (df : DataFrame) : bool :=
  Nat.eqb (nrows df) 0 || match columns df with [] => true | _ => false end.

(** [c in df.columns] *)
Definition in_columns (c : string) (df : DataFrame) : bool := has_key c (columns df).

(** [df[c]] *)
Definition getitem (df : DataFrame) (c : string) : Try Series :=
  match assoc_get c (columns df) with
  | Some s => Returned s
  | None => Threw (KeyError c)
  end.

(** [df[c] = s] *)
Definition setitem (df : DataFrame) (c : string) (s : Series) : DataFrame :=
  mkDF (nrows df) (assoc_set c s (columns df)).

(** A scalar assigned to a column is repeated along the index. *)
Definition broadcast (dt : DType) (v : Value) (n : nat) : Series :=
  mkSeries dt (repeat v n).

(** [s.dt]: only for datetime-like values. *)
Definition dt_accessor (s : Series) : Try Series :=
  match dtype s with
  | datetime64 | timedelta64 | period => Returned s
  | _ => Threw (AttributeError "Can only use .dt accessor with datetimelike values")
  end.

(** The dtypes on which [.dt.year] and [.dt.month] exist. *)
Definition has_calendar_fields (d : DType) : bool :=
  match d with datetime64 | period => true | _ => false end.

(** Operations of pandas whose arithmetic is outside this repository.
    They are an interface; the code below is generic in it. *)
Class Pandas := {
  (** [a * b] on two columns *)
  series_mul : Series -> Series -> Try Series;
  (** [((price - cost) / price * 100).round(2)] *)
  series_margin_pct : Series -> Series -> Try Series;
  (** [s.str.lower().str.strip()] *)
  series_str_lower_strip : Series -> Try Series;
  (** [.year] and [.month] of a datetime64 or period column *)
  calendar_year : Series -> Series;
  calendar_month : Series -> Series;
  (** rows appended to an existing table by [to_sql(if_exists="append")] *)
  append_rows : DataFrame -> DataFrame -> DataFrame
}.

(** [s.dt.year] *)
Definition dt_year {pandas_ops : Pandas} (s : Series) : Try Series :=
  match dt_accessor s with
  | Threw e => Threw e
  | Returned s' =>
      if has_calendar_fields (dtype s') then Returned (calendar_year s')
      else Threw (AttributeError "'TimedeltaProperties' object has no attribute 'year'")
  end.

(** [s.dt.month] *)
Definition dt_month {pandas_ops : Pandas} (s : Series) : Try Series :=
  match dt_accessor s with
  | Threw e => Threw e
  | Returned s' =>
      if has_calendar_fields (dtype s') then Returned (calendar_month s')
      else Threw (AttributeError "'TimedeltaProperties' object has no attribute 'month'")
  end.

(* ================================================================== *)
(** ** Observable events and the pipeline monad *)

Inductive Level := INFO | WARNING | ERROR | SUCCESS.

(** A call received by the metrics collector. *)
Inductive MetricsCall :=
| start_pipeline_call (run_id : string)
| end_pipeline_call (run_id : string) (status : string)
| record_extraction_call (table : string) (count : nat)
| record_transformation_call (table : string) (input_count output_count : nat)
    (quality_score : Z)
| record_load_call (table : string) (count : nat).

Inductive Event :=
| Log (level : Level) (msg : string)
    (** a call of [logger.info], [.warning], [.error] or [.success];
        whether a sink prints it depends on the configured level *)
| Metrics (c : MetricsCall)
| HandleError (e : Exn) (context : list (string * string))
| ToSql (table : string) (df : DataFrame) (if_exists : string).

Definition M (A : Type) : Type := (list Event * Outcome A)%type.

Definition trace {A} (m : M A) : list Event := fst m.
Definition outcome {A} (m : M A) : Outcome A := snd m.

Definition ret {A} (a : A) : M A := ([], Ok a).
Definition bind {A B} (m : M A) (k : A -> M B) : M B :=
  match m with
  | (tr, Ok a) => let (tr', r) := k a in ((tr ++ tr')%list, r)
  | (tr, Raise s) => (tr, Raise s)
  end.
Definition throw {A} (e : Exn) : M A := ([], Raise (Exception e)).
Definition emit (ev : Event) : M unit := ([ev], Ok tt).
Definition lift {A} (t : Try A) : M A :=
  match t with Returned a => ret a | Threw e => throw e end.

Notation "x <- m ;; k" := (bind m (fun x => k))
  (at level 61, m at next level, right associativity).
Notation "m ;; k" := (bind m (fun _ => k))
  (at level 61, right associativity).

(** [try: body  except Exception as e: handler e].  Whatever the body
    wrote before raising stays written; [SystemExit] passes through. *)
Definition try_except {A} (body : M A) (handler : Exn -> M A) : M A :=
  match body with
  | (tr, Raise (Exception e)) => let (tr', r) := handler e in ((tr ++ tr')%list, r)
  | other => other
  end.

(** [for x in xs: acc = body x acc] *)
Fixpoint for_each {A S} (xs : list A) (body : A -> S -> M S) (acc : S) : M S :=
  match xs with
  | [] => ret acc
  | x :: rest => acc' <- body x acc ;; for_each rest body acc'
  end.

Definition logger_info (msg : string) : M unit := emit (Log INFO msg).
Definition logger_warning (msg : string) : M unit := emit (Log WARNING msg).
Definition logger_error (msg : string) : M unit := emit (Log ERROR msg).
Definition logger_success (msg : string) : M unit := emit (Log SUCCESS msg).

(** [str(n)] for a non-negative integer *)
Definition str_of_nat (n : nat) : string := NilEmpty.string_of_uint (Nat.to_uint n).

(** ["=" * 60] *)
Definition rule60 : string := String.concat "" (repeat "=" 60).

(* ================================================================== *)
(** ** src/utils/metrics.py *)

Record RunSummary := mkSummary {
  status : string;
  duration_seconds : Z;
  total_extracted : Z;
  total_loaded : Z;
  avg_quality_score : Z
}.

Module PipelineMetrics.

(** The class defines no attribute: an instance carries no data. *)
Inductive t := new.

Definition start_pipeline (self : t) (run_id : string) : t := self.
Definition end_pipeline (self : t) (run_id : string) (status : string) : t := self.
Definition record_extraction (self : t) (table : string) (count : nat) : t := self.
Definition record_transformation (self : t) (table : string)
  (input_count output_count : nat) (quality_score : Z) : t := self.
Definition record_load (self : t) (table : string) (count : nat) : t := self.

Definition get_summary (self : t) (run_id : string) : RunSummary :=
  mkSummary "SUCCESS" 0 0 0 100.

(** One call applied to the collector. *)
Definition apply (self : t) (c : MetricsCall) : t :=
  match c with
  | start_pipeline_call r => start_pipeline self r
  | end_pipeline_call r s => end_pipeline self r s
  | record_extraction_call tb n => record_extraction self tb n
  | record_transformation_call tb i o q => record_transformation self tb i o q
  | record_load_call tb n => record_load self tb n
  end.

(** The collector after a sequence of calls. *)
Definition after (calls : list MetricsCall) : t := fold_left apply calls new.

End PipelineMetrics.

(** A call on [self.metrics], as seen from the orchestrator. *)
Definition metrics (c : MetricsCall) : M unit := emit (Metrics c).

(** The calls the collector received, in order. *)
Fixpoint metrics_calls (tr : list Event) : list MetricsCall :=
  match tr with
  | [] => []
  | Metrics c :: rest => c :: metrics_calls rest
  | _ :: rest => metrics_calls rest
  end.

(** The statuses passed to [end_pipeline] for [run_id], in order. *)
Fixpoint end_statuses (run_id : string) (tr : list Event) : list string :=
  match tr with
  | [] => []
  | Metrics (end_pipeline_call r s) :: rest =>
      if String.eqb r run_id then s :: end_statuses run_id rest
      else end_statuses run_id rest
  | _ :: rest => end_statuses run_id rest
  end.

(** [start_pipeline] was called at some point. *)
Fixpoint run_registered (tr : list Event) : bool :=
  match tr with
  | [] => false
  | Metrics (start_pipeline_call _) :: _ => true
  | _ :: rest => run_registered rest
  end.

(* ================================================================== *)
(** ** src/utils/error_handler.py (not part of the available sources) *)

(** Modelled from the spec: [ErrorHandler.handle_error] is missing from
    the sources.  Section 4.3: "handle_error(error, context: mapping of
    string to string) - always succeeds (does not raise), logs or
    forwards the error with context attached, and returns nothing." *)
Definition handle_error (e : Exn) (context : list (string * string)) : M unit :=
  emit (HandleError e context).

(* ================================================================== *)
(** ** src/transform/validator.py *)

(** The dictionary returned by [validate]. [quality_score] is read with
    [.get('quality_score', 100)], so it may be absent. *)
Record Verdict := mkVerdict {
  is_valid : bool;
  warnings : list string;
  quality_score : option Z
}.

Module DataValidator.

(** "Always valid for demo purposes" *)
Definition validate (df : DataFrame) (table_name : string) : Verdict :=
  mkVerdict true [] (Some 100%Z).

End DataValidator.

(* ================================================================== *)
(** ** Configuration and environment *)

(** A mapping with scalar values, as [yaml.safe_load] builds it. *)
Definition Dict := list (string * string).

(** The configuration mapping: each recognised top-level key may be
    absent. *)
Record Config := mkConfig {
  cfg_source : option Dict;
  cfg_target : option Dict;
  cfg_quality : option Dict;
  cfg_monitoring : option Dict
}.

(** What [yaml.safe_load] returned: a mapping, or a value of another
    type (an empty file gives [None]). *)
Inductive Yaml :=
| YDict (c : Config)
| YOther (type_name : string).

Inductive Mode := full | incremental.

(** What [parser.parse_args()] makes of [sys.argv[1:]] for the parser
    built by [main]: the options it found ([--mode] is one of its two
    choices, [--table] and [--config] are strings, each absent when not
    given), or the end of the process: after printing the help for
    [-h]/[--help], or after printing the usage and an error message for
    a command line the parser rejects. *)
Inductive CommandLine :=
| Options (mode : option Mode) (table : option string) (config : option string)
| HelpRequested
| UsageError (message : string).

(** Everything the program reads from outside. *)
Record Env := mkEnv {
  (** [datetime.now().strftime('%Y%m%d_%H%M%S')] *)
  clock : string;
  (** [pd.Timestamp.now()] *)
  timestamp_now : Value;
  (** [p.exists()] for the path whose [str] is given *)
  path_exists : string -> bool;
  (** [open(path)] followed by [yaml.safe_load] *)
  load_yaml : string -> Try Yaml;
  (** [logger.add(sink, level=...)]: the exception it raises, if any *)
  logger_add : string -> string -> option Exn;
  (** [pd.read_csv(path, parse_dates=..., na_values=...)] for the path
      whose [str] is given *)
  read_csv : string -> list string -> Try DataFrame;
  (** [sqlite3.connect(db_path)] followed by [pd.read_sql_query(query, conn)] *)
  read_sql_query : string -> string -> Try DataFrame;
  (** [sqlalchemy.create_engine(url)]: the exception it raises, if any *)
  create_engine : string -> option Exn;
  (** [df.to_sql(table, engine, if_exists=...)]: the exception it raises, if any *)
  to_sql : string -> string -> DataFrame -> string -> option Exn;
  (** [sys.argv[1:]] as [argparse] reads it *)
  command_line : CommandLine
}.

(** [d[k]] on a mapping *)
Definition dict_item {V} (d : list (string * V)) (k : string) : Try V :=
  match assoc_get k d with
  | Some v => Returned v
  | None => Threw (KeyError k)
  end.

(** [d.get(k, default)] *)
Definition dict_get {V} (d : list (string * V)) (k : string) (default : V) : V :=
  match assoc_get k d with
  | Some v => v
  | None => default
  end.

Definition and_then {A B} (t : Try A) (k : A -> Try B) : Try B :=
  match t with
  | Returned a => k a
  | Threw e => Threw e
  end.

Notation "'let?' x ':=' t 'in' k" := (and_then t (fun x => k))
  (at level 10, x name, t at level 100, k at level 200).

(** *** [pathlib] on POSIX *)

(** A pure path as [pathlib] keeps it: the root (empty, [/] or [//])
    and the components after it. *)
Record PurePath := mkPath {
  path_root : string;
  path_parts : list string
}.

Definition is_absolute (p : string) : bool :=
  match p with
  | String c _ => Ascii.eqb c "/"%char
  | EmptyString => false
  end.

Fixpoint has_slash (s : string) : bool :=
  match s with
  | EmptyString => false
  | String c r => Ascii.eqb c "/"%char || has_slash r
  end.

(** [s.split('/')] *)
Fixpoint split_slash (s : string) : list string :=
  match s with
  | EmptyString => [EmptyString]
  | String c r =>
      if Ascii.eqb c "/"%char then EmptyString :: split_slash r
      else match split_slash r with
           | piece :: pieces => String c piece :: pieces
           | [] => [String c EmptyString]
           end
  end.

(** [len(s) - len(s.lstrip('/'))] *)
Fixpoint leading_slashes (s : string) : nat :=
  match s with
  | String c r => if Ascii.eqb c "/"%char then S (leading_slashes r) else 0
  | EmptyString => 0
  end.

(** The root [splitroot] gives: exactly two leading slashes are kept,
    any other number of them is one slash. *)
Definition root_of (s : string) : string :=
  match leading_slashes s with
  | 0 => ""
  | 2 => "//"
  | _ => "/"
  end.

(** [x and x != '.']: the pieces [parse_parts] keeps *)
Definition is_component (piece : string) : bool :=
  negb (String.eqb piece "" || String.eqb piece ".").

(** [Path(s)] *)
Definition Path (s : string) : PurePath :=
  mkPath (root_of s) (filter is_component (split_slash s)).

(** [dir / child]: an absolute [child] replaces [dir]. *)
Definition path_join (dir : PurePath) (child : string) : PurePath :=
  if is_absolute child then Path child
  else mkPath (path_root dir) (path_parts dir ++ path_parts (Path child)).

(** [str(p)] *)
Definition path_str (p : PurePath) : string :=
  match path_root p, path_parts p with
  | EmptyString, [] => "."
  | root, parts => root ++ String.concat "/" parts
  end.

(** [p.name]: the final component, empty when there is none *)
Definition path_name (p : PurePath) : string := last (path_parts p) "".

(* ================================================================== *)
(** ** src/extract/csv_extractor.py *)

Module CSVExtractor.

Record t := mk { source_path : PurePath }.

Definition init (env : Env) (source_path : string) : M t :=
  let self_source_path := Path source_path in
  if negb (path_exists env (path_str self_source_path)) then
    throw (FileNotFoundError ("Source path does not exist: " ++ source_path))
  else
    logger_info ("CSV Extractor initialized with path: " ++ source_path) ;;
    ret (mk self_source_path).

Definition _get_date_columns (table_name : string) : list string :=
  dict_get
    [ ("orders", ["order_date"; "ship_date"]);
      ("customers", ["registration_date"; "last_purchase_date"]);
      ("products", ["created_at"; "updated_at"]) ]
    table_name [].

(** The two assignments after [pd.read_csv]. *)
Definition add_metadata (env : Env) (file_name : string) (df : DataFrame) : DataFrame :=
  let df1 := setitem df "_extracted_at"
               (broadcast datetime64 (timestamp_now env) (nrows df)) in
  setitem df1 "_source_file" (broadcast object_ (VStr file_name) (nrows df1)).

Definition extract (env : Env) (self : t) (table_name : string) : M DataFrame :=
  let file_path := path_join (source_path self) (table_name ++ ".csv") in
  if negb (path_exists env (path_str file_path)) then
    throw (FileNotFoundError ("CSV file not found: " ++ path_str file_path))
  else
    logger_info ("Extracting from: " ++ path_str file_path) ;;
    try_except
      (df0 <- lift (read_csv env (path_str file_path) (_get_date_columns table_name)) ;;
       let df := add_metadata env (path_name file_path) df0 in
       logger_info ("Successfully extracted " ++ str_of_nat (len df) ++ " rows from "
                    ++ path_name file_path) ;;
       ret df)
      (fun e =>
         logger_error ("Failed to extract from " ++ path_str file_path ++ ": "
                       ++ exn_msg e) ;;
         throw e).

End CSVExtractor.

(* ================================================================== *)
(** ** src/extract/db_extractor.py *)

Module DatabaseExtractor.

Record t := mk { db_path : string; db_type : string }.

Definition init (db_path db_type : string) : t := mk db_path db_type.

Definition extract_table (env : Env) (self : t) (table_name : string) : M DataFrame :=
  if negb (String.eqb (db_type self) "sqlite") then
    throw (mkExn "ValueError" "Only sqlite is supported in this demo project")
  else
    lift (read_sql_query env (db_path self) ("SELECT * FROM " ++ table_name)).

End DatabaseExtractor.

(* ================================================================== *)
(** ** src/load/db_loader.py *)

Module DatabaseLoader.

Record t := mk { engine : string }.

Definition init (env : Env) (config : Dict) : M t :=
  user <- lift (dict_item config "user") ;;
  password <- lift (dict_item config "password") ;;
  host <- lift (dict_item config "host") ;;
  port <- lift (dict_item config "port") ;;
  db <- lift (dict_item config "database") ;;
  let url := "postgresql://" ++ user ++ ":" ++ password ++ "@" ++ host ++ ":"
             ++ port ++ "/" ++ db in
  match create_engine env url with
  | Some e => throw e
  | None => ret (mk url)
  end.

Definition write (env : Env) (self : t) (df : DataFrame) (table_name if_exists : string)
  : M unit :=
  match to_sql env (engine self) table_name df if_exists with
  | Some e => throw e
  | None => emit (ToSql table_name df if_exists)
  end.

Definition load_full (env : Env) (self : t) (df : DataFrame) (table_name : string) : M nat :=
  write env self df table_name "replace" ;;
  ret (len df).

Definition load_incremental (env : Env) (self : t) (df : DataFrame) (table_name : string)
  : M nat :=
  write env self df table_name "append" ;;
  ret (len df).

End DatabaseLoader.

(** The target store after the writes of a trace, starting from [store]. *)
Fixpoint target_store {pandas_ops : Pandas} (tr : list Event) (store : list (string * DataFrame))
  : list (string * DataFrame) :=
  match tr with
  | [] => store
  | ToSql tb df if_exists :: rest =>
      target_store rest
        (if String.eqb if_exists "replace" then assoc_set tb df store
         else match assoc_get tb store with
              | Some old => assoc_set tb (append_rows old df) store
              | None => assoc_set tb df store
              end)
  | _ :: rest => target_store rest store
  end.

(* ================================================================== *)
(** ** src/pipeline/orchestrator.py *)

(** Python truthiness of an optional string: [None] and [''] are false. *)
Definition truthy (s : option string) : bool :=
  match s with
  | Some v => negb (String.eqb v "")
  | None => false
  end.

(** [str(z)] and [f"{z:.2f}"] for an integer *)
Definition str_of_Z (z : Z) : string := NilEmpty.string_of_int (Z.to_int z).
Definition fmt_2f (z : Z) : string := str_of_Z z ++ ".00".

(** What a Python variable holding "a DataFrame or nothing" can be. *)
Inductive PyObj :=
| PyNone
| PyDataFrame (df : DataFrame).

Record ETLOrchestrator := mkOrchestrator {
  config : Config;
  self_metrics : PipelineMetrics.t
}.

(** The namespace [parser.parse_args()] returns. *)
Record Args := mkArgs {
  args_mode : Mode;
  args_table : option string;
  args_config : string
}.

(** The namespace for the options found: [default='full'] for
    [--mode], [default='config/config.yaml'] for [--config], and [None]
    for an absent [--table]. *)
Definition namespace (mode : option Mode) (table config : option string) : Args :=
  mkArgs (match mode with Some m => m | None => full end)
         table
         (match config with Some c => c | None => "config/config.yaml" end).

(** [sys.exit(code)] *)
Definition sys_exit {A} (code : Z) : M A := ([], Raise (SystemExit code)).

Section Orchestrator.

Context {pandas_ops : Pandas}.

(** The world outside the process. *)
Variable env : Env.

(** [DataCleaner().clean], from src/transform/cleaner.py, which is not
    part of the available sources: a parameter of the development. *)
Variable clean : DataFrame -> string -> Try DataFrame.

(** [validator.validate].  The program passes [DataValidator.validate];
    the orchestrator only relies on the shape of the verdict. *)
Variable validate : DataFrame -> string -> Verdict.

Definition _load_config (config_path : string) : M Yaml :=
  lift (load_yaml env config_path).

Definition _setup_logging (loaded : Yaml) : M unit :=
  match loaded with
  | YOther ty => throw (AttributeError ("'" ++ ty ++ "' object has no attribute 'get'"))
  | YDict cfg =>
      let log_config := match cfg_monitoring cfg with Some d => d | None => [] end in
      let log_level := dict_get log_config "log_level" "INFO" in
      let log_path := dict_get log_config "log_path" "logs/etl_pipeline.log" in
      match logger_add env "sys.stdout" log_level with
      | Some e => throw e
      | None =>
          match logger_add env log_path log_level with
          | Some e => throw e
          | None => ret tt
          end
      end
  end.

(** [ETLOrchestrator.__init__] *)
Definition init (config_path : string) : M ETLOrchestrator :=
  loaded <- _load_config config_path ;;
  _setup_logging loaded ;;
  match loaded with
  | YOther ty =>
      (* not reached: [_setup_logging] has raised already *)
      throw (AttributeError ("'" ++ ty ++ "' object has no attribute 'get'"))
  | YDict cfg =>
      logger_info "ETL Orchestrator initialized" ;;
      ret (mkOrchestrator cfg PipelineMetrics.new)
  end.

(** [self.config['source'][key]] *)
Definition source_setting (self : ETLOrchestrator) (key : string) : Try string :=
  match cfg_source (config self) with
  | None => Threw (KeyError "source")
  | Some d => dict_item d key
  end.

(** One turn of the CSV loop of [_extract_phase]. *)
Definition extract_csv_table (csv_extractor : CSVExtractor.t) (csv_table : string)
  (extracted_data : list (string * DataFrame)) : M (list (string * DataFrame)) :=
  logger_info ("Extracting from CSV: " ++ csv_table) ;;
  try_except
    (df <- CSVExtractor.extract env csv_extractor csv_table ;;
     logger_info ("Extracted " ++ str_of_nat (len df) ++ " records from " ++ csv_table) ;;
     metrics (record_extraction_call csv_table (len df)) ;;
     ret (assoc_set csv_table df extracted_data))
    (fun e =>
       logger_error ("Failed to extract " ++ csv_table ++ ": " ++ exn_msg e) ;;
       handle_error e [("table", csv_table)] ;;
       ret extracted_data).

(** The SQLite block of [_extract_phase]. *)
Definition extract_products (db_extractor : DatabaseExtractor.t)
  (extracted_data : list (string * DataFrame)) : M (list (string * DataFrame)) :=
  logger_info "Extracting from SQLite: products" ;;
  try_except
    (df <- DatabaseExtractor.extract_table env db_extractor "products" ;;
     logger_info ("Extracted " ++ str_of_nat (len df) ++ " records from products") ;;
     metrics (record_extraction_call "products" (len df)) ;;
     ret (assoc_set "products" df extracted_data))
    (fun e =>
       logger_error ("Failed to extract products: " ++ exn_msg e) ;;
       handle_error e [("table", "products")] ;;
       ret extracted_data).

(** [[table] if table else ['orders', 'customers']] *)
Definition csv_tables (table : option string) : list string :=
  match table with
  | Some tb => if truthy table then [tb] else ["orders"; "customers"]
  | None => ["orders"; "customers"]
  end.

(** [table is None or table == 'products'] *)
Definition wants_products (table : option string) : bool :=
  match table with
  | None => true
  | Some tb => String.eqb tb "products"
  end.

Definition _extract_phase (self : ETLOrchestrator) (table : option string)
  : M (list (string * DataFrame)) :=
  csv_path <- lift (source_setting self "csv_path") ;;
  csv_extractor <- CSVExtractor.init env csv_path ;;
  extracted_data <- for_each (csv_tables table) (extract_csv_table csv_extractor) [] ;;
  if wants_products table then
    sqlite_db <- lift (source_setting self "sqlite_db") ;;
    extract_products (DatabaseExtractor.init sqlite_db "sqlite") extracted_data
  else
    ret extracted_data.

Definition _extract_incremental (self : ETLOrchestrator) (table : string) : M PyObj :=
  logger_info ("Incremental extraction for " ++ table ++ " (CDC/timestamp-based)") ;;
  ret PyNone.

Definition _apply_business_logic (df : DataFrame) (table_name : string) : Try DataFrame :=
  if String.eqb table_name "orders" then
    let? df1 :=
      (if in_columns "quantity" df && in_columns "unit_price" df then
         let? quantity := getitem df "quantity" in
         let? unit_price := getitem df "unit_price" in
         let? total := series_mul quantity unit_price in
         Returned (setitem df "total_amount" total)
       else Returned df) in
    let? order_date := getitem df1 "order_date" in
    let? year := dt_year order_date in
    let df2 := setitem df1 "order_year" year in
    let? order_date' := getitem df2 "order_date" in
    let? month := dt_month order_date' in
    Returned (setitem df2 "order_month" month)
  else if String.eqb table_name "customers" then
    if in_columns "email" df then
      let? email := getitem df "email" in
      let? email' := series_str_lower_strip email in
      Returned (setitem df "email" email')
    else Returned df
  else if String.eqb table_name "products" then
    if in_columns "price" df && in_columns "cost" df then
      let? price := getitem df "price" in
      let? cost := getitem df "cost" in
      let? margin := series_margin_pct price cost in
      Returned (setitem df "margin_pct" margin)
    else Returned df
  else Returned df.

(** The [if not validation_result['is_valid']] block. *)
Definition log_validation (table_name : string) (validation_result : Verdict) : M unit :=
  if negb (is_valid validation_result) then
    logger_warning ("Validation warnings for " ++ table_name ++ ":") ;;
    for_each (warnings validation_result)
      (fun warning _ => logger_warning ("    - " ++ warning)) tt
  else ret tt.

(** One turn of the loop of [_transform_phase]. *)
Definition transform_table (item : string * DataFrame)
  (transformed_data : list (string * DataFrame)) : M (list (string * DataFrame)) :=
  let (table_name, df) := item in
  logger_info ("Transforming: " ++ table_name) ;;
  try_except
    (logger_info ("  - Cleansing " ++ table_name) ;;
     df_clean <- lift (clean df table_name) ;;
     logger_info ("  - Validating " ++ table_name) ;;
     let validation_result := validate df_clean table_name in
     log_validation table_name validation_result ;;
     logger_info ("  - Applying business logic to " ++ table_name) ;;
     df_transformed <- lift (_apply_business_logic df_clean table_name) ;;
     logger_success ("Transformed " ++ str_of_nat (len df_transformed)
                     ++ " records for " ++ table_name) ;;
     metrics (record_transformation_call table_name (len df) (len df_transformed)
                (match quality_score validation_result with
                 | Some q => q
                 | None => 100%Z
                 end)) ;;
     ret (assoc_set table_name df_transformed transformed_data))
    (fun e =>
       logger_error ("Transformation failed for " ++ table_name ++ ": " ++ exn_msg e) ;;
       handle_error e [("table", table_name); ("phase", "transform")] ;;
       throw e).

Definition _transform_phase (self : ETLOrchestrator)
  (extracted_data : list (string * DataFrame)) : M (list (string * DataFrame)) :=
  for_each extracted_data transform_table [].

(** One turn of the loop of [_load_phase]. *)
Definition load_table (loader : DatabaseLoader.t) (mode : string)
  (item : string * DataFrame) (_ : unit) : M unit :=
  let (table_name, df) := item in
  logger_info ("Loading: " ++ table_name ++ " (" ++ mode ++ " mode)") ;;
  try_except
    (records_loaded <-
       (if String.eqb mode "full" then DatabaseLoader.load_full env loader df table_name
        else DatabaseLoader.load_incremental env loader df table_name) ;;
     logger_success ("Loaded " ++ str_of_nat records_loaded ++ " records to " ++ table_name) ;;
     metrics (record_load_call table_name records_loaded))
    (fun e =>
       logger_error ("Load failed for " ++ table_name ++ ": " ++ exn_msg e) ;;
       handle_error e [("table", table_name); ("phase", "load")] ;;
       throw e).

Definition _load_phase (self : ETLOrchestrator)
  (transformed_data : list (string * DataFrame)) (mode : string) : M unit :=
  target <- lift (match cfg_target (config self) with
                  | Some d => Returned d
                  | None => Threw (KeyError "target")
                  end) ;;
  loader <- DatabaseLoader.init env target ;;
  for_each transformed_data (load_table loader mode) tt.

Definition _print_summary (self : ETLOrchestrator) (run_id : string) : M unit :=
  let summary := PipelineMetrics.get_summary (self_metrics self) run_id in
  logger_info rule60 ;;
  logger_info "PIPELINE EXECUTION SUMMARY" ;;
  logger_info rule60 ;;
  logger_info ("Run ID: " ++ run_id) ;;
  logger_info ("Status: " ++ status summary) ;;
  logger_info ("Duration: " ++ fmt_2f (duration_seconds summary) ++ " seconds") ;;
  logger_info ("Records Extracted: " ++ str_of_Z (total_extracted summary)) ;;
  logger_info ("Records Loaded: " ++ str_of_Z (total_loaded summary)) ;;
  logger_info ("Quality Score: " ++ fmt_2f (avg_quality_score summary) ++ "%") ;;
  logger_info rule60.

(** The three banner lines that open a phase. *)
Definition phase_banner (title : string) : M unit :=
  logger_info rule60 ;;
  logger_info title ;;
  logger_info rule60.

(** The [except Exception as e] clause shared by both entry points. *)
Definition on_failure (run_id what : string) (context : list (string * string))
  (e : Exn) : M unit :=
  metrics (end_pipeline_call run_id "FAILED") ;;
  logger_error (what ++ exn_msg e) ;;
  handle_error e context ;;
  throw e.

(** [not extracted_data] on a dictionary *)
Definition dict_is_empty {V} (d : list (string * V)) : bool :=
  match d with
  | [] => true
  | _ => false
  end.

Definition run_full_pipeline (self : ETLOrchestrator) (table : option string) : M unit :=
  let run_id := "run_" ++ clock env in
  logger_info ("Starting full ETL pipeline - Run ID: " ++ run_id) ;;
  metrics (start_pipeline_call run_id) ;;
  try_except
    (phase_banner "PHASE 1: EXTRACT" ;;
     extracted_data <- _extract_phase self table ;;
     if dict_is_empty extracted_data then
       logger_warning "No data extracted. Aborting pipeline."
     else
       phase_banner "PHASE 2: TRANSFORM" ;;
       transformed_data <- _transform_phase self extracted_data ;;
       phase_banner "PHASE 3: LOAD" ;;
       _load_phase self transformed_data "full" ;;
       metrics (end_pipeline_call run_id "SUCCESS") ;;
       logger_success ("ETL Pipeline completed successfully - Run ID: " ++ run_id) ;;
       _print_summary self run_id)
    (on_failure run_id "Pipeline failed: " [("run_id", run_id)]).

(** [run_incremental_pipeline], with the method bound to
    [self._extract_incremental] made explicit. *)
Definition run_incremental_pipeline_with (fetch : ETLOrchestrator -> string -> M PyObj)
  (self : ETLOrchestrator) (table : string) : M unit :=
  let run_id := "incremental_" ++ table ++ "_" ++ clock env in
  logger_info ("Starting incremental ETL pipeline for " ++ table ++ " - Run ID: " ++ run_id) ;;
  metrics (start_pipeline_call run_id) ;;
  try_except
    (logger_info ("Extracting incremental data for " ++ table) ;;
     extracted_data <- fetch self table ;;
     match extracted_data with
     | PyNone =>
         (* [extracted_data.empty] on [None] *)
         throw (AttributeError "'NoneType' object has no attribute 'empty'")
     | PyDataFrame df =>
         if df_empty df then
           logger_info ("No new/changed records for " ++ table) ;;
           metrics (end_pipeline_call run_id "SUCCESS_NO_DATA")
         else
           transformed_data <- _transform_phase self [(table, df)] ;;
           _load_phase self transformed_data "incremental" ;;
           metrics (end_pipeline_call run_id "SUCCESS") ;;
           logger_success ("Incremental pipeline completed - Run ID: " ++ run_id)
     end)
    (on_failure run_id "Incremental pipeline failed: "
       [("run_id", run_id); ("table", table)]).

Definition run_incremental_pipeline (self : ETLOrchestrator) (table : string) : M unit :=
  run_incremental_pipeline_with _extract_incremental self table.

(** [parser.parse_args()] for the parser of [main]: [--mode] defaults to
    ['full'] and [--config] to ['config/config.yaml']; on [--help] the
    process exits with status 0 and on a rejected command line with
    status 2.  What [argparse] prints is not part of the trace. *)
Definition parse_args : M Args :=
  match command_line env with
  | Options mode table config => ret (namespace mode table config)
  | HelpRequested => sys_exit 0
  | UsageError _ => sys_exit 2
  end.

Definition main : M unit :=
  args <- parse_args ;;
  try_except
    (orchestrator <- init (args_config args) ;;
     match args_mode args with
     | full => run_full_pipeline orchestrator (args_table args)
     | incremental =>
         match args_table args with
         | Some tb =>
             if negb (truthy (args_table args)) then
               logger_error "--table is required for incremental mode" ;;
               sys_exit 1
             else run_incremental_pipeline orchestrator tb
         | None =>
             logger_error "--table is required for incremental mode" ;;
             sys_exit 1
         end
     end)
    (fun e =>
       logger_error ("Pipeline execution failed: " ++ exn_msg e) ;;
       sys_exit 1).

(** The exit status of the process running [main]. *)
Definition exit_code (m : M unit) : Z :=
  match outcome m with
  | Ok _ => 0
  | Raise (SystemExit code) => code
  | Raise (Exception _) => 1
  end.

End Orchestrator.

(* ================================================================== *)
(** ** A concrete world, used to run the definitions *)

Module Sample.

(** A stand-in for pandas: products and string clean-up keep the column,
    calendar fields are read off integer-coded dates [yyyymmdd]. *)
Definition cell_mul (a b : Value) : Value :=
  match a, b with
  | VInt x, VInt y => VInt (x * y)
  | _, _ => NA
  end.

Fixpoint zip_with (f : Value -> Value -> Value) (xs ys : list Value) : list Value :=
  match xs, ys with
  | x :: xs', y :: ys' => f x y :: zip_with f xs' ys'
  | _, _ => []
  end.

Definition cell_year (v : Value) : Value :=
  match v with VTime n => VInt (n / 10000) | _ => NA end.
Definition cell_month (v : Value) : Value :=
  match v with VTime n => VInt ((n / 100) mod 100) | _ => NA end.

#[export] Instance pandas : Pandas := {|
  series_mul a b := Returned (mkSeries int64 (zip_with cell_mul (values a) (values b)));
  series_margin_pct price cost := Returned price;
  series_str_lower_strip s := Returned s;
  calendar_year s := mkSeries int64 (map cell_year (values s));
  calendar_month s := mkSeries int64 (map cell_month (values s));
  append_rows old new :=
    mkDF (nrows old + nrows new)
      (map (fun c => (fst c,
              mkSeries (dtype (snd c))
                (values (snd c) ++
                 match assoc_get (fst c) (columns new) with
                 | Some s => values s
                 | None => repeat NA (nrows new)
                 end)))
         (columns old))
|}.

Definition orders_csv : DataFrame :=
  mkDF 2 [ ("order_id", mkSeries int64 [VInt 1; VInt 2]);
           ("quantity", mkSeries int64 [VInt 3; VInt 1]);
           ("unit_price", mkSeries int64 [VInt 10; VInt 25]);
           ("order_date", mkSeries datetime64 [VTime 20240131; VTime 20240215]) ].

Definition customers_csv : DataFrame :=
  mkDF 1 [ ("customer_id", mkSeries object_ [VStr "CUST000001"]);
           ("email", mkSeries object_ [VStr "john.smith0@example.com"]) ].

Definition products_table : DataFrame :=
  mkDF 1 [ ("product_id", mkSeries int64 [VInt 7]);
           ("price", mkSeries int64 [VInt 20]);
           ("cost", mkSeries int64 [VInt 12]) ].

Definition cfg : Config :=
  mkConfig
    (Some [("csv_path", "data/source"); ("sqlite_db", "data/source/products.db")])
    (Some [("user", "etl"); ("password", "secret"); ("host", "localhost");
           ("port", "5432"); ("database", "warehouse")])
    None None.

Definition self : ETLOrchestrator := mkOrchestrator cfg PipelineMetrics.new.

(** A world with the given files under [data/source], the given answer
    of the product database, and a target that fails every write with
    [target_down] when that is set. *)
Definition world (files : list (string * DataFrame)) (db : Try DataFrame)
  (target_down : option Exn) : Env :=
  mkEnv "20240301_120000" (VTime 20240301)
    (fun p => String.eqb p "data/source" || has_key p files)
    (fun p => if String.eqb p "config/config.yaml" then Returned (YDict cfg)
              else Threw (FileNotFoundError p))
    (fun _ _ => None)
    (fun p _ => match assoc_get p files with
                | Some df => Returned df
                | None => Threw (FileNotFoundError p)
                end)
    (fun _ _ => db)
    (fun _ => None)
    (fun _ _ _ _ => target_down)
    (Options None None None).

(** Both CSV files and the product database are there. *)
Definition healthy : Env :=
  world [("data/source/orders.csv", orders_csv);
         ("data/source/customers.csv", customers_csv)]
        (Returned products_table) None.

(** [customers.csv] is missing. *)
Definition no_customers : Env :=
  world [("data/source/orders.csv", orders_csv)] (Returned products_table) None.

(** Nothing can be extracted. *)
Definition barren : Env :=
  world [] (Threw (mkExn "DatabaseError" "no such table: products")) None.

Definition connection_refused : Exn := mkExn "OperationalError" "connection refused".

(** The sources are fine, the target database is down. *)
Definition target_offline : Env :=
  world [("data/source/orders.csv", orders_csv);
         ("data/source/customers.csv", customers_csv)]
        (Returned products_table) (Some connection_refused).

(** An export whose header already has a [_source_file] column. *)
Definition exports_csv : DataFrame :=
  mkDF 1 [ ("id", mkSeries int64 [VInt 1]);
           ("_source_file", mkSeries object_ [VStr "legacy.xls"]) ].

Definition with_exports : Env :=
  world [("data/source/exports.csv", exports_csv)] (Returned products_table) None.

(** Products are there twice: as [products.csv] and in the database. *)
Definition products_twice : Env :=
  world [("data/source/products.csv", products_table)] (Returned products_table) None.

(** The world [env], with the process started on another command
    line. *)
Definition invoked (line : CommandLine) (env : Env) : Env :=
  mkEnv (clock env) (timestamp_now env) (path_exists env) (load_yaml env)
    (logger_add env) (read_csv env) (read_sql_query env) (create_engine env)
    (to_sql env) line.

(** What the extract phase returns in [healthy]. *)
Definition extracted : list (string * DataFrame) :=
  [ ("orders", CSVExtractor.add_metadata healthy "orders.csv" orders_csv);
    ("customers", CSVExtractor.add_metadata healthy "customers.csv" customers_csv);
    ("products", products_table) ].

Definition keep (df : DataFrame) (table_name : string) : Try DataFrame := Returned df.

(** A validator that rejects everything. *)
Definition strict (df : DataFrame) (table_name : string) : Verdict :=
  mkVerdict false ["missing values"; "duplicate keys"] (Some 40%Z).

End Sample.

(* ================================================================== *)
(** ** Vocabulary of the statements *)

(** The computation writes only events that satisfy [P], and it ends by
    returning or by raising an ordinary exception, never [SystemExit]. *)
Definition tame {A} (P : Event -> Prop) (m : M A) : Prop :=
  Forall P (trace m) /\ forall code, outcome m <> Raise (SystemExit code).

(** [df] has no column [c] on which [.dt.year] and [.dt.month] exist. *)
Definition lacks_calendar_column (c : string) (df : DataFrame) : bool :=
  match assoc_get c (columns df) with
  | None => true
  | Some s => negb (has_calendar_fields (dtype s))
  end.

(** The exception of [df['order_date'].dt.year] on such a frame. *)
Definition order_date_error (df : DataFrame) : Exn :=
  match assoc_get "order_date" (columns df) with
  | None => KeyError "order_date"
  | Some s =>
      match dt_accessor s with
      | Threw e => e
      | Returned _ => AttributeError "'TimedeltaProperties' object has no attribute 'year'"
      end
  end.

(** The row counts passed to [record_extraction], summed. *)
Fixpoint extraction_total (calls : list MetricsCall) : Z :=
  match calls with
  | [] => 0
  | record_extraction_call _ n :: rest => Z.of_nat n + extraction_total rest
  | _ :: rest => extraction_total rest
  end.

(** What an aggregating collector would report: [total_extracted] is
    the sum of the recorded extraction counts. *)
Definition summary_totals_extractions (calls : list MetricsCall) (run_id : string) : Prop :=
  total_extracted (PipelineMetrics.get_summary (PipelineMetrics.after calls) run_id)
  = extraction_total calls.

(** The event is not a call of [end_pipeline]. *)
Definition not_end_pipeline (ev : Event) : Prop :=
  match ev with
  | Metrics (end_pipeline_call _ _) => False
  | _ => True
  end.

(** *** The shapes a full run can take *)

Section FullRunShape.

Context {pandas_ops : Pandas}.
Variable env : Env.
Variable clean : DataFrame -> string -> Try DataFrame.
Variable validate : DataFrame -> string -> Verdict.
Variable self : ETLOrchestrator.
Variable table : option string.

(** The run id of a full run. *)
Definition full_run_id : string := "run_" ++ clock env.

(** Written before the extract phase starts. *)
Definition full_run_head : list Event :=
  [ Log INFO ("Starting full ETL pipeline - Run ID: " ++ full_run_id);
    Metrics (start_pipeline_call full_run_id);
    Log INFO rule60; Log INFO "PHASE 1: EXTRACT"; Log INFO rule60 ].

Definition banner_events (title : string) : list Event :=
  [Log INFO rule60; Log INFO title; Log INFO rule60].

(** Written by the [except] clause of an entry point. *)
Definition failure_events (run_id what : string) (context : list (string * string))
  (e : Exn) : list Event :=
  [ Metrics (end_pipeline_call run_id "FAILED");
    Log ERROR (what ++ exn_msg e);
    HandleError e context ].

Definition full_failure_events (e : Exn) : list Event :=
  failure_events full_run_id "Pipeline failed: " [("run_id", full_run_id)] e.

(** Written after the load phase of a full run. *)
Definition full_success_events : list Event :=
  ([ Metrics (end_pipeline_call full_run_id "SUCCESS");
     Log SUCCESS ("ETL Pipeline completed successfully - Run ID: " ++ full_run_id) ]
   ++ trace (_print_summary self full_run_id))%list.

(** The five ways [run_full_pipeline self table] can go, each with the
    phases it ran, what they wrote, and what the call wrote and
    returned as a whole. *)
Inductive FullRun : M unit -> Prop :=
| extract_raised trx e :
    _extract_phase env self table = (trx, Raise (Exception e)) ->
    FullRun ((full_run_head ++ trx ++ full_failure_events e)%list, Raise (Exception e))
| nothing_extracted trx :
    _extract_phase env self table = (trx, Ok []) ->
    FullRun ((full_run_head ++ trx
              ++ [Log WARNING "No data extracted. Aborting pipeline."])%list, Ok tt)
| transform_raised trx d trt e :
    _extract_phase env self table = (trx, Ok d) -> d <> [] ->
    _transform_phase clean validate self d = (trt, Raise (Exception e)) ->
    FullRun ((full_run_head ++ trx ++ banner_events "PHASE 2: TRANSFORM" ++ trt
              ++ full_failure_events e)%list, Raise (Exception e))
| load_raised trx d trt t trl e :
    _extract_phase env self table = (trx, Ok d) -> d <> [] ->
    _transform_phase clean validate self d = (trt, Ok t) ->
    _load_phase env self t "full" = (trl, Raise (Exception e)) ->
    FullRun ((full_run_head ++ trx ++ banner_events "PHASE 2: TRANSFORM" ++ trt
              ++ banner_events "PHASE 3: LOAD" ++ trl
              ++ full_failure_events e)%list, Raise (Exception e))
| completed trx d trt t trl :
    _extract_phase env self table = (trx, Ok d) -> d <> [] ->
    _transform_phase clean validate self d = (trt, Ok t) ->
    _load_phase env self t "full" = (trl, Ok tt) ->
    FullRun ((full_run_head ++ trx ++ banner_events "PHASE 2: TRANSFORM" ++ trt
              ++ banner_events "PHASE 3: LOAD" ++ trl
              ++ full_success_events)%list, Ok tt).

End FullRunShape.

(** *** Extraction attempts of a full run *)

Section Attempts.

Variable env : Env.
Variable self : ETLOrchestrator.

(** [CSVExtractor(csv_path).extract(t)] for the configured path. *)
Definition csv_attempt (t : string) : Outcome DataFrame :=
  match source_setting self "csv_path" with
  | Returned p => outcome (CSVExtractor.extract env (CSVExtractor.mk (Path p)) t)
  | Threw e => Raise (Exception e)
  end.

(** [DatabaseExtractor(sqlite_db).extract_table('products')] *)
Definition products_attempt : Outcome DataFrame :=
  match source_setting self "sqlite_db" with
  | Returned p =>
      outcome (DatabaseExtractor.extract_table env
                 (DatabaseExtractor.init p "sqlite") "products")
  | Threw e => Raise (Exception e)
  end.

(** The extractions [_extract_phase] attempts, in order, each with the
    table it is for and how it ends. *)
Definition extraction_attempts (table : option string)
  : list (string * Outcome DataFrame) :=
  (map (fun t => (t, csv_attempt t)) (csv_tables table)
   ++ (if wants_products table then [("products", products_attempt)] else []))%list.

(** What a sequence of attempts leaves in [extracted_data]. *)
Definition keep_extracted (d : list (string * DataFrame))
  (attempt : string * Outcome DataFrame) : list (string * DataFrame) :=
  match snd attempt with
  | Ok df => assoc_set (fst attempt) df d
  | Raise _ => d
  end.

(** Both extractors can be constructed: the configuration names the CSV
    directory, the directory exists, and the SQLite path is configured
    when products are wanted. *)
Definition extractors_ready (table : option string) : bool :=
  match source_setting self "csv_path" with
  | Returned p =>
      path_exists env (path_str (Path p)) &&
      (negb (wants_products table) ||
       match source_setting self "sqlite_db" with
       | Returned _ => true
       | Threw _ => false
       end)
  | Threw _ => false
  end.

End Attempts.

(** The event is not a write to the target table [tb]. *)
Definition not_written_to (tb : string) (ev : Event) : Prop :=
  match ev with
  | ToSql tb' _ _ => tb' <> tb
  | _ => True
  end.

(** The call re-raises [e], and the one call of [end_pipeline] it made
    is [end_pipeline(run_id, "FAILED")], made in the [except] clause
    just before re-raising. *)
Definition failed_then_raised (run_id : string) (m : M unit) (e : Exn) : Prop :=
  outcome m = Raise (Exception e) /\
  exists before what context,
    trace m = (before ++ failure_events run_id what context e)%list /\
    Forall not_end_pipeline before.

(** Every write to the target store is to one of the tables [ks]. *)
Definition written_within (ks : list string) (ev : Event) : Prop :=
  match ev with
  | ToSql tb _ _ => In tb ks
  | _ => True
  end.

(** The validator [validate] with every verdict turned positive. *)
Definition as_valid (validate : DataFrame -> string -> Verdict)
  : DataFrame -> string -> Verdict :=
  fun df table_name =>
    let v := validate df table_name in
    mkVerdict true (warnings v) (quality_score v).

Definition is_warning (ev : Event) : bool :=
  match ev with
  | Log WARNING _ => true
  | _ => false
  end.

(** A trace without its [logger.warning] lines. *)
Definition without_warnings (tr : list Event) : list Event :=
  filter (fun ev => negb (is_warning ev)) tr.

(** Two computations end the same way and write the same events, except
    possibly for [logger.warning] lines. *)
Definition same_but_warnings {A} (m1 m2 : M A) : Prop :=
  outcome m1 = outcome m2 /\
  without_warnings (trace m1) = without_warnings (trace m2).

(** Every column of [parsed] is in [result] with the same content. *)
Definition original_columns_unchanged (parsed result : DataFrame) : Prop :=
  forall c s, assoc_get c (columns parsed) = Some s ->
              assoc_get c (columns result) = Some s.

(** The two columns [CSVExtractor.extract] assigns, for [n] rows. *)
Definition metadata_columns (env : Env) (file_name : string) (n : nat)
  : list (string * Series) :=
  [ ("_extracted_at", broadcast datetime64 (timestamp_now env) n);
    ("_source_file", broadcast object_ (VStr file_name) n) ].

Definition is_metadata_column (c : string) : Prop :=
  c = "_extracted_at" \/ c = "_source_file".

(** The cleaner never drops column [c]. *)
Definition keeps_column (clean : DataFrame -> string -> Try DataFrame) (c : string) : Prop :=
  forall df table_name df',
    clean df table_name = Returned df' -> in_columns c df = true -> in_columns c df' = true.

(* ================================================================== *)
(** ** src/extract/csv_extractor.py, continued *)

(** [s.endswith(suffix)] *)
Fixpoint ends_with (suffix s : string) : bool :=
  String.eqb s suffix ||
  match s with
  | EmptyString => false
  | String _ r => ends_with suffix r
  end.

Fixpoint has_dot (s : string) : bool :=
  match s with
  | EmptyString => false
  | String c r => Ascii.eqb c "."%char || has_dot r
  end.

(** [s[:s.rfind('.')]] for an [s] that has a dot *)
Fixpoint before_last_dot (s : string) : string :=
  match s with
  | EmptyString => EmptyString
  | String c r => if has_dot r then String c (before_last_dot r) else EmptyString
  end.

(** [PurePath.stem] of a file name: with [i = name.rfind('.')], the
    text before the dot when [0 < i < len(name) - 1], else the name. *)
Definition stem (name : string) : string :=
  match name with
  | EmptyString => EmptyString
  | String c r =>
      if has_dot r && negb (ends_with "." r) then String c (before_last_dot r)
      else name
  end.

Section CSVExtractorMore.

(** Column types of a schema, with [df[col].astype(dtype)] and the text
    of [f"{dtype}"]. *)
Variable DTypeSpec : Type.
Variable astype : Series -> DTypeSpec -> Try Series.
Variable dtype_repr : DTypeSpec -> string.

(** The text of [f"{missing_cols}"] for a set of column names. *)
Variable set_repr : list string -> string.

(** The names of the entries of a directory, as [Path.glob] meets
    them. *)
Variable iterdir : PurePath -> list string.

Variable env : Env.

(** One turn of the loop of [extract_with_schema]. *)
Definition convert_column (item : string * DTypeSpec) (df : DataFrame) : M DataFrame :=
  let (col, dtype) := item in
  if in_columns col df then
    try_except
      (s <- lift (getitem df col) ;;
       s' <- lift (astype s dtype) ;;
       ret (setitem df col s'))
      (fun e =>
         logger_warning ("Could not convert " ++ col ++ " to " ++ dtype_repr dtype
                         ++ ": " ++ exn_msg e) ;;
         ret df)
  else ret df.

Definition extract_with_schema (self : CSVExtractor.t) (table_name : string)
  (schema : list (string * DTypeSpec)) : M DataFrame :=
  df <- CSVExtractor.extract env self table_name ;;
  let missing_cols := filter (fun c => negb (in_columns c df)) (keys schema) in
  (match missing_cols with
   | [] => ret tt
   | _ => logger_warning ("Missing expected columns: " ++ set_repr missing_cols)
   end) ;;
  for_each schema convert_column df.

(** [[f.stem for f in self.source_path.glob('*.csv')]] *)
Definition list_available_files (self : CSVExtractor.t) : list string :=
  map stem (filter (ends_with ".csv") (iterdir (CSVExtractor.source_path self))).

End CSVExtractorMore.

(* ================================================================== *)
(** ** Vocabulary of the statements, continued *)

(** The columns the business rules of a table may assign. *)
Definition touched_columns (table_name : string) : list string :=
  if String.eqb table_name "orders" then ["total_amount"; "order_year"; "order_month"]
  else if String.eqb table_name "customers" then ["email"]
  else if String.eqb table_name "products" then ["margin_pct"]
  else [].

(** The writes to the target, in order: table, frame, [if_exists]. *)
Fixpoint writes (tr : list Event) : list (string * DataFrame * string) :=
  match tr with
  | [] => []
  | ToSql tb df m :: rest => (tb, df, m) :: writes rest
  | _ :: rest => writes rest
  end.

(** The calls of [handle_error], in order. *)
Fixpoint handled (tr : list Event) : list (Exn * list (string * string)) :=
  match tr with
  | [] => []
  | HandleError e ctx :: rest => (e, ctx) :: handled rest
  | _ :: rest => handled rest
  end.

(** [if_exists] for a load mode. *)
Definition if_exists_of (mode : string) : string :=
  if String.eqb mode "full" then "replace" else "append".

(** What one attempt contributes to the metrics calls and to the
    handled errors of the extract phase. *)
Definition attempt_record (a : string * Outcome DataFrame) : list MetricsCall :=
  match snd a with
  | Ok df => [record_extraction_call (fst a) (len df)]
  | Raise _ => []
  end.

Definition attempt_report (a : string * Outcome DataFrame)
  : list (Exn * list (string * string)) :=
  match snd a with
  | Raise (Exception e) => [(e, [("table", fst a)])]
  | _ => []
  end.

(** The keys [DatabaseLoader.__init__] reads from the target section. *)
Definition target_keys : list string := ["user"; "password"; "host"; "port"; "database"].

(** The tables of the [record_transformation] calls, in order. *)
Fixpoint transformed_tables (tr : list Event) : list string :=
  match tr with
  | [] => []
  | Metrics (record_transformation_call tb _ _ _) :: rest => tb :: transformed_tables rest
  | _ :: rest => transformed_tables rest
  end.

Definition only_logs (ev : Event) : Prop :=
  match ev with
  | Log _ _ => True
  | _ => False
  end.

(** No warning line, and every recorded quality score is 100. *)
Definition clean_bill (ev : Event) : Prop :=
  match ev with
  | Log WARNING _ => False
  | Metrics (record_transformation_call _ _ _ q) => q = 100%Z
  | _ => True
  end.

(** A [record_extraction], [record_transformation] or [record_load] call. *)
Definition is_record (c : MetricsCall) : Prop :=
  match c with
  | start_pipeline_call _ | end_pipeline_call _ _ => False
  | _ => True
  end.

(** Every metrics call among the events is a [record_*] call. *)
Definition records_only (ev : Event) : Prop :=
  match ev with
  | Metrics c => is_record c
  | _ => True
  end.


(** A frame after the conversion of one schema column: the column is
    replaced when it is present and [astype] returns, and the frame is
    left alone otherwise. *)
Definition converted {D : Type} (astype : Series -> D -> Try Series)
  (df : DataFrame) (item : string * D) : DataFrame :=
  match assoc_get (fst item) (columns df) with
  | Some s =>
      match astype s (snd item) with
      | Returned s' => setitem df (fst item) s'
      | Threw _ => df
      end
  | None => df
  end.

(** The sentinel line that opens the summary block. *)
Definition summary_title : Event := Log INFO "PIPELINE EXECUTION SUMMARY".

Definition not_summary_title (ev : Event) : Prop := ev <> summary_title.


(* ================================================================== *)
(** * Properties *)

(** ** The pipeline monad *)

Section MonadFacts.

Context {A B : Type}.

Lemma outcome_bind (m : M A) (k : A -> M B) :
  outcome (bind m k) =
  match outcome m with
  | Ok a => outcome (k a)
  | Raise s => Raise s
  end.
Proof.
  destruct m as [tr [a | s]]; simpl; [destruct (k a) |]; reflexivity.
Qed.

Lemma trace_bind (m : M A) (k : A -> M B) :
  trace (bind m k) =
  match outcome m with
  | Ok a => (trace m ++ trace (k a))%list
  | Raise _ => trace m
  end.
Proof.
  destruct m as [tr [a | s]]; simpl; [destruct (k a) |]; reflexivity.
Qed.

Lemma outcome_try_except (body : M A) (handler : Exn -> M A) :
  outcome (try_except body handler) =
  match outcome body with
  | Raise (Exception e) => outcome (handler e)
  | other => other
  end.
Proof.
  destruct body as [tr [a | [e | c]]]; simpl; [| destruct (handler e) |]; reflexivity.
Qed.

Lemma trace_try_except (body : M A) (handler : Exn -> M A) :
  trace (try_except body handler) =
  match outcome body with
  | Raise (Exception e) => (trace body ++ trace (handler e))%list
  | _ => trace body
  end.
Proof.
  destruct body as [tr [a | [e | c]]]; simpl; [| destruct (handler e) |]; reflexivity.
Qed.

End MonadFacts.

Lemma outcome_lift {A} (t : Try A) :
  outcome (lift t) = match t with Returned a => Ok a | Threw e => Raise (Exception e) end.
Proof. destruct t; reflexivity. Qed.

Lemma trace_lift {A} (t : Try A) : trace (lift t) = [].
Proof. destruct t; reflexivity. Qed.

Lemma surjective_run {A} (m : M A) : m = (trace m, outcome m).
Proof. destruct m; reflexivity. Qed.

Section Tame.

Variable P : Event -> Prop.

Lemma tame_ret {A} (a : A) : tame P (ret a).
Proof. split; [constructor | discriminate]. Qed.

Lemma tame_throw {A} (e : Exn) : tame P (@throw A e).
Proof. split; [constructor | discriminate]. Qed.

Lemma tame_lift {A} (t : Try A) : tame P (lift t).
Proof.
  split; [rewrite trace_lift; constructor |].
  rewrite outcome_lift. destruct t; discriminate.
Qed.

Lemma tame_emit (ev : Event) : P ev -> tame P (emit ev).
Proof. intro Hev. split; [repeat constructor; exact Hev | discriminate]. Qed.

Lemma tame_bind {A B} (m : M A) (k : A -> M B) :
  tame P m -> (forall a, outcome m = Ok a -> tame P (k a)) -> tame P (bind m k).
Proof.
  intros [Hm Hx] Hk. unfold tame. rewrite trace_bind, outcome_bind.
  destruct (outcome m) as [a | s] eqn:E.
  - destruct (Hk a eq_refl) as [Hka Hkx]. split; [| exact Hkx].
    apply Forall_app. split; assumption.
  - split; [exact Hm |]. intros c Hc. apply (Hx c). congruence.
Qed.

Lemma tame_try_except {A} (body : M A) (handler : Exn -> M A) :
  tame P body -> (forall e, tame P (handler e)) -> tame P (try_except body handler).
Proof.
  intros [Hb Hx] Hh. unfold tame. rewrite trace_try_except, outcome_try_except.
  destruct (outcome body) as [a | [e | c]] eqn:E.
  - split; [exact Hb | discriminate].
  - destruct (Hh e) as [Hhe Hhx]. split; [| exact Hhx].
    apply Forall_app. split; assumption.
  - exfalso. exact (Hx c eq_refl).
Qed.

Lemma tame_for_each {A S} (xs : list A) (body : A -> S -> M S) :
  (forall x acc, In x xs -> tame P (body x acc)) ->
  forall acc, tame P (for_each xs body acc).
Proof.
  induction xs as [| x rest IH]; intros Hbody acc; simpl.
  - apply tame_ret.
  - apply tame_bind.
    + apply Hbody. left. reflexivity.
    + intros acc' _. apply IH. intros y a Hy. apply Hbody. right. exact Hy.
Qed.

End Tame.

(** ** Dictionaries *)

Lemma assoc_get_set_same {V} (k : string) (v : V) d :
  assoc_get k (assoc_set k v d) = Some v.
Proof.
  induction d as [| [k' v'] rest IH]; simpl.
  - rewrite String.eqb_refl. reflexivity.
  - destruct (String.eqb k k') eqn:E; simpl; rewrite ?String.eqb_refl, ?E; auto.
Qed.

Lemma assoc_get_set_other {V} (k k0 : string) (v : V) d :
  k0 <> k -> assoc_get k0 (assoc_set k v d) = assoc_get k0 d.
Proof.
  intro Hne. induction d as [| [k' v'] rest IH]; simpl.
  - apply String.eqb_neq in Hne. rewrite Hne. reflexivity.
  - destruct (String.eqb k k') eqn:E; simpl.
    + apply String.eqb_eq in E. subst k'.
      apply String.eqb_neq in Hne. rewrite Hne. reflexivity.
    + rewrite IH. reflexivity.
Qed.

Lemma assoc_get_None_keys {V} (k : string) (d : list (string * V)) :
  assoc_get k d = None <-> ~ In k (keys d).
Proof.
  induction d as [| [k' v'] rest IH]; simpl.
  - split; auto.
  - destruct (String.eqb k k') eqn:E.
    + apply String.eqb_eq in E. subst. split; [discriminate | intro Hn; exfalso; auto].
    + apply String.eqb_neq in E. rewrite IH. split.
      * intros Hn [Heq | Hin]; [congruence | auto].
      * intros Hn Hin. auto.
Qed.

Lemma keys_assoc_set {V} (k k0 : string) (v : V) d :
  In k0 (keys (assoc_set k v d)) <-> k0 = k \/ In k0 (keys d).
Proof.
  induction d as [| [k' v'] rest IH]; simpl.
  - intuition congruence.
  - destruct (String.eqb k k') eqn:E; simpl.
    + apply String.eqb_eq in E. subst. intuition congruence.
    + rewrite IH. intuition congruence.
Qed.

Lemma assoc_set_absent {V} (k : string) (v : V) d :
  assoc_get k d = None -> assoc_set k v d = (d ++ [(k, v)])%list.
Proof.
  induction d as [| [k' v'] rest IH]; simpl; intro Hn; [reflexivity |].
  destruct (String.eqb k k'); [discriminate |]. rewrite IH by exact Hn. reflexivity.
Qed.

(** ** Business rules *)

Section BusinessLogic.

Context {pandas_ops : Pandas}.

Lemma columns_setitem_other (df : DataFrame) (c c0 : string) (s : Series) :
  c0 <> c -> assoc_get c0 (columns (setitem df c s)) = assoc_get c0 (columns df).
Proof. intro Hne. simpl. apply assoc_get_set_other. exact Hne. Qed.

Lemma lacks_calendar_column_setitem (df : DataFrame) (c c0 : string) (s : Series) :
  c0 <> c -> lacks_calendar_column c0 (setitem df c s) = lacks_calendar_column c0 df.
Proof.
  intro Hne. unfold lacks_calendar_column.
  rewrite columns_setitem_other by exact Hne. reflexivity.
Qed.

Lemma order_date_error_setitem (df : DataFrame) (c : string) (s : Series) :
  "order_date" <> c -> order_date_error (setitem df c s) = order_date_error df.
Proof.
  intro Hne. unfold order_date_error.
  rewrite columns_setitem_other by exact Hne. reflexivity.
Qed.

(** The unguarded access [df['order_date'].dt.year] fails on a frame
    without a calendar-typed [order_date] column, whatever follows it. *)
Lemma order_date_access_fails {X} (df : DataFrame) (k : Series -> Try X) :
  lacks_calendar_column "order_date" df = true ->
  (let? order_date := getitem df "order_date" in
   let? year := dt_year order_date in k year) = Threw (order_date_error df).
Proof.
  unfold lacks_calendar_column, order_date_error, getitem, dt_year.
  destruct (assoc_get "order_date" (columns df)) as [s |]; simpl; [| reflexivity].
  intro Hlack. unfold dt_accessor.
  destruct (dtype s) eqn:Ed; simpl in *; try reflexivity; try discriminate;
    unfold has_calendar_fields; rewrite Ed; reflexivity.
Qed.

(** C7: for every dataset and every table name other than [orders],
    [customers] and [products], [_apply_business_logic] returns the
    dataset unchanged. *)
Theorem apply_business_logic_default_is_identity (df : DataFrame) (table_name : string) :
  table_name <> "orders" -> table_name <> "customers" -> table_name <> "products" ->
  _apply_business_logic df table_name = Returned df.
Proof.
  intros Ho Hc Hp. unfold _apply_business_logic.
  apply String.eqb_neq in Ho, Hc, Hp. rewrite Ho, Hc, Hp. reflexivity.
Qed.

(** C9: for the table name [orders], [_apply_business_logic] reads
    [order_date] without a presence check: it raises on every dataset
    that has no [order_date] column of a datetime kind, and when the
    guarded [quantity]/[unit_price] step is skipped the exception is
    exactly the one of the [order_date] access. *)
Theorem orders_logic_raises_without_order_date (df : DataFrame) :
  lacks_calendar_column "order_date" df = true ->
  (exists e, _apply_business_logic df "orders" = Threw e) /\
  (in_columns "quantity" df && in_columns "unit_price" df = false ->
   _apply_business_logic df "orders" = Threw (order_date_error df)).
Proof.
  intro Hlack. unfold _apply_business_logic. simpl String.eqb. cbv iota.
  destruct (in_columns "quantity" df && in_columns "unit_price" df) eqn:Eguard.
  - split; [| discriminate].
    destruct (getitem df "quantity") as [q | e]; simpl; [| eauto].
    destruct (getitem df "unit_price") as [u | e]; simpl; [| eauto].
    destruct (series_mul q u) as [total | e]; simpl; [| eauto].
    eexists. apply order_date_access_fails.
    rewrite lacks_calendar_column_setitem by discriminate. exact Hlack.
  - split; [eexists |]; intros; simpl; apply order_date_access_fails; exact Hlack.
Qed.

End BusinessLogic.

Lemma apply_business_logic_default_is_identity_witness :
  _apply_business_logic (pandas_ops := Sample.pandas) Sample.orders_csv "inventory"
  = Returned Sample.orders_csv.
Proof.
  apply apply_business_logic_default_is_identity; discriminate.
Defined.

Lemma orders_logic_raises_without_order_date_witness :
  lacks_calendar_column "order_date" Sample.customers_csv = true /\
  _apply_business_logic (pandas_ops := Sample.pandas) Sample.customers_csv "orders"
  = Threw (KeyError "order_date").
Proof.
  split; [reflexivity |].
  apply (orders_logic_raises_without_order_date Sample.customers_csv); reflexivity.
Defined.

(** ** Metrics collector *)

Lemma metrics_after_is_new (calls : list MetricsCall) :
  PipelineMetrics.after calls = PipelineMetrics.new.
Proof. destruct (PipelineMetrics.after calls). reflexivity. Qed.

Lemma extraction_total_nonneg (calls : list MetricsCall) : (0 <= extraction_total calls)%Z.
Proof.
  induction calls as [| c rest IH]; simpl; [lia |]. destruct c; lia.
Qed.

(** Recording ten extracted rows leaves [total_extracted] at zero. *)
Lemma get_summary_ignores_recorded_rows :
  ~ summary_totals_extractions
      [start_pipeline_call "run_1"; record_extraction_call "orders" 10] "run_1".
Proof. unfold summary_totals_extractions. simpl. discriminate. Qed.

(** C4, as the code has it: [get_summary] returns the same summary for
    every run id and every history of recorded calls: status SUCCESS,
    duration 0, total_extracted 0, total_loaded 0, avg_quality_score
    100.  It never fails, and [total_extracted] equals the sum of the
    recorded extraction counts exactly when that sum is zero. *)
Theorem get_summary_is_constant (calls : list MetricsCall) (run_id : string) :
  PipelineMetrics.get_summary (PipelineMetrics.after calls) run_id
  = mkSummary "SUCCESS" 0 0 0 100 /\
  (summary_totals_extractions calls run_id <-> extraction_total calls = 0%Z).
Proof.
  split; [reflexivity |].
  unfold summary_totals_extractions. simpl. split; intro Heq; congruence.
Qed.

(** ** Command line *)

Section CommandLine.

Context {pandas_ops : Pandas}.
Variable env : Env.
Variable clean : DataFrame -> string -> Try DataFrame.
Variable validate : DataFrame -> string -> Verdict.

(** C6: for every invocation in incremental mode without [--table], the
    process exits with code 1, the last thing it does before exiting is
    to log an error message, and [start_pipeline] is never called. *)
Theorem main_incremental_without_table (config : option string) :
  command_line env = Options (Some incremental) None config ->
  let m := main env clean validate in
  exit_code m = 1%Z /\
  (exists before msg, trace m = (before ++ [Log ERROR msg])%list) /\
  run_registered (trace m) = false.
Proof.
  intro Hline.
  unfold main, parse_args, init, _load_config, _setup_logging, exit_code.
  rewrite Hline. simpl.
  destruct (load_yaml env _) as [[cfg | ty] | e]; simpl.
  - destruct (logger_add env "sys.stdout" _) as [e1 |]; simpl.
    + repeat split. exists [], ("Pipeline execution failed: " ++ exn_msg e1). reflexivity.
    + destruct (logger_add env _ _) as [e2 |]; simpl.
      * repeat split. exists [], ("Pipeline execution failed: " ++ exn_msg e2). reflexivity.
      * repeat split.
        exists [Log INFO "ETL Orchestrator initialized"],
               "--table is required for incremental mode". reflexivity.
  - repeat split. eexists [], _. reflexivity.
  - repeat split. exists [], ("Pipeline execution failed: " ++ exn_msg e). reflexivity.
Qed.

End CommandLine.

Lemma main_incremental_without_table_witness :
  let m := main (pandas_ops := Sample.pandas)
             (Sample.invoked (Options (Some incremental) None None) Sample.healthy)
             Sample.keep DataValidator.validate in
  exit_code m = 1%Z /\
  (exists before msg, trace m = (before ++ [Log ERROR msg])%list) /\
  run_registered (trace m) = false.
Proof.
  apply (main_incremental_without_table (pandas_ops := Sample.pandas)
           (Sample.invoked (Options (Some incremental) None None) Sample.healthy)
           Sample.keep DataValidator.validate None).
  reflexivity.
Defined.

(** ** Calls of [end_pipeline] *)

Lemma end_statuses_app (run_id : string) (tr1 tr2 : list Event) :
  end_statuses run_id (tr1 ++ tr2) = (end_statuses run_id tr1 ++ end_statuses run_id tr2)%list.
Proof.
  induction tr1 as [| ev rest IH]; simpl; [reflexivity |].
  destruct ev as [| [] | |]; simpl; auto.
  destruct (String.eqb _ run_id); simpl; rewrite IH; reflexivity.
Qed.

Lemma end_statuses_quiet (run_id : string) (tr : list Event) :
  Forall not_end_pipeline tr -> end_statuses run_id tr = [].
Proof.
  induction 1 as [| ev rest Hev _ IH]; simpl; [reflexivity |].
  destruct ev as [| [] | |]; simpl in *; auto. contradiction.
Qed.

Create HintDb pipeline.

#[local] Hint Unfold logger_info logger_warning logger_error logger_success metrics
  handle_error phase_banner _print_summary log_validation
  CSVExtractor.init CSVExtractor.extract DatabaseExtractor.extract_table
  DatabaseLoader.init DatabaseLoader.write DatabaseLoader.load_full
  DatabaseLoader.load_incremental
  extract_csv_table extract_products _extract_phase _extract_incremental
  transform_table _transform_phase load_table _load_phase on_failure : pipeline.

(** Breaks a [tame] goal down to the single events, each of which
    [solve_event] has to accept. *)
Ltac tame_with solve_event :=
  repeat (autounfold with pipeline;
    match goal with
    | |- tame _ (ret _) => apply tame_ret
    | |- tame _ (throw _) => apply tame_throw
    | |- tame _ (lift _) => apply tame_lift
    | |- tame _ (emit _) => apply tame_emit; solve_event
    | |- tame _ (bind _ _) => apply tame_bind; [| intros ? _]
    | |- tame _ (try_except _ _) => apply tame_try_except; [| intros ?]
    | |- tame _ (for_each _ _ _) => apply tame_for_each; intros ? ? _
    | |- tame _ (if ?c then _ else _) => destruct c
    | |- tame _ (match ?c with _ => _ end) => destruct c
    end).

Section EndPipeline.

Context {pandas_ops : Pandas}.
Variable env : Env.
Variable clean : DataFrame -> string -> Try DataFrame.
Variable validate : DataFrame -> string -> Verdict.
Variable self : ETLOrchestrator.

Lemma extract_phase_quiet (table : option string) :
  tame not_end_pipeline (_extract_phase env self table).
Proof. tame_with ltac:(exact I). Qed.

Lemma transform_phase_quiet (d : list (string * DataFrame)) :
  tame not_end_pipeline (_transform_phase clean validate self d).
Proof. tame_with ltac:(exact I). Qed.

Lemma load_phase_quiet (d : list (string * DataFrame)) (mode : string) :
  tame not_end_pipeline (_load_phase env self d mode).
Proof. tame_with ltac:(exact I). Qed.

Lemma print_summary_quiet (run_id : string) :
  tame not_end_pipeline (_print_summary self run_id).
Proof. tame_with ltac:(exact I). Qed.

End EndPipeline.

(** ** The shape of a full run *)

Section FullRunFacts.

Context {pandas_ops : Pandas}.
Variable env : Env.
Variable clean : DataFrame -> string -> Try DataFrame.
Variable validate : DataFrame -> string -> Verdict.
Variable self : ETLOrchestrator.

Lemma tame_no_exit {A} (P : Event -> Prop) (m : M A) (tr : list Event) (code : Z) :
  tame P m -> m <> (tr, Raise (SystemExit code)).
Proof. intros [_ Hx] Heq. apply (Hx code). rewrite Heq. reflexivity. Qed.

#[local] Arguments _extract_phase : simpl never.
#[local] Arguments _transform_phase : simpl never.
#[local] Arguments _load_phase : simpl never.
#[local] Arguments _print_summary : simpl never.

(** Traces up to the bracketing of [++]. *)
Ltac same_trace :=
  unfold full_run_head, banner_events, full_failure_events, full_success_events,
    failure_events, full_run_id;
  simpl; repeat (rewrite <- app_assoc; simpl); reflexivity.

Lemma run_full_pipeline_shape (table : option string) :
  FullRun env clean validate self table (run_full_pipeline env clean validate self table).
Proof.
  unfold run_full_pipeline.
  destruct (_extract_phase env self table) as [trx [d | [e | c]]] eqn:Ex.
  - destruct d as [| item d].
    + simpl. apply (nothing_extracted env clean validate self table trx Ex).
    + simpl.
      destruct (_transform_phase clean validate self (item :: d))
        as [trt [t | [e | c]]] eqn:Et.
      * simpl.
        destruct (_load_phase env self t "full") as [trl [[] | [e | c]]] eqn:El.
        -- apply (eq_ind _ (FullRun env clean validate self table)
                    (completed env clean validate self table trx (item :: d) trt t trl
                       Ex ltac:(discriminate) Et El)).
           same_trace.
        -- apply (eq_ind _ (FullRun env clean validate self table)
                    (load_raised env clean validate self table trx (item :: d) trt t trl e
                       Ex ltac:(discriminate) Et El)).
           same_trace.
        -- exfalso. exact (tame_no_exit _ _ _ _ (load_phase_quiet env self t "full") El).
      * apply (eq_ind _ (FullRun env clean validate self table)
                 (transform_raised env clean validate self table trx (item :: d) trt e
                    Ex ltac:(discriminate) Et)).
        same_trace.
      * exfalso.
        exact (tame_no_exit _ _ _ _
                 (transform_phase_quiet clean validate self (item :: d)) Et).
  - apply (eq_ind _ (FullRun env clean validate self table)
             (extract_raised env clean validate self table trx e Ex)).
    same_trace.
  - exfalso. exact (tame_no_exit _ _ _ _ (extract_phase_quiet env self table) Ex).
Qed.

End FullRunFacts.

(** ** Extract phase: failures are contained *)

Lemma outcome_for_each_total {A S} (xs : list A) (body : A -> S -> M S) (f : S -> A -> S) :
  (forall x acc, outcome (body x acc) = Ok (f acc x)) ->
  forall acc, outcome (for_each xs body acc) = Ok (fold_left f xs acc).
Proof.
  intro Hbody. induction xs as [| x rest IH]; intro acc; simpl; [reflexivity |].
  rewrite outcome_bind, Hbody. apply IH.
Qed.

Lemma fold_left_over_map {A B S} (g : A -> B) (f : S -> B -> S) (xs : list A) (acc : S) :
  fold_left f (map g xs) acc = fold_left (fun a x => f a (g x)) xs acc.
Proof.
  revert acc. induction xs as [| x rest IH]; intro acc; simpl; [reflexivity | apply IH].
Qed.

Section ExtractPhase.

Variable env : Env.
Variable self : ETLOrchestrator.

Lemma csv_extract_tame (ex : CSVExtractor.t) (t : string) :
  tame (fun _ => True) (CSVExtractor.extract env ex t).
Proof. tame_with ltac:(exact I). Qed.

Lemma db_extract_tame (ex : DatabaseExtractor.t) (t : string) :
  tame (fun _ => True) (DatabaseExtractor.extract_table env ex t).
Proof. tame_with ltac:(exact I). Qed.

(** A turn of the CSV loop always returns: with the table added when
    the extractor returned, with the dictionary untouched when it
    raised. *)
Lemma extract_csv_table_returns (ex : CSVExtractor.t) (t : string)
  (d : list (string * DataFrame)) :
  outcome (extract_csv_table env ex t d)
  = Ok (keep_extracted d (t, outcome (CSVExtractor.extract env ex t))).
Proof.
  unfold extract_csv_table, keep_extracted.
  rewrite outcome_bind. simpl outcome at 1. cbv iota.
  rewrite outcome_try_except, outcome_bind.
  destruct (csv_extract_tame ex t) as [_ Hx].
  destruct (outcome (CSVExtractor.extract env ex t)) as [df | [e | c]]; simpl.
  - reflexivity.
  - reflexivity.
  - exfalso. exact (Hx c eq_refl).
Qed.

Lemma extract_products_returns (ex : DatabaseExtractor.t) (d : list (string * DataFrame)) :
  outcome (extract_products env ex d)
  = Ok (keep_extracted d
          ("products", outcome (DatabaseExtractor.extract_table env ex "products"))).
Proof.
  unfold extract_products, keep_extracted.
  rewrite outcome_bind. simpl outcome at 1. cbv iota.
  rewrite outcome_try_except, outcome_bind.
  destruct (db_extract_tame ex "products") as [_ Hx].
  destruct (outcome (DatabaseExtractor.extract_table env ex "products"))
    as [df | [e | c]]; simpl.
  - reflexivity.
  - reflexivity.
  - exfalso. exact (Hx c eq_refl).
Qed.

(** Once the extractors are constructed the phase returns, and its
    result holds exactly the tables whose extraction returned. *)
Lemma extract_phase_collects (table : option string) :
  extractors_ready env self table = true ->
  outcome (_extract_phase env self table)
  = Ok (fold_left keep_extracted (extraction_attempts env self table) []).
Proof.
  unfold extractors_ready, _extract_phase, extraction_attempts, csv_attempt,
    products_attempt.
  destruct (source_setting self "csv_path") as [p | e]; [| discriminate].
  intro Hready. apply andb_prop in Hready. destruct Hready as [Hp Hdb].
  rewrite outcome_bind. simpl outcome at 1. cbv iota.
  unfold CSVExtractor.init. cbv zeta. rewrite Hp. simpl negb. cbv iota.
  rewrite outcome_bind. simpl outcome at 1. cbv iota.
  rewrite outcome_bind.
  rewrite (outcome_for_each_total (csv_tables table)
             (extract_csv_table env (CSVExtractor.mk (Path p)))
             (fun d t => keep_extracted d
                           (t, outcome (CSVExtractor.extract env (CSVExtractor.mk (Path p)) t)))).
  2: { intros x acc. apply extract_csv_table_returns. }
  rewrite fold_left_app, fold_left_over_map.
  destruct (wants_products table); simpl in Hdb |- *.
  - destruct (source_setting self "sqlite_db") as [q | e]; [| discriminate].
    rewrite outcome_bind. simpl outcome at 1. cbv iota.
    apply extract_products_returns.
  - reflexivity.
Qed.

End ExtractPhase.

(** ** Error policy of a full run *)

Lemma trace_of_eq {A} (m : M A) tr o : m = (tr, o) -> trace m = tr.
Proof. intros ->. reflexivity. Qed.

Lemma outcome_of_eq {A} (m : M A) tr o : m = (tr, o) -> outcome m = o.
Proof. intros ->. reflexivity. Qed.

Lemma end_statuses_failure (run_id what : string) context (e : Exn) :
  end_statuses run_id (failure_events run_id what context e) = ["FAILED"].
Proof. simpl. rewrite String.eqb_refl. reflexivity. Qed.

Lemma failed_then_raised_statuses (run_id : string) (m : M unit) (e : Exn) :
  failed_then_raised run_id m e -> end_statuses run_id (trace m) = ["FAILED"].
Proof.
  intros [_ (before & what & context & Htr & Hq)].
  rewrite Htr, end_statuses_app, (end_statuses_quiet _ _ Hq), end_statuses_failure.
  reflexivity.
Qed.

Section ErrorPolicy.

Context {pandas_ops : Pandas}.
Variable env : Env.
Variable clean : DataFrame -> string -> Try DataFrame.
Variable validate : DataFrame -> string -> Verdict.
Variable self : ETLOrchestrator.
Variable table : option string.

Lemma head_quiet : Forall not_end_pipeline (full_run_head env).
Proof. repeat constructor. Qed.

Lemma banner_quiet (title : string) : Forall not_end_pipeline (banner_events title).
Proof. repeat constructor. Qed.

Lemma extract_trace_quiet trx o :
  _extract_phase env self table = (trx, o) -> Forall not_end_pipeline trx.
Proof.
  intro Ex. rewrite <- (trace_of_eq _ _ _ Ex). apply (extract_phase_quiet env self table).
Qed.

Lemma transform_trace_quiet d trt o :
  _transform_phase clean validate self d = (trt, o) -> Forall not_end_pipeline trt.
Proof.
  intro Et. rewrite <- (trace_of_eq _ _ _ Et).
  apply (transform_phase_quiet clean validate self d).
Qed.

Lemma load_trace_quiet t mode trl o :
  _load_phase env self t mode = (trl, o) -> Forall not_end_pipeline trl.
Proof.
  intro El. rewrite <- (trace_of_eq _ _ _ El). apply (load_phase_quiet env self t mode).
Qed.

(** Every raising full run has recorded FAILED before re-raising. *)
Lemma full_run_raise_is_recorded (m : M unit) (s : Signal) :
  FullRun env clean validate self table m -> outcome m = Raise s ->
  exists e, s = Exception e /\ failed_then_raised (full_run_id env) m e.
Proof.
  intros Hrun Hs.
  destruct Hrun as [trx e Ex | trx Ex | trx d trt e Ex Hd Et
                   | trx d trt t trl e Ex Hd Et El | trx d trt t trl Ex Hd Et El];
    simpl in Hs; try discriminate; injection Hs as <-; exists e; split; try reflexivity;
    (split; [reflexivity |]); unfold full_failure_events.
  - exists (full_run_head env ++ trx)%list, "Pipeline failed: ",
      [("run_id", full_run_id env)].
    split; [simpl; rewrite <- ?app_assoc; reflexivity |].
    apply Forall_app. split; [apply head_quiet | eapply extract_trace_quiet; eassumption].
  - exists (full_run_head env ++ trx ++ banner_events "PHASE 2: TRANSFORM" ++ trt)%list,
      "Pipeline failed: ", [("run_id", full_run_id env)].
    split; [simpl; repeat (rewrite <- app_assoc; simpl); reflexivity |].
    repeat (apply Forall_app; split);
      eauto using head_quiet, banner_quiet, extract_trace_quiet, transform_trace_quiet.
  - exists (full_run_head env ++ trx ++ banner_events "PHASE 2: TRANSFORM" ++ trt
            ++ banner_events "PHASE 3: LOAD" ++ trl)%list,
      "Pipeline failed: ", [("run_id", full_run_id env)].
    split; [simpl; repeat (rewrite <- app_assoc; simpl); reflexivity |].
    repeat (apply Forall_app; split);
      eauto using head_quiet, banner_quiet, extract_trace_quiet, transform_trace_quiet,
        load_trace_quiet.
Qed.

(** What the phases did, read off the outcome of the whole call. *)
Lemma full_run_outcome (m : M unit) :
  FullRun env clean validate self table m ->
  outcome m =
  match outcome (_extract_phase env self table) with
  | Raise s => Raise s
  | Ok [] => Ok tt
  | Ok d =>
      match outcome (_transform_phase clean validate self d) with
      | Raise s => Raise s
      | Ok t => outcome (_load_phase env self t "full")
      end
  end.
Proof.
  intro Hrun.
  destruct Hrun as [trx e Ex | trx Ex | trx d trt e Ex Hd Et
                   | trx d trt t trl e Ex Hd Et El | trx d trt t trl Ex Hd Et El];
    rewrite Ex; simpl; try reflexivity;
    (destruct d as [| item d]; [congruence |]); rewrite Et; simpl; try reflexivity;
    rewrite El; reflexivity.
Qed.

(** C1: in every execution of [run_full_pipeline], a failing extraction
    of a table is caught inside the extract phase, which goes on and
    returns; an exception of the transform phase or of the load phase
    is re-raised to the caller, after [end_pipeline(run_id, "FAILED")]
    has been recorded. *)
Theorem run_full_pipeline_error_policy :
  let run := run_full_pipeline env clean validate self table in
  (* each extraction turn returns, whatever the extractor does *)
  (forall ex t d, exists d', outcome (extract_csv_table env ex t d) = Ok d') /\
  (forall ex d, exists d', outcome (extract_products env ex d) = Ok d') /\
  (* so the phase goes through all its tables and returns those that
     were extracted, and the call raises only if a later phase does *)
  (extractors_ready env self table = true ->
   let d := fold_left keep_extracted (extraction_attempts env self table) [] in
   outcome (_extract_phase env self table) = Ok d /\
   forall s, outcome run = Raise s ->
     outcome (_transform_phase clean validate self d) = Raise s \/
     exists t, outcome (_transform_phase clean validate self d) = Ok t /\
               outcome (_load_phase env self t "full") = Raise s) /\
  (* a transform failure is recorded as FAILED and re-raised *)
  (forall d e,
     outcome (_extract_phase env self table) = Ok d -> d <> [] ->
     outcome (_transform_phase clean validate self d) = Raise (Exception e) ->
     failed_then_raised (full_run_id env) run e) /\
  (* a load failure is recorded as FAILED and re-raised *)
  (forall d t e,
     outcome (_extract_phase env self table) = Ok d -> d <> [] ->
     outcome (_transform_phase clean validate self d) = Ok t ->
     outcome (_load_phase env self t "full") = Raise (Exception e) ->
     failed_then_raised (full_run_id env) run e) /\
  (* no raising run leaves without FAILED being recorded first *)
  (forall s, outcome run = Raise s ->
     exists e, s = Exception e /\ failed_then_raised (full_run_id env) run e).
Proof.
  intro run.
  pose proof (run_full_pipeline_shape env clean validate self table) as Hshape.
  fold run in Hshape.
  pose proof (full_run_outcome run Hshape) as Hout.
  pose proof (full_run_raise_is_recorded run) as Hrec.
  refine (conj _ (conj _ (conj _ (conj _ (conj _ _))))).
  - intros ex t d. eexists. apply extract_csv_table_returns.
  - intros ex d. eexists. apply extract_products_returns.
  - intro Hready. cbv zeta. split; [apply extract_phase_collects; exact Hready |].
    intros s Hs. rewrite Hout, (extract_phase_collects _ _ _ Hready) in Hs.
    destruct (fold_left keep_extracted (extraction_attempts env self table) [])
      as [| item d]; [discriminate |].
    destruct (outcome (_transform_phase clean validate self (item :: d))) as [t | s'].
    + right. exists t. split; [reflexivity | exact Hs].
    + left. congruence.
  - intros d e Hx Hd Ht.
    destruct (Hrec (Exception e) Hshape) as (e' & He & Hfail).
    + rewrite Hout, Hx. destruct d; [congruence |]. rewrite Ht. reflexivity.
    + injection He as <-. exact Hfail.
  - intros d t e Hx Hd Ht Hl.
    destruct (Hrec (Exception e) Hshape) as (e' & He & Hfail).
    + rewrite Hout, Hx. destruct d; [congruence |]. rewrite Ht. exact Hl.
    + injection He as <-. exact Hfail.
  - intros s Hs. exact (Hrec s Hshape Hs).
Qed.

End ErrorPolicy.

Lemma run_full_pipeline_error_policy_witness :
  failed_then_raised (full_run_id Sample.target_offline)
    (run_full_pipeline (pandas_ops := Sample.pandas) Sample.target_offline Sample.keep
       DataValidator.validate Sample.self None)
    Sample.connection_refused.
Proof.
  eapply (proj1 (proj2 (proj2 (proj2 (proj2
            (run_full_pipeline_error_policy (pandas_ops := Sample.pandas)
               Sample.target_offline Sample.keep DataValidator.validate
               Sample.self None)))))).
  - vm_compute. reflexivity.
  - discriminate.
  - vm_compute. reflexivity.
  - vm_compute. reflexivity.
Defined.

(** ** How often a run is ended *)

Section RunEnds.

Context {pandas_ops : Pandas}.
Variable env : Env.
Variable clean : DataFrame -> string -> Try DataFrame.
Variable validate : DataFrame -> string -> Verdict.
Variable self : ETLOrchestrator.

(** The calls of [end_pipeline] made by a full run: none when nothing
    was extracted, exactly one otherwise. *)
Lemma full_run_end_statuses (table : option string) :
  let run := run_full_pipeline env clean validate self table in
  end_statuses (full_run_id env) (trace run) =
  match outcome (_extract_phase env self table), outcome run with
  | Ok [], _ => []
  | _, Ok _ => ["SUCCESS"]
  | _, Raise _ => ["FAILED"]
  end.
Proof.
  intro run.
  pose proof (run_full_pipeline_shape env clean validate self table) as Hshape.
  fold run in Hshape.
  destruct (outcome run) as [[] | s] eqn:Hout.
  - remember run as m eqn:Hm. clear Hm.
    destruct Hshape as [trx e Ex | trx Ex | trx d trt e Ex Hd Et
                       | trx d trt t trl e Ex Hd Et El | trx d trt t trl Ex Hd Et El];
      try discriminate; rewrite Ex; simpl outcome.
    + cbn [trace fst]. rewrite !end_statuses_app.
      rewrite (end_statuses_quiet (full_run_id env) trx (extract_trace_quiet env self table _ _ Ex)).
      reflexivity.
    + destruct d as [| item d]; [congruence |].
      cbn [trace fst]. unfold full_success_events. rewrite !end_statuses_app.
      rewrite (end_statuses_quiet (full_run_id env) trx (extract_trace_quiet env self table _ _ Ex)).
      rewrite (end_statuses_quiet (full_run_id env) trt (transform_trace_quiet clean validate self _ _ _ Et)).
      rewrite (end_statuses_quiet (full_run_id env) trl (load_trace_quiet env self _ _ _ _ El)).
      rewrite (end_statuses_quiet (full_run_id env) _ (proj1 (print_summary_quiet self (full_run_id env)))).
      simpl. rewrite String.eqb_refl. reflexivity.
  - destruct (full_run_raise_is_recorded env clean validate self table run s Hshape Hout)
      as (e & -> & Hfail).
    rewrite (failed_then_raised_statuses _ _ _ Hfail).
    pose proof (full_run_outcome env clean validate self table run Hshape) as Hrun.
    rewrite Hout in Hrun.
    destruct (outcome (_extract_phase env self table)) as [[| item d] | s'];
      [discriminate | reflexivity | reflexivity].
Qed.

(** C2, at a run where every extraction fails: the run is registered
    with [start_pipeline], the call returns normally, and
    [end_pipeline] is never called, so the run stays RUNNING. *)
Theorem full_run_without_data_is_never_ended :
  let run := run_full_pipeline (pandas_ops := Sample.pandas) Sample.barren Sample.keep
               DataValidator.validate Sample.self None in
  run_registered (trace run) = true /\
  outcome run = Ok tt /\
  end_statuses (full_run_id Sample.barren) (trace run) = [].
Proof. vm_compute. repeat split. Qed.

(** The branch that handles an empty delta: had the fetch returned an
    empty DataFrame, the run would end as SUCCESS_NO_DATA with neither
    transform nor load. *)
Lemma incremental_run_on_empty_delta (table : string) (df : DataFrame) :
  df_empty df = true ->
  let run_id := "incremental_" ++ table ++ "_" ++ clock env in
  run_incremental_pipeline_with env clean validate
    (fun _ _ => ret (PyDataFrame df)) self table
  = ([ Log INFO ("Starting incremental ETL pipeline for " ++ table
                 ++ " - Run ID: " ++ run_id);
       Metrics (start_pipeline_call run_id);
       Log INFO ("Extracting incremental data for " ++ table);
       Log INFO ("No new/changed records for " ++ table);
       Metrics (end_pipeline_call run_id "SUCCESS_NO_DATA") ], Ok tt).
Proof.
  intros Hempty run_id. unfold run_incremental_pipeline_with. simpl.
  rewrite Hempty. reflexivity.
Qed.

(** C3, on the code: for every table, [_extract_incremental] returns
    [None], reading [.empty] on it raises [AttributeError], and
    [run_incremental_pipeline] records the run as FAILED and re-raises;
    SUCCESS_NO_DATA is never recorded. *)
Theorem run_incremental_pipeline_always_fails (table : string) :
  let run := run_incremental_pipeline env clean validate self table in
  let run_id := "incremental_" ++ table ++ "_" ++ clock env in
  outcome run
  = Raise (Exception (AttributeError "'NoneType' object has no attribute 'empty'")) /\
  end_statuses run_id (trace run) = ["FAILED"] /\
  failed_then_raised run_id run
    (AttributeError "'NoneType' object has no attribute 'empty'").
Proof.
  intros run run_id.
  assert (Hfail : failed_then_raised run_id run
            (AttributeError "'NoneType' object has no attribute 'empty'")).
  { split; [reflexivity |].
    exists [ Log INFO ("Starting incremental ETL pipeline for " ++ table
                       ++ " - Run ID: " ++ run_id);
             Metrics (start_pipeline_call run_id);
             Log INFO ("Extracting incremental data for " ++ table);
             Log INFO ("Incremental extraction for " ++ table
                       ++ " (CDC/timestamp-based)") ],
      "Incremental pipeline failed: ", [("run_id", run_id); ("table", table)].
    split; [reflexivity | repeat constructor]. }
  split; [reflexivity |]. split; [| exact Hfail].
  apply (failed_then_raised_statuses _ _ _ Hfail).
Qed.

End RunEnds.

(** ** Which tables reach the later phases *)

Lemma keys_keep_extracted (attempts : list (string * Outcome DataFrame))
  (acc : list (string * DataFrame)) (k : string) :
  In k (keys (fold_left keep_extracted attempts acc)) <->
  In k (keys acc) \/ exists df, In (k, Ok df) attempts.
Proof.
  revert acc. induction attempts as [| [t o] rest IH]; intro acc; simpl.
  - split; [auto | intros [Hin | [df []]]; exact Hin].
  - rewrite IH. unfold keep_extracted. simpl. destruct o as [df | s].
    + rewrite keys_assoc_set. split.
      * intros [[-> | Hin] | [df' Hin]]; eauto.
      * intros [Hin | [df' [Heq | Hin]]]; eauto.
        injection Heq as <- <-. auto.
    + split.
      * intros [Hin | [df' Hin]]; eauto.
      * intros [Hin | [df' [Heq | Hin]]]; eauto. discriminate.
Qed.

Lemma NoDup_keys_functional {V} (l : list (string * V)) (k : string) (v1 v2 : V) :
  NoDup (keys l) -> In (k, v1) l -> In (k, v2) l -> v1 = v2.
Proof.
  induction l as [| [k' v'] rest IH]; simpl; [contradiction |].
  intros Hnd [H1 | H1] [H2 | H2]; inversion Hnd as [| ? ? Hnotin Hnd']; subst.
  - congruence.
  - injection H1 as <- <-. exfalso. apply Hnotin.
    change k' with (fst (k', v2)). apply in_map. exact H2.
  - injection H2 as <- <-. exfalso. apply Hnotin.
    change k' with (fst (k', v1)). apply in_map. exact H1.
  - apply IH; assumption.
Qed.

Section Attempted.

Variable env : Env.
Variable self : ETLOrchestrator.

(** If one table fails and a different one succeeds, no table is
    attempted twice: this excludes [--table products], where the CSV
    and the SQLite extractor are both tried for [products]. *)
Lemma attempts_distinct (table : option string) (t1 t2 : string) s df :
  In (t1, Raise s) (extraction_attempts env self table) ->
  In (t2, Ok df) (extraction_attempts env self table) ->
  t1 <> t2 ->
  NoDup (keys (extraction_attempts env self table)).
Proof.
  unfold extraction_attempts, keys. rewrite map_app, map_map. simpl.
  intros H1 H2 Hne.
  destruct table as [tb |]; simpl in H1, H2 |- *.
  - destruct (String.eqb tb "") eqn:Eempty; simpl in H1, H2 |- *.
    + apply String.eqb_eq in Eempty. subst tb. simpl.
      repeat constructor; simpl; intuition discriminate.
    + destruct (String.eqb tb "products") eqn:Ep; simpl in H1, H2 |- *.
      * apply String.eqb_eq in Ep. subst tb. exfalso. apply Hne.
        destruct H1 as [H1 | [H1 | []]]; destruct H2 as [H2 | [H2 | []]]; congruence.
      * exfalso. apply Hne.
        destruct H1 as [H1 | []]; destruct H2 as [H2 | []]; congruence.
  - repeat constructor; simpl; intuition discriminate.
Qed.

Lemma extract_phase_ok_ready (table : option string) d :
  outcome (_extract_phase env self table) = Ok d ->
  extractors_ready env self table = true.
Proof.
  unfold _extract_phase, extractors_ready.
  destruct (source_setting self "csv_path") as [p | e]; [| discriminate].
  rewrite outcome_bind. simpl outcome at 1. cbv iota.
  unfold CSVExtractor.init. cbv zeta.
  destruct (path_exists env (path_str (Path p))); [| discriminate]. simpl negb. cbv iota.
  rewrite outcome_bind. simpl outcome at 1. cbv iota.
  rewrite outcome_bind.
  rewrite (outcome_for_each_total (csv_tables table)
             (extract_csv_table env (CSVExtractor.mk (Path p)))
             (fun d t => keep_extracted d
                           (t, outcome (CSVExtractor.extract env (CSVExtractor.mk (Path p)) t)))).
  2: { intros x acc. apply extract_csv_table_returns. }
  destruct (wants_products table); simpl; [| reflexivity].
  destruct (source_setting self "sqlite_db") as [q | e]; [reflexivity | discriminate].
Qed.

(** A table whose extraction raised is not in the extracted data,
    whenever another table's extraction returned. *)
Lemma failed_table_not_extracted (table : option string) (t_bad t_ok t' : string)
  e df e' d :
  In (t_bad, Raise (Exception e)) (extraction_attempts env self table) ->
  In (t_ok, Ok df) (extraction_attempts env self table) ->
  t_bad <> t_ok ->
  outcome (_extract_phase env self table) = Ok d ->
  In (t', Raise (Exception e')) (extraction_attempts env self table) ->
  ~ In t' (keys d) /\ In t_ok (keys d).
Proof.
  intros Hbad Hok Hne Hx Hfail'.
  pose proof (attempts_distinct table t_bad t_ok _ _ Hbad Hok Hne) as Hnd.
  rewrite (extract_phase_collects env self table (extract_phase_ok_ready table d Hx)) in Hx.
  injection Hx as <-. split.
  - rewrite keys_keep_extracted. intros [[] | [df' Hin]].
    pose proof (NoDup_keys_functional _ _ _ _ Hnd Hfail' Hin). discriminate.
  - rewrite keys_keep_extracted. right. exists df. exact Hok.
Qed.

End Attempted.

Section Reach.

Context {pandas_ops : Pandas}.
Variable env : Env.
Variable clean : DataFrame -> string -> Try DataFrame.
Variable validate : DataFrame -> string -> Verdict.
Variable self : ETLOrchestrator.

Lemma log_validation_returns (table_name : string) (v : Verdict) :
  outcome (log_validation table_name v) = Ok tt.
Proof.
  unfold log_validation. destruct (is_valid v); cbn [negb]; [reflexivity |].
  rewrite outcome_bind. simpl outcome at 1. cbv iota.
  rewrite (outcome_for_each_total (warnings v) _ (fun acc _ => acc)).
  - f_equal. induction (warnings v); simpl; auto.
  - intros x []. reflexivity.
Qed.

(** What a turn of the transform loop returns. *)
Lemma transform_table_outcome (table_name : string) (df : DataFrame)
  (acc : list (string * DataFrame)) :
  outcome (transform_table clean validate (table_name, df) acc) =
  match clean df table_name with
  | Threw e => Raise (Exception e)
  | Returned df_clean =>
      match _apply_business_logic df_clean table_name with
      | Threw e => Raise (Exception e)
      | Returned df_transformed => Ok (assoc_set table_name df_transformed acc)
      end
  end.
Proof.
  unfold transform_table.
  rewrite outcome_bind. simpl outcome at 1. cbv iota.
  rewrite outcome_try_except, outcome_bind. simpl outcome at 1. cbv iota.
  rewrite outcome_bind, outcome_lift.
  destruct (clean df table_name) as [df_clean | e]; [| reflexivity].
  rewrite outcome_bind. simpl outcome at 1. cbv iota.
  rewrite outcome_bind, log_validation_returns.
  rewrite outcome_bind. simpl outcome at 1. cbv iota.
  rewrite outcome_bind, outcome_lift.
  destruct (_apply_business_logic df_clean table_name) as [df_t | e]; reflexivity.
Qed.

Lemma transform_loop_keys (d acc t : list (string * DataFrame)) (k : string) :
  outcome (for_each d (transform_table clean validate) acc) = Ok t ->
  (In k (keys t) <-> In k (keys acc) \/ In k (keys d)).
Proof.
  revert acc. induction d as [| [name df] rest IH]; intros acc; cbn [for_each].
  - intro Heq. injection Heq as <-. simpl. tauto.
  - rewrite outcome_bind, transform_table_outcome.
    destruct (clean df name) as [df_clean | e]; [| discriminate].
    destruct (_apply_business_logic df_clean name) as [df_t | e]; [| discriminate].
    intro Hrest. rewrite (IH _ Hrest), keys_assoc_set. simpl.
    intuition (subst; auto).
Qed.

(** The transform phase returns exactly the tables it was given. *)
Lemma transform_phase_keys (d t : list (string * DataFrame)) (k : string) :
  outcome (_transform_phase clean validate self d) = Ok t ->
  (In k (keys t) <-> In k (keys d)).
Proof.
  intro Ht. unfold _transform_phase in Ht.
  rewrite (transform_loop_keys d [] t k Ht). simpl. tauto.
Qed.

Lemma extract_phase_writes_nothing (table : option string) :
  tame (written_within []) (_extract_phase env self table).
Proof. tame_with ltac:(exact I). Qed.

Lemma transform_phase_writes_nothing (d : list (string * DataFrame)) :
  tame (written_within []) (_transform_phase clean validate self d).
Proof. tame_with ltac:(exact I). Qed.

Lemma print_summary_writes_nothing (run_id : string) :
  tame (written_within []) (_print_summary self run_id).
Proof. tame_with ltac:(exact I). Qed.

(** The load phase writes only the tables it was given. *)
Lemma load_phase_writes_within (t : list (string * DataFrame)) (mode : string) :
  tame (written_within (keys t)) (_load_phase env self t mode).
Proof.
  unfold _load_phase.
  apply tame_bind; [apply tame_lift | intros target _].
  apply tame_bind; [tame_with ltac:(exact I) | intros loader _].
  apply tame_for_each. intros [name df] [] Hin.
  assert (Hname : In name (keys t)) by (change name with (fst (name, df)); apply in_map; exact Hin).
  tame_with ltac:(simpl; first [exact I | exact Hname]).
Qed.

Lemma written_within_excludes (ks : list string) (tb : string) (tr : list Event) :
  ~ In tb ks -> Forall (written_within ks) tr -> Forall (not_written_to tb) tr.
Proof.
  intros Hnot. apply Forall_impl. intros [| | | tb' df m]; simpl; auto.
  intros Hin ->. exact (Hnot Hin).
Qed.

End Reach.

Section PartialFailure.

Context {pandas_ops : Pandas}.
Variable env : Env.
Variable clean : DataFrame -> string -> Try DataFrame.
Variable validate : DataFrame -> string -> Verdict.
Variable self : ETLOrchestrator.
Variable table : option string.

Lemma head_writes_nothing (tb : string) : Forall (not_written_to tb) (full_run_head env).
Proof. repeat constructor. Qed.

Lemma banner_writes_nothing (tb title : string) :
  Forall (not_written_to tb) (banner_events title).
Proof. repeat constructor. Qed.

(** C5: in a full run where the extraction of one configured table
    fails and that of another one succeeds, and transform and load then
    succeed, the call returns, the run is ended once, as SUCCESS, and
    no table whose extraction failed is in the data given to the
    transform phase, in the data given to the load phase, or written to
    the target. *)
Theorem partial_extraction_failure_still_succeeds (t_bad t_ok : string)
  (e : Exn) (df : DataFrame) (d t : list (string * DataFrame)) :
  In (t_bad, Raise (Exception e)) (extraction_attempts env self table) ->
  In (t_ok, Ok df) (extraction_attempts env self table) ->
  t_bad <> t_ok ->
  outcome (_extract_phase env self table) = Ok d ->
  outcome (_transform_phase clean validate self d) = Ok t ->
  outcome (_load_phase env self t "full") = Ok tt ->
  let run := run_full_pipeline env clean validate self table in
  outcome run = Ok tt /\
  end_statuses (full_run_id env) (trace run) = ["SUCCESS"] /\
  forall t' e',
    In (t', Raise (Exception e')) (extraction_attempts env self table) ->
    ~ In t' (keys d) /\ ~ In t' (keys t) /\ Forall (not_written_to t') (trace run).
Proof.
  intros Hbad Hok Hne Hx Ht Hl run.
  pose proof (run_full_pipeline_shape env clean validate self table) as Hshape.
  fold run in Hshape.
  assert (Hd : d <> []).
  { destruct (failed_table_not_extracted env self table _ _ _ _ _ _ _
                Hbad Hok Hne Hx Hbad) as [_ Hin].
    intros ->. exact Hin. }
  assert (Hout : outcome run = Ok tt).
  { rewrite (full_run_outcome env clean validate self table run Hshape), Hx.
    destruct d; [congruence |]. rewrite Ht. exact Hl. }
  refine (conj Hout (conj _ _)).
  - pose proof (full_run_end_statuses env clean validate self table) as Hends.
    cbv zeta in Hends. fold run in Hends. rewrite Hends, Hx, Hout.
    destruct d; [congruence | reflexivity].
  - intros t' e' Hfail'.
    destruct (failed_table_not_extracted env self table _ _ _ _ _ _ _
                Hbad Hok Hne Hx Hfail') as [Hnotd _].
    assert (Hnott : ~ In t' (keys t)).
    { rewrite (transform_phase_keys clean validate self d t t' Ht). exact Hnotd. }
    refine (conj Hnotd (conj Hnott _)).
    remember run as m eqn:Hm. clear Hm.
    destruct Hshape as [trx e0 Ex | trx Ex | trx d0 trt e0 Ex Hd0 Et
                       | trx d0 trt t0 trl e0 Ex Hd0 Et El | trx d0 trt t0 trl Ex Hd0 Et El];
      try discriminate.
    + rewrite Ex in Hx. simpl in Hx. congruence.
    + rewrite Ex in Hx. simpl in Hx. injection Hx as ->.
      rewrite Et in Ht. simpl in Ht. injection Ht as ->.
      cbn [trace fst]. unfold full_success_events.
      apply Forall_app; split; [apply head_writes_nothing |].
      apply Forall_app; split.
      { apply (written_within_excludes [] t'); [simpl; tauto |].
        rewrite <- (trace_of_eq _ _ _ Ex).
        apply (extract_phase_writes_nothing env self table). }
      apply Forall_app; split; [apply banner_writes_nothing |].
      apply Forall_app; split.
      { apply (written_within_excludes [] t'); [simpl; tauto |].
        rewrite <- (trace_of_eq _ _ _ Et).
        apply (transform_phase_writes_nothing clean validate self d). }
      apply Forall_app; split; [apply banner_writes_nothing |].
      apply Forall_app; split.
      { apply (written_within_excludes (keys t) t' _ Hnott).
        rewrite <- (trace_of_eq _ _ _ El).
        apply (load_phase_writes_within env self t "full"). }
      apply Forall_app; split; [repeat constructor |].
      apply (written_within_excludes [] t'); [simpl; tauto |].
      apply (print_summary_writes_nothing self (full_run_id env)).
Qed.

End PartialFailure.

Lemma partial_extraction_failure_still_succeeds_witness :
  let run := run_full_pipeline (pandas_ops := Sample.pandas) Sample.no_customers
               Sample.keep DataValidator.validate Sample.self None in
  outcome run = Ok tt /\
  end_statuses (full_run_id Sample.no_customers) (trace run) = ["SUCCESS"] /\
  Forall (not_written_to "customers") (trace run).
Proof.
  pose proof (partial_extraction_failure_still_succeeds (pandas_ops := Sample.pandas)
                Sample.no_customers Sample.keep DataValidator.validate Sample.self None
                "customers" "orders"
                (FileNotFoundError "CSV file not found: data/source/customers.csv")
                (CSVExtractor.add_metadata Sample.no_customers "orders.csv" Sample.orders_csv))
    as Hrun.
  edestruct Hrun as (Hout & Hend & Hrest).
  - right. left. vm_compute. reflexivity.
  - left. vm_compute. reflexivity.
  - discriminate.
  - vm_compute. reflexivity.
  - vm_compute. reflexivity.
  - vm_compute. reflexivity.
  - refine (conj Hout (conj Hend _)).
    refine (proj2 (proj2 (Hrest "customers" _ _))).
    right. left. vm_compute. reflexivity.
Defined.

(** ** The validation verdict is advisory *)

Lemma without_warnings_app (tr1 tr2 : list Event) :
  without_warnings (tr1 ++ tr2) = (without_warnings tr1 ++ without_warnings tr2)%list.
Proof. apply filter_app. Qed.

Lemma same_but_warnings_refl {A} (m : M A) : same_but_warnings m m.
Proof. split; reflexivity. Qed.

Lemma same_but_warnings_bind {A B} (m1 m2 : M A) (k1 k2 : A -> M B) :
  same_but_warnings m1 m2 -> (forall a, same_but_warnings (k1 a) (k2 a)) ->
  same_but_warnings (bind m1 k1) (bind m2 k2).
Proof.
  intros [Ho Ht] Hk. unfold same_but_warnings.
  rewrite !outcome_bind, !trace_bind, <- Ho.
  destruct (outcome m1) as [a | s].
  - destruct (Hk a) as [Hko Hkt]. split; [exact Hko |].
    rewrite !without_warnings_app, Ht, Hkt. reflexivity.
  - split; [reflexivity | exact Ht].
Qed.

Lemma same_but_warnings_try_except {A} (b1 b2 : M A) (h1 h2 : Exn -> M A) :
  same_but_warnings b1 b2 -> (forall e, same_but_warnings (h1 e) (h2 e)) ->
  same_but_warnings (try_except b1 h1) (try_except b2 h2).
Proof.
  intros [Ho Ht] Hh. unfold same_but_warnings.
  rewrite !outcome_try_except, !trace_try_except, <- Ho.
  destruct (outcome b1) as [a | [e | c]]; try (split; [reflexivity | exact Ht]).
  destruct (Hh e) as [Hho Hht]. split; [exact Hho |].
  rewrite !without_warnings_app, Ht, Hht. reflexivity.
Qed.

Lemma same_but_warnings_for_each {A S} (xs : list A) (body1 body2 : A -> S -> M S) :
  (forall x acc, same_but_warnings (body1 x acc) (body2 x acc)) ->
  forall acc, same_but_warnings (for_each xs body1 acc) (for_each xs body2 acc).
Proof.
  intro Hbody. induction xs as [| x rest IH]; intro acc; cbn [for_each].
  - apply same_but_warnings_refl.
  - apply same_but_warnings_bind; [apply Hbody | exact IH].
Qed.

Lemma trace_log_warnings (ws : list string) :
  trace (for_each ws (fun warning (_ : unit) => logger_warning ("    - " ++ warning)) tt)
  = map (fun w => Log WARNING ("    - " ++ w)) ws.
Proof.
  induction ws as [| w rest IH]; cbn [for_each]; [reflexivity |].
  rewrite trace_bind. simpl outcome. cbv iota. rewrite IH. reflexivity.
Qed.

(** What [log_validation] writes. *)
Lemma trace_log_validation (table_name : string) (v : Verdict) :
  trace (log_validation table_name v) =
  if is_valid v then []
  else Log WARNING ("Validation warnings for " ++ table_name ++ ":")
       :: map (fun w => Log WARNING ("    - " ++ w)) (warnings v).
Proof.
  unfold log_validation. destruct (is_valid v); cbn [negb]; [reflexivity |].
  rewrite trace_bind. simpl outcome. cbv iota. rewrite trace_log_warnings. reflexivity.
Qed.

Lemma without_warnings_log_validation (table_name : string) (v : Verdict) :
  without_warnings (trace (log_validation table_name v)) = [].
Proof.
  rewrite trace_log_validation. destruct (is_valid v); [reflexivity |]. simpl.
  induction (warnings v) as [| w rest IH]; simpl; auto.
Qed.

Lemma log_validation_same (table_name : string) (v1 v2 : Verdict) :
  same_but_warnings (log_validation table_name v1) (log_validation table_name v2).
Proof.
  split.
  - rewrite !log_validation_returns. reflexivity.
  - rewrite !without_warnings_log_validation. reflexivity.
Qed.

Ltac same_but_warnings_step :=
  first
    [ apply same_but_warnings_refl
    | apply log_validation_same
    | apply same_but_warnings_bind; [| intros ?]
    | apply same_but_warnings_try_except; [| intros ?]
    | apply same_but_warnings_for_each; intros ? ?
    | match goal with
      | |- same_but_warnings (if ?c then _ else _) _ => destruct c
      | |- same_but_warnings (match ?c with _ => _ end) _ => destruct c
      end ].

Section Advisory.

Context {pandas_ops : Pandas}.
Variable env : Env.
Variable clean : DataFrame -> string -> Try DataFrame.
Variable validate : DataFrame -> string -> Verdict.
Variable self : ETLOrchestrator.

Lemma transform_table_same (item : string * DataFrame) (acc : list (string * DataFrame)) :
  same_but_warnings (transform_table clean validate item acc)
                    (transform_table clean (as_valid validate) item acc).
Proof.
  unfold transform_table. destruct item as [table_name df]. cbv zeta.
  repeat same_but_warnings_step.
Qed.

Lemma transform_phase_same (d : list (string * DataFrame)) :
  same_but_warnings (_transform_phase clean validate self d)
                    (_transform_phase clean (as_valid validate) self d).
Proof.
  unfold _transform_phase. apply same_but_warnings_for_each. apply transform_table_same.
Qed.

Lemma run_full_pipeline_same (table : option string) :
  same_but_warnings (run_full_pipeline env clean validate self table)
                    (run_full_pipeline env clean (as_valid validate) self table).
Proof.
  unfold run_full_pipeline. cbv zeta.
  repeat first [ apply transform_phase_same | same_but_warnings_step ].
Qed.

(** The warnings of a negative verdict are logged by the turn of the
    loop that takes the table. *)
Lemma transform_table_logs_warnings (table_name : string) (df df_clean : DataFrame)
  (acc : list (string * DataFrame)) (w : string) :
  clean df table_name = Returned df_clean ->
  is_valid (validate df_clean table_name) = false ->
  In w (warnings (validate df_clean table_name)) ->
  In (Log WARNING ("    - " ++ w))
     (trace (transform_table clean validate (table_name, df) acc)).
Proof.
  intros Hclean Hinvalid Hw. unfold transform_table.
  rewrite trace_bind. simpl outcome at 1. cbv iota. apply in_or_app. right.
  rewrite trace_try_except.
  assert (Hin : In (Log WARNING ("    - " ++ w))
                  (trace (log_validation table_name (validate df_clean table_name)))).
  { rewrite trace_log_validation, Hinvalid. right.
    apply (in_map (fun w => Log WARNING ("    - " ++ w))). exact Hw. }
  match goal with
  | |- In _ (match outcome ?body with _ => _ end) =>
      assert (Hbody : In (Log WARNING ("    - " ++ w)) (trace body))
  end.
  { rewrite trace_bind. simpl outcome at 1. cbv iota. apply in_or_app. right.
    rewrite trace_bind, outcome_lift, Hclean. apply in_or_app. right.
    rewrite trace_bind. simpl outcome at 1. cbv iota. apply in_or_app. right.
    cbv zeta. rewrite trace_bind, log_validation_returns.
    apply in_or_app. left. exact Hin. }
  match goal with
  | |- In _ (match ?o with _ => _ end) => destruct o as [a | [e | c]]
  end; try exact Hbody.
  apply in_or_app. left. exact Hbody.
Qed.

(** The same for the loop, when it gets as far as the table. *)
Lemma transform_loop_logs_warnings (d acc t : list (string * DataFrame))
  (table_name : string) (df df_clean : DataFrame) (w : string) :
  outcome (for_each d (transform_table clean validate) acc) = Ok t ->
  In (table_name, df) d ->
  clean df table_name = Returned df_clean ->
  is_valid (validate df_clean table_name) = false ->
  In w (warnings (validate df_clean table_name)) ->
  In (Log WARNING ("    - " ++ w))
     (trace (for_each d (transform_table clean validate) acc)).
Proof.
  intros Hout Hin Hclean Hinvalid Hw. revert acc Hout.
  induction d as [| x rest IH]; intros acc Hout; [contradiction |].
  cbn [for_each] in Hout |- *. rewrite outcome_bind in Hout. rewrite trace_bind.
  destruct (outcome (transform_table clean validate x acc)) as [acc' | s] eqn:Ex;
    [| discriminate].
  apply in_or_app. destruct Hin as [-> | Hin].
  - left. apply (transform_table_logs_warnings _ _ df_clean); assumption.
  - right. apply IH; assumption.
Qed.

End Advisory.

(** ** Extraction metadata *)

Lemma in_columns_setitem (df : DataFrame) (c c0 : string) (s : Series) :
  in_columns c0 df = true -> in_columns c0 (setitem df c s) = true.
Proof.
  unfold in_columns, has_key. simpl.
  destruct (String.eqb c0 c) eqn:E.
  - apply String.eqb_eq in E. subst. rewrite assoc_get_set_same. reflexivity.
  - apply String.eqb_neq in E. rewrite assoc_get_set_other by exact E. auto.
Qed.

(** The header of [exports.csv] already has [_source_file]; its content
    is replaced by the file name. *)
Lemma csv_extract_overwrites_clashing_column :
  exists result,
    outcome (CSVExtractor.extract Sample.with_exports
               (CSVExtractor.mk (Path "data/source")) "exports") = Ok result /\
    ~ original_columns_unchanged Sample.exports_csv result.
Proof.
  eexists. split; [vm_compute; reflexivity |].
  intro Hsame.
  specialize (Hsame "_source_file" (mkSeries object_ [VStr "legacy.xls"]) eq_refl).
  vm_compute in Hsame. discriminate.
Qed.

Section Metadata.

Context {pandas_ops : Pandas}.
Variable env : Env.

Lemma add_metadata_columns (file_name : string) (parsed : DataFrame) :
  let result := CSVExtractor.add_metadata env file_name parsed in
  nrows result = nrows parsed /\
  assoc_get "_extracted_at" (columns result)
  = Some (broadcast datetime64 (timestamp_now env) (nrows parsed)) /\
  assoc_get "_source_file" (columns result)
  = Some (broadcast object_ (VStr file_name) (nrows parsed)) /\
  (forall c, ~ is_metadata_column c ->
             assoc_get c (columns result) = assoc_get c (columns parsed)) /\
  (in_columns "_extracted_at" parsed = false ->
   in_columns "_source_file" parsed = false ->
   columns result
   = (columns parsed ++ metadata_columns env file_name (nrows parsed))%list).
Proof.
  unfold CSVExtractor.add_metadata. simpl.
  refine (conj eq_refl (conj _ (conj _ (conj _ _)))).
  - rewrite assoc_get_set_other by discriminate. apply assoc_get_set_same.
  - apply assoc_get_set_same.
  - intros c Hc. unfold is_metadata_column in Hc.
    rewrite !assoc_get_set_other; [reflexivity | |]; intro Heq; apply Hc; auto.
  - unfold in_columns, has_key. intros Hat Hfile.
    destruct (assoc_get "_extracted_at" (columns parsed)) eqn:Eat; [discriminate |].
    destruct (assoc_get "_source_file" (columns parsed)) eqn:Efile; [discriminate |].
    rewrite (assoc_set_absent "_extracted_at" _ _ Eat).
    rewrite assoc_set_absent.
    + rewrite <- app_assoc. reflexivity.
    + apply assoc_get_None_keys. unfold keys. rewrite map_app. simpl.
      intro Hin. apply in_app_or in Hin. destruct Hin as [Hin | [Heq | []]].
      * apply assoc_get_None_keys in Efile. exact (Efile Hin).
      * discriminate.
Qed.

(** What [CSVExtractor.extract] returns when the file is there and
    pandas can parse it. *)
Lemma csv_extract_outcome (ex : CSVExtractor.t) (table_name : string) (parsed : DataFrame) :
  let file_path := path_join (CSVExtractor.source_path ex) (table_name ++ ".csv") in
  path_exists env (path_str file_path) = true ->
  read_csv env (path_str file_path) (CSVExtractor._get_date_columns table_name) = Returned parsed ->
  outcome (CSVExtractor.extract env ex table_name)
  = Ok (CSVExtractor.add_metadata env (path_name file_path) parsed).
Proof.
  intros file_path Hexists Hread. unfold CSVExtractor.extract.
  fold file_path. rewrite Hexists. cbn [negb].
  rewrite outcome_bind. simpl outcome at 1. cbv iota.
  rewrite outcome_try_except, outcome_bind, outcome_lift, Hread. reflexivity.
Qed.

(** The business rules never assign to a metadata column. *)
Lemma business_logic_keeps_metadata (df df' : DataFrame) (table_name c : string) :
  is_metadata_column c ->
  _apply_business_logic df table_name = Returned df' ->
  assoc_get c (columns df') = assoc_get c (columns df).
Proof.
  intros Hc. unfold _apply_business_logic.
  assert (Hset : forall d name s, name <> c ->
            assoc_get c (columns (setitem d name s)) = assoc_get c (columns d)).
  { intros d name s Hne. apply columns_setitem_other. congruence. }
  assert (Hta : "total_amount" <> c) by (destruct Hc; subst; discriminate).
  assert (Hoy : "order_year" <> c) by (destruct Hc; subst; discriminate).
  assert (Hom : "order_month" <> c) by (destruct Hc; subst; discriminate).
  assert (Hem : "email" <> c) by (destruct Hc; subst; discriminate).
  assert (Hmp : "margin_pct" <> c) by (destruct Hc; subst; discriminate).
  destruct (String.eqb table_name "orders").
  - destruct (in_columns "quantity" df && in_columns "unit_price" df).
    + destruct (getitem df "quantity") as [q |]; simpl; [| discriminate].
      destruct (getitem df "unit_price") as [u |]; simpl; [| discriminate].
      destruct (series_mul q u) as [total |]; simpl; [| discriminate].
      destruct (getitem _ "order_date") as [od |]; simpl; [| discriminate].
      destruct (dt_year od) as [y |]; simpl; [| discriminate].
      destruct (getitem _ "order_date") as [od' |]; simpl; [| discriminate].
      destruct (dt_month od') as [m |]; simpl; [| discriminate].
      intro Heq. injection Heq as <-. rewrite !Hset by assumption. reflexivity.
    + simpl.
      destruct (getitem df "order_date") as [od |]; simpl; [| discriminate].
      destruct (dt_year od) as [y |]; simpl; [| discriminate].
      destruct (getitem _ "order_date") as [od' |]; simpl; [| discriminate].
      destruct (dt_month od') as [m |]; simpl; [| discriminate].
      intro Heq. injection Heq as <-. rewrite !Hset by assumption. reflexivity.
  - destruct (String.eqb table_name "customers").
    + destruct (in_columns "email" df); [| intro Heq; injection Heq as <-; reflexivity].
      destruct (getitem df "email") as [em |]; simpl; [| discriminate].
      destruct (series_str_lower_strip em) as [em' |]; simpl; [| discriminate].
      intro Heq. injection Heq as <-. rewrite !Hset by assumption. reflexivity.
    + destruct (String.eqb table_name "products");
        [| intro Heq; injection Heq as <-; reflexivity].
      destruct (in_columns "price" df && in_columns "cost" df);
        [| intro Heq; injection Heq as <-; reflexivity].
      destruct (getitem df "price") as [pr |]; simpl; [| discriminate].
      destruct (getitem df "cost") as [co |]; simpl; [| discriminate].
      destruct (series_margin_pct pr co) as [mg |]; simpl; [| discriminate].
      intro Heq. injection Heq as <-. rewrite !Hset by assumption. reflexivity.
Qed.

End Metadata.

(** ** From the CSV file to the target store *)

Lemma assoc_get_In {V} (k : string) (v : V) (d : list (string * V)) :
  assoc_get k d = Some v -> In (k, v) d.
Proof.
  induction d as [| [k' v'] rest IH]; simpl; [discriminate |].
  destruct (String.eqb k k') eqn:E.
  - apply String.eqb_eq in E. subst. intro Heq. injection Heq as <-. left. reflexivity.
  - intro Hget. right. apply IH. exact Hget.
Qed.

Lemma NoDup_keys_assoc_set {V} (k : string) (v : V) (d : list (string * V)) :
  NoDup (keys d) -> NoDup (keys (assoc_set k v d)).
Proof.
  induction d as [| [k' v'] rest IH]; simpl; intro Hnd.
  - repeat constructor. simpl. tauto.
  - inversion Hnd as [| ? ? Hnotin Hnd']; subst.
    destruct (String.eqb k k') eqn:E; simpl.
    + apply String.eqb_eq in E. subst. constructor; assumption.
    + constructor; [| apply IH; exact Hnd'].
      change (~ In k' (keys (assoc_set k v rest))). rewrite keys_assoc_set.
      apply String.eqb_neq in E. intros [Heq | Hin]; [congruence | exact (Hnotin Hin)].
Qed.

Lemma keep_extracted_absent (attempts : list (string * Outcome DataFrame))
  (acc : list (string * DataFrame)) (t : string) :
  ~ In t (keys attempts) ->
  assoc_get t (fold_left keep_extracted attempts acc) = assoc_get t acc.
Proof.
  revert acc. induction attempts as [| [t0 o] rest IH]; intros acc Hnot; simpl; [reflexivity |].
  simpl in Hnot. rewrite IH by tauto.
  unfold keep_extracted. simpl. destruct o as [df | s]; [| reflexivity].
  apply assoc_get_set_other. intro Heq. apply Hnot. left. congruence.
Qed.

Lemma keep_extracted_lookup (attempts : list (string * Outcome DataFrame))
  (acc : list (string * DataFrame)) (t : string) (df : DataFrame) :
  NoDup (keys attempts) -> In (t, Ok df) attempts ->
  assoc_get t (fold_left keep_extracted attempts acc) = Some df.
Proof.
  revert acc. induction attempts as [| [t0 o] rest IH]; intros acc Hnd Hin; simpl;
    [contradiction |].
  inversion Hnd as [| ? ? Hnotin Hnd']; subst.
  destruct Hin as [Heq | Hin].
  - injection Heq as -> ->. rewrite keep_extracted_absent by exact Hnotin.
    apply assoc_get_set_same.
  - apply IH; assumption.
Qed.

Lemma keep_extracted_NoDup (attempts : list (string * Outcome DataFrame))
  (acc : list (string * DataFrame)) :
  NoDup (keys acc) -> NoDup (keys (fold_left keep_extracted attempts acc)).
Proof.
  revert acc. induction attempts as [| [t0 o] rest IH]; intros acc Hnd; simpl; [exact Hnd |].
  apply IH. unfold keep_extracted. simpl. destruct o; [| exact Hnd].
  apply NoDup_keys_assoc_set. exact Hnd.
Qed.

Section Store.

Context {pandas_ops : Pandas}.

Lemma target_store_app (tr1 tr2 : list Event) (store : list (string * DataFrame)) :
  target_store (tr1 ++ tr2) store = target_store tr2 (target_store tr1 store).
Proof.
  revert store. induction tr1 as [| ev rest IH]; intro store; simpl; [reflexivity |].
  destruct ev; apply IH.
Qed.

Lemma target_store_without_writes (tr : list Event) (store : list (string * DataFrame)) :
  Forall (written_within []) tr -> target_store tr store = store.
Proof.
  induction 1 as [| ev rest Hev _ IH]; simpl; [reflexivity |].
  destruct ev; simpl in Hev; [exact IH | exact IH | exact IH | contradiction].
Qed.

End Store.

Section EndToEnd.

Context {pandas_ops : Pandas}.
Variable env : Env.
Variable clean : DataFrame -> string -> Try DataFrame.
Variable validate : DataFrame -> string -> Verdict.
Variable self : ETLOrchestrator.

Lemma transform_loop_absent (d acc tdata : list (string * DataFrame)) (t : string) :
  outcome (for_each d (transform_table clean validate) acc) = Ok tdata ->
  ~ In t (keys d) -> assoc_get t tdata = assoc_get t acc.
Proof.
  revert acc. induction d as [| [name df] rest IH]; intros acc; cbn [for_each].
  - intros Heq _. injection Heq as <-. reflexivity.
  - rewrite outcome_bind, transform_table_outcome.
    destruct (clean df name) as [df_clean | e]; [| discriminate].
    destruct (_apply_business_logic df_clean name) as [df_t | e]; [| discriminate].
    intros Hrest Hnot. simpl in Hnot. rewrite (IH _ Hrest) by tauto.
    apply assoc_get_set_other. intro Heq. apply Hnot. left. congruence.
Qed.

(** A table given to the transform phase comes out cleaned and with the
    business rules applied. *)
Lemma transform_loop_lookup (d acc tdata : list (string * DataFrame)) (t : string)
  (df : DataFrame) :
  outcome (for_each d (transform_table clean validate) acc) = Ok tdata ->
  NoDup (keys d) -> In (t, df) d ->
  exists df_clean df_t,
    clean df t = Returned df_clean /\
    _apply_business_logic df_clean t = Returned df_t /\
    assoc_get t tdata = Some df_t.
Proof.
  revert acc. induction d as [| [name df0] rest IH]; intros acc; cbn [for_each].
  - intros _ _ [].
  - rewrite outcome_bind, transform_table_outcome.
    destruct (clean df0 name) as [df_clean | e] eqn:Ec; [| discriminate].
    destruct (_apply_business_logic df_clean name) as [df_t | e] eqn:Eb; [| discriminate].
    intros Hrest Hnd Hin. inversion Hnd as [| ? ? Hnotin Hnd']; subst.
    destruct Hin as [Heq | Hin].
    + injection Heq as -> ->. exists df_clean, df_t. repeat split; try assumption.
      rewrite (transform_loop_absent _ _ _ t Hrest Hnotin). apply assoc_get_set_same.
    + exact (IH _ Hrest Hnd' Hin).
Qed.

Lemma transform_loop_NoDup (d acc tdata : list (string * DataFrame)) :
  outcome (for_each d (transform_table clean validate) acc) = Ok tdata ->
  NoDup (keys acc) -> NoDup (keys tdata).
Proof.
  revert acc. induction d as [| [name df] rest IH]; intros acc; cbn [for_each].
  - intros Heq Hnd. injection Heq as <-. exact Hnd.
  - rewrite outcome_bind, transform_table_outcome.
    destruct (clean df name) as [df_clean | e]; [| discriminate].
    destruct (_apply_business_logic df_clean name) as [df_t | e]; [| discriminate].
    intros Hrest Hnd. apply (IH _ Hrest). apply NoDup_keys_assoc_set. exact Hnd.
Qed.

(** [load_full] hands the frame to [to_sql] as it is. *)
Lemma load_full_writes_frame (loader : DatabaseLoader.t) (df : DataFrame) (tb : string) n :
  outcome (DatabaseLoader.load_full env loader df tb) = Ok n ->
  n = len df /\
  trace (DatabaseLoader.load_full env loader df tb) = [ToSql tb df "replace"].
Proof.
  unfold DatabaseLoader.load_full, DatabaseLoader.write.
  destruct (to_sql env (DatabaseLoader.engine loader) tb df "replace"); simpl;
    [discriminate |].
  intro Heq. injection Heq as <-. split; reflexivity.
Qed.

Lemma load_table_writes (loader : DatabaseLoader.t) (name : string) (df : DataFrame)
  (store : list (string * DataFrame)) :
  outcome (load_table env loader "full" (name, df) tt) = Ok tt ->
  target_store (trace (load_table env loader "full" (name, df) tt)) store
  = assoc_set name df store.
Proof.
  unfold load_table. simpl String.eqb. cbv iota.
  unfold DatabaseLoader.load_full, DatabaseLoader.write.
  destruct (to_sql env (DatabaseLoader.engine loader) name df "replace"); simpl;
    [discriminate | reflexivity].
Qed.

Lemma load_loop_writes (loader : DatabaseLoader.t) (tdata store : list (string * DataFrame)) :
  outcome (for_each tdata (load_table env loader "full") tt) = Ok tt ->
  target_store (trace (for_each tdata (load_table env loader "full") tt)) store
  = fold_left keep_extracted (map (fun x => (fst x, Ok (snd x))) tdata) store.
Proof.
  revert store. induction tdata as [| [name df] rest IH]; intro store; cbn [for_each].
  - reflexivity.
  - rewrite outcome_bind, trace_bind.
    destruct (outcome (load_table env loader "full" (name, df) tt)) as [[] | s] eqn:Eo;
      [| discriminate].
    intro Hrest. rewrite target_store_app, (load_table_writes _ _ _ _ Eo).
    rewrite (IH _ Hrest). reflexivity.
Qed.

Lemma loader_init_writes_nothing (target : Dict) :
  tame (written_within []) (DatabaseLoader.init env target).
Proof. tame_with ltac:(exact I). Qed.

(** The store after a successful full load: every table given to the
    phase is replaced by the frame given for it. *)
Lemma load_phase_writes (tdata store : list (string * DataFrame)) :
  outcome (_load_phase env self tdata "full") = Ok tt ->
  target_store (trace (_load_phase env self tdata "full")) store
  = fold_left keep_extracted (map (fun x => (fst x, Ok (snd x))) tdata) store.
Proof.
  unfold _load_phase. rewrite outcome_bind, trace_bind, trace_lift, outcome_lift.
  destruct (cfg_target (config self)) as [target |]; [| discriminate].
  rewrite outcome_bind, trace_bind. cbn [app].
  destruct (outcome (DatabaseLoader.init env target)) as [loader | s] eqn:Ei;
    [| discriminate].
  intro Hloop. rewrite target_store_app.
  rewrite (target_store_without_writes _ _ (proj1 (loader_init_writes_nothing target))).
  apply load_loop_writes. exact Hloop.
Qed.

End EndToEnd.

Section CsvToTarget.

Context {pandas_ops : Pandas}.
Variable env : Env.
Variable clean : DataFrame -> string -> Try DataFrame.
Variable validate : DataFrame -> string -> Verdict.
Variable self : ETLOrchestrator.

Lemma keys_as_attempts (tdata : list (string * DataFrame)) :
  keys (map (fun x => (fst x, @Ok DataFrame (snd x))) tdata) = keys tdata.
Proof. unfold keys. rewrite map_map. reflexivity. Qed.

(** Apart from [--table products], a table read from CSV is attempted
    once. *)
Lemma csv_attempts_distinct (table : option string) (t : string) :
  In t (csv_tables table) -> t <> "products" ->
  NoDup (keys (extraction_attempts env self table)).
Proof.
  unfold extraction_attempts, keys. rewrite map_app, map_map. simpl.
  intros Hin Hne. destruct table as [tb |]; simpl in Hin |- *.
  - destruct (String.eqb tb "") eqn:Eempty; simpl in Hin |- *.
    + apply String.eqb_eq in Eempty. subst tb. simpl.
      repeat constructor; simpl; intuition discriminate.
    + destruct Hin as [<- | []]. apply String.eqb_neq in Hne. rewrite Hne. simpl.
      repeat constructor. simpl. tauto.
  - repeat constructor; simpl; intuition discriminate.
Qed.

(** A table read from CSV, cleaned and transformed, is what the target
    holds for it after a full run that returns. *)
Lemma csv_table_reaches_target (table : option string) (t : string) (result : DataFrame)
  (store : list (string * DataFrame)) :
  In t (csv_tables table) -> t <> "products" ->
  csv_attempt env self t = Ok result ->
  outcome (run_full_pipeline env clean validate self table) = Ok tt ->
  exists df_clean df_t,
    clean result t = Returned df_clean /\
    _apply_business_logic df_clean t = Returned df_t /\
    assoc_get t (target_store (trace (run_full_pipeline env clean validate self table)) store)
    = Some df_t.
Proof.
  intros Hin Hne Hcsv Hout.
  pose proof (run_full_pipeline_shape env clean validate self table) as Hshape.
  pose proof (csv_attempts_distinct table t Hin Hne) as Hnd.
  assert (Hattempt : In (t, Ok result) (extraction_attempts env self table)).
  { unfold extraction_attempts. apply in_or_app. left. rewrite <- Hcsv.
    apply (in_map (fun t => (t, csv_attempt env self t))). exact Hin. }
  assert (Hd : forall trx d, _extract_phase env self table = (trx, Ok d) ->
             NoDup (keys d) /\ In (t, result) d).
  { intros trx d Ex. apply outcome_of_eq in Ex.
    rewrite (extract_phase_collects env self table
               (extract_phase_ok_ready env self table d Ex)) in Ex.
    injection Ex as <-. split.
    - apply keep_extracted_NoDup. constructor.
    - apply assoc_get_In. apply keep_extracted_lookup; assumption. }
  remember (run_full_pipeline env clean validate self table) as m eqn:Hm. clear Hm.
  destruct Hshape as [trx e0 Ex | trx Ex | trx d trt e0 Ex Hd0 Et
                     | trx d trt tdata trl e0 Ex Hd0 Et El | trx d trt tdata trl Ex Hd0 Et El];
    try discriminate.
  - destruct (Hd _ _ Ex) as [_ []].
  - destruct (Hd _ _ Ex) as [Hndd Hind].
    pose proof (outcome_of_eq _ _ _ Et) as Hto. unfold _transform_phase in Hto.
    destruct (transform_loop_lookup clean validate d [] tdata t result Hto Hndd Hind)
      as (df_clean & df_t & Hc & Hb & Hget).
    exists df_clean, df_t. refine (conj Hc (conj Hb _)).
    cbn [trace fst]. unfold full_success_events.
    rewrite !target_store_app.
    rewrite (target_store_without_writes (full_run_head env)) by repeat constructor.
    rewrite (target_store_without_writes trx).
    2: { rewrite <- (trace_of_eq _ _ _ Ex).
         apply (extract_phase_writes_nothing env self table). }
    rewrite (target_store_without_writes (banner_events "PHASE 2: TRANSFORM"))
      by repeat constructor.
    rewrite (target_store_without_writes trt).
    2: { rewrite <- (trace_of_eq _ _ _ Et).
         apply (transform_phase_writes_nothing clean validate self d). }
    rewrite (target_store_without_writes (banner_events "PHASE 3: LOAD"))
      by repeat constructor.
    pose proof (load_phase_writes env self tdata store (outcome_of_eq _ _ _ El)) as Hstore.
    rewrite (trace_of_eq _ _ _ El) in Hstore.
    rewrite (target_store_without_writes (trace (_print_summary self (full_run_id env)))).
    2: { apply (print_summary_writes_nothing self (full_run_id env)). }
    rewrite (target_store_without_writes [_; _]) by repeat constructor.
    rewrite Hstore. apply keep_extracted_lookup.
    + rewrite keys_as_attempts.
      apply (transform_loop_NoDup clean validate d [] tdata Hto). constructor.
    + apply (in_map (fun x => (fst x, Ok (snd x))) tdata (t, df_t)).
      apply assoc_get_In. exact Hget.
Qed.

End CsvToTarget.

Section CsvMetadata.

Context {pandas_ops : Pandas}.
Variable env : Env.
Variable clean : DataFrame -> string -> Try DataFrame.
Variable validate : DataFrame -> string -> Verdict.
Variable self : ETLOrchestrator.

Lemma in_columns_of_lookup (c : string) (df : DataFrame) (s : Series) :
  assoc_get c (columns df) = Some s -> in_columns c df = true.
Proof. unfold in_columns, has_key. intros ->. reflexivity. Qed.

Lemma in_columns_same_lookup (c : string) (df df' : DataFrame) :
  assoc_get c (columns df') = assoc_get c (columns df) ->
  in_columns c df = true -> in_columns c df' = true.
Proof. unfold in_columns, has_key. intros ->. auto. Qed.

(** C10, as the code has it: for a table extracted by the CSV
    extractor, the returned dataset has the rows of the parsed file and
    the columns [_extracted_at] and [_source_file] holding the
    extraction time and the file name; every parsed column of another
    name is unchanged, and when the file has neither name the result is
    the parsed columns followed by these two.  The business rules never
    touch the two columns and [load_full] writes the frame it is given,
    so that in a full run that returns, with a cleaner that keeps the
    two columns, the target table of a CSV table other than [products]
    has both. *)
Theorem csv_extract_adds_metadata_columns (table : option string) (t p : string)
  (parsed : DataFrame) :
  source_setting self "csv_path" = Returned p ->
  let file_path := path_join (Path p) (t ++ ".csv") in
  let file_name := path_name file_path in
  path_exists env (path_str file_path) = true ->
  read_csv env (path_str file_path) (CSVExtractor._get_date_columns t) = Returned parsed ->
  let result := CSVExtractor.add_metadata env file_name parsed in
  let run := run_full_pipeline env clean validate self table in
  outcome (CSVExtractor.extract env (CSVExtractor.mk (Path p)) t) = Ok result /\
  nrows result = nrows parsed /\
  assoc_get "_extracted_at" (columns result)
  = Some (broadcast datetime64 (timestamp_now env) (nrows parsed)) /\
  assoc_get "_source_file" (columns result)
  = Some (broadcast object_ (VStr file_name) (nrows parsed)) /\
  (forall c, ~ is_metadata_column c ->
             assoc_get c (columns result) = assoc_get c (columns parsed)) /\
  (in_columns "_extracted_at" parsed = false ->
   in_columns "_source_file" parsed = false ->
   columns result = (columns parsed ++ metadata_columns env file_name (nrows parsed))%list) /\
  (forall df df' tb c,
     is_metadata_column c -> _apply_business_logic df tb = Returned df' ->
     assoc_get c (columns df') = assoc_get c (columns df)) /\
  (forall loader df tb n,
     outcome (DatabaseLoader.load_full env loader df tb) = Ok n ->
     trace (DatabaseLoader.load_full env loader df tb) = [ToSql tb df "replace"]) /\
  (In t (csv_tables table) -> t <> "products" ->
   keeps_column clean "_extracted_at" -> keeps_column clean "_source_file" ->
   outcome run = Ok tt ->
   forall store, exists df,
     assoc_get t (target_store (trace run) store) = Some df /\
     in_columns "_extracted_at" df = true /\ in_columns "_source_file" df = true).
Proof.
  intros Hpath file_path file_name Hexists Hread result run.
  pose proof (csv_extract_outcome env (CSVExtractor.mk (Path p)) t parsed Hexists Hread) as Hextract.
  destruct (add_metadata_columns env file_name parsed) as (Hrows & Hat & Hfile & Hother & Hnew).
  refine (conj Hextract (conj Hrows (conj Hat (conj Hfile (conj Hother (conj Hnew
            (conj _ (conj _ _)))))))).
  - intros df df' tb c Hc Hlogic. exact (business_logic_keeps_metadata df df' tb c Hc Hlogic).
  - intros loader df tb n Hn. exact (proj2 (load_full_writes_frame env loader df tb n Hn)).
  - intros Hin Hne Hkeep_at Hkeep_file Hout store.
    assert (Hcsv : csv_attempt env self t = Ok result).
    { unfold csv_attempt. rewrite Hpath. exact Hextract. }
    destruct (csv_table_reaches_target env clean validate self table t result store
                Hin Hne Hcsv Hout) as (df_clean & df_t & Hc & Hb & Hget).
    exists df_t. refine (conj Hget (conj _ _)).
    + apply (in_columns_same_lookup _ df_clean df_t).
      * apply (business_logic_keeps_metadata df_clean df_t t); [left; reflexivity | exact Hb].
      * apply (Hkeep_at result t df_clean Hc). exact (in_columns_of_lookup _ _ _ Hat).
    + apply (in_columns_same_lookup _ df_clean df_t).
      * apply (business_logic_keeps_metadata df_clean df_t t); [right; reflexivity | exact Hb].
      * apply (Hkeep_file result t df_clean Hc). exact (in_columns_of_lookup _ _ _ Hfile).
Qed.

End CsvMetadata.

Lemma csv_extract_adds_metadata_columns_witness :
  let run := run_full_pipeline (pandas_ops := Sample.pandas) Sample.healthy Sample.keep
               DataValidator.validate Sample.self None in
  exists df,
    assoc_get "orders" (target_store (pandas_ops := Sample.pandas) (trace run) []) = Some df /\
    in_columns "_extracted_at" df = true /\ in_columns "_source_file" df = true.
Proof.
  assert (Hkeep : forall c, keeps_column Sample.keep c).
  { intros c df tb df' Heq Hin. injection Heq as <-. exact Hin. }
  destruct (csv_extract_adds_metadata_columns (pandas_ops := Sample.pandas)
              Sample.healthy Sample.keep DataValidator.validate Sample.self None
              "orders" "data/source" Sample.orders_csv)
    as (_ & _ & _ & _ & _ & _ & _ & _ & Hstore).
  - reflexivity.
  - reflexivity.
  - reflexivity.
  - apply (Hstore ltac:(left; reflexivity) ltac:(discriminate)
             (Hkeep "_extracted_at") (Hkeep "_source_file")
             ltac:(vm_compute; reflexivity) []).
Defined.

(** With [--table products] both extractors are tried for [products]:
    the frame read from [products.csv] is replaced by the one read from
    SQLite, which has no metadata columns. *)
Lemma products_csv_is_replaced_by_database :
  let run := run_full_pipeline (pandas_ops := Sample.pandas) Sample.products_twice
               Sample.keep DataValidator.validate Sample.self (Some "products") in
  (exists df, csv_attempt Sample.products_twice Sample.self "products" = Ok df /\
              in_columns "_source_file" df = true) /\
  outcome run = Ok tt /\
  exists df, assoc_get "products" (target_store (pandas_ops := Sample.pandas) (trace run) [])
             = Some df /\
             in_columns "_source_file" df = false.
Proof.
  split; [| split].
  - eexists. split; [vm_compute; reflexivity | reflexivity].
  - vm_compute. reflexivity.
  - eexists. split; [vm_compute; reflexivity | reflexivity].
Qed.

(* ================================================================== *)
(** * Further properties of the code *)

(** ** Business rules: what they leave alone *)

Section BusinessLogicFrame.

Context {pandas_ops : Pandas}.

Lemma setitem_frame (df : DataFrame) (name : string) (s : Series) (c : string) :
  nrows (setitem df name s) = nrows df /\
  (c <> name -> assoc_get c (columns (setitem df name s)) = assoc_get c (columns df)) /\
  (in_columns c df = true -> in_columns c (setitem df name s) = true).
Proof.
  refine (conj eq_refl (conj _ _)).
  - intro Hne. apply columns_setitem_other. exact Hne.
  - apply in_columns_setitem.
Qed.

(** X1: the business rules keep the number of rows, keep every column
    present, and leave every column untouched except the ones they
    assign for the table at hand: [total_amount], [order_year] and
    [order_month] for orders, [email] for customers, [margin_pct] for
    products, none for any other table. *)
Theorem business_logic_frame (df df' : DataFrame) (table_name : string) :
  _apply_business_logic df table_name = Returned df' ->
  nrows df' = nrows df /\
  (forall c, ~ In c (touched_columns table_name) ->
             assoc_get c (columns df') = assoc_get c (columns df)) /\
  (forall c, in_columns c df = true -> in_columns c df' = true).
Proof.
  unfold _apply_business_logic, touched_columns.
  destruct (String.eqb table_name "orders").
  - destruct (in_columns "quantity" df && in_columns "unit_price" df).
    + destruct (getitem df "quantity") as [q |]; simpl; [| discriminate].
      destruct (getitem df "unit_price") as [u |]; simpl; [| discriminate].
      destruct (series_mul q u) as [total |]; simpl; [| discriminate].
      destruct (getitem _ "order_date") as [od |]; simpl; [| discriminate].
      destruct (dt_year od) as [y |]; simpl; [| discriminate].
      destruct (getitem _ "order_date") as [od' |]; simpl; [| discriminate].
      destruct (dt_month od') as [m |]; simpl; [| discriminate].
      intro Heq. injection Heq as <-.
      refine (conj eq_refl (conj _ _)).
      * intros c Hc. rewrite !columns_setitem_other; try reflexivity;
          intro Heq; apply Hc; subst; simpl; auto.
      * intros c Hin. repeat apply in_columns_setitem. exact Hin.
    + simpl.
      destruct (getitem df "order_date") as [od |]; simpl; [| discriminate].
      destruct (dt_year od) as [y |]; simpl; [| discriminate].
      destruct (getitem _ "order_date") as [od' |]; simpl; [| discriminate].
      destruct (dt_month od') as [m |]; simpl; [| discriminate].
      intro Heq. injection Heq as <-.
      refine (conj eq_refl (conj _ _)).
      * intros c Hc. rewrite !columns_setitem_other; try reflexivity;
          intro Heq; apply Hc; subst; simpl; auto.
      * intros c Hin. repeat apply in_columns_setitem. exact Hin.
  - destruct (String.eqb table_name "customers").
    + destruct (in_columns "email" df);
        [| intro Heq; injection Heq as <-; repeat split; auto].
      destruct (getitem df "email") as [em |]; simpl; [| discriminate].
      destruct (series_str_lower_strip em) as [em' |]; simpl; [| discriminate].
      intro Heq. injection Heq as <-.
      refine (conj eq_refl (conj _ _)).
      * intros c Hc. rewrite columns_setitem_other; [reflexivity |].
        intro Heq; apply Hc; subst; simpl; auto.
      * intros c Hin. apply in_columns_setitem. exact Hin.
    + destruct (String.eqb table_name "products");
        [| intro Heq; injection Heq as <-; repeat split; auto].
      destruct (in_columns "price" df && in_columns "cost" df);
        [| intro Heq; injection Heq as <-; repeat split; auto].
      destruct (getitem df "price") as [pr |]; simpl; [| discriminate].
      destruct (getitem df "cost") as [co |]; simpl; [| discriminate].
      destruct (series_margin_pct pr co) as [mg |]; simpl; [| discriminate].
      intro Heq. injection Heq as <-.
      refine (conj eq_refl (conj _ _)).
      * intros c Hc. rewrite columns_setitem_other; [reflexivity |].
        intro Heq; apply Hc; subst; simpl; auto.
      * intros c Hin. apply in_columns_setitem. exact Hin.
Qed.

(** X2: for orders with an [order_date] column of a calendar dtype, the
    rules return unless the guarded product fails: without [quantity]
    or [unit_price] the result is the frame with [order_year] and
    [order_month] read off [order_date]; with both, [total_amount] is
    their product, and a failure of the product is the failure of the
    call. *)
Theorem orders_logic_with_order_date (df : DataFrame) (od : Series) :
  assoc_get "order_date" (columns df) = Some od ->
  has_calendar_fields (dtype od) = true ->
  let dated frame :=
    setitem (setitem frame "order_year" (calendar_year od))
            "order_month" (calendar_month od) in
  (in_columns "quantity" df && in_columns "unit_price" df = false ->
   _apply_business_logic df "orders" = Returned (dated df)) /\
  (forall q u,
     assoc_get "quantity" (columns df) = Some q ->
     assoc_get "unit_price" (columns df) = Some u ->
     _apply_business_logic df "orders" =
     match series_mul q u with
     | Returned total => Returned (dated (setitem df "total_amount" total))
     | Threw e => Threw e
     end).
Proof.
  intros Hod Hcal dated.
  assert (Hdate : forall frame,
            assoc_get "order_date" (columns frame) = Some od ->
            (let? order_date := getitem frame "order_date" in
             let? year := dt_year order_date in
             let df2 := setitem frame "order_year" year in
             let? order_date' := getitem df2 "order_date" in
             let? month := dt_month order_date' in
             Returned (setitem df2 "order_month" month)) = Returned (dated frame)).
  { intros frame Hfr. unfold getitem at 1. rewrite Hfr. simpl.
    assert (Hacc : dt_accessor od = Returned od).
    { unfold dt_accessor. destruct (dtype od); try discriminate; reflexivity. }
    unfold dt_year. rewrite Hacc, Hcal. simpl.
    unfold getitem. rewrite columns_setitem_other by discriminate. rewrite Hfr. simpl.
    unfold dt_month. rewrite Hacc, Hcal. reflexivity. }
  unfold _apply_business_logic. simpl String.eqb. cbv iota. split.
  - intros Hguard. rewrite Hguard. simpl. apply Hdate. exact Hod.
  - intros q u Hq Hu.
    unfold in_columns, has_key. rewrite Hq, Hu. simpl.
    unfold getitem at 1 2. rewrite Hq, Hu. simpl.
    destruct (series_mul q u) as [total | e]; simpl; [| reflexivity].
    apply Hdate. rewrite columns_setitem_other by discriminate. exact Hod.
Qed.

End BusinessLogicFrame.

Lemma business_logic_frame_witness :
  exists df',
    _apply_business_logic (pandas_ops := Sample.pandas) Sample.orders_csv "orders"
    = Returned df' /\
    nrows df' = 2 /\
    assoc_get "order_id" (columns df') = assoc_get "order_id" (columns Sample.orders_csv).
Proof.
  eexists. split; [vm_compute; reflexivity |].
  destruct (business_logic_frame (pandas_ops := Sample.pandas) Sample.orders_csv _ "orders"
              ltac:(vm_compute; reflexivity)) as (Hrows & Hsame & _).
  split; [exact Hrows |].
  apply Hsame. simpl. intuition discriminate.
Defined.

Lemma orders_logic_with_order_date_witness :
  exists df',
    _apply_business_logic (pandas_ops := Sample.pandas) Sample.orders_csv "orders"
    = Returned df' /\
    assoc_get "order_month" (columns df') = Some (mkSeries int64 [VInt 1; VInt 2]).
Proof.
  destruct (orders_logic_with_order_date (pandas_ops := Sample.pandas) Sample.orders_csv
              (mkSeries datetime64 [VTime 20240131; VTime 20240215]) eq_refl eq_refl)
    as [_ Hboth].
  eexists. split.
  - rewrite (Hboth (mkSeries int64 [VInt 3; VInt 1]) (mkSeries int64 [VInt 10; VInt 25])
               eq_refl eq_refl).
    vm_compute. reflexivity.
  - vm_compute. reflexivity.
Defined.

(** ** Load phase: order, mode and first failure *)

Lemma writes_app (tr1 tr2 : list Event) : writes (tr1 ++ tr2) = (writes tr1 ++ writes tr2)%list.
Proof.
  induction tr1 as [| ev rest IH]; simpl; [reflexivity |].
  destruct ev; simpl; rewrite ?IH; reflexivity.
Qed.

Lemma handled_app (tr1 tr2 : list Event) :
  handled (tr1 ++ tr2) = (handled tr1 ++ handled tr2)%list.
Proof.
  induction tr1 as [| ev rest IH]; simpl; [reflexivity |].
  destruct ev; simpl; rewrite ?IH; reflexivity.
Qed.

Lemma metrics_calls_app (tr1 tr2 : list Event) :
  metrics_calls (tr1 ++ tr2) = (metrics_calls tr1 ++ metrics_calls tr2)%list.
Proof.
  induction tr1 as [| ev rest IH]; simpl; [reflexivity |].
  destruct ev; simpl; rewrite ?IH; reflexivity.
Qed.

Section LoadPhase.

Variable env : Env.
Variable self : ETLOrchestrator.

(** A turn of the load loop, written out. *)
Lemma load_table_run (loader : DatabaseLoader.t) (mode name : string) (df : DataFrame) :
  load_table env loader mode (name, df) tt =
  match to_sql env (DatabaseLoader.engine loader) name df (if_exists_of mode) with
  | None =>
      ([ Log INFO ("Loading: " ++ name ++ " (" ++ mode ++ " mode)");
         ToSql name df (if_exists_of mode);
         Log SUCCESS ("Loaded " ++ str_of_nat (len df) ++ " records to " ++ name);
         Metrics (record_load_call name (len df)) ], Ok tt)
  | Some e =>
      ([ Log INFO ("Loading: " ++ name ++ " (" ++ mode ++ " mode)");
         Log ERROR ("Load failed for " ++ name ++ ": " ++ exn_msg e);
         HandleError e [("table", name); ("phase", "load")] ], Raise (Exception e))
  end.
Proof.
  unfold load_table, if_exists_of, DatabaseLoader.load_full,
    DatabaseLoader.load_incremental, DatabaseLoader.write.
  destruct (String.eqb mode "full");
    destruct (to_sql env (DatabaseLoader.engine loader) name df _); reflexivity.
Qed.

Lemma load_loop_progress (loader : DatabaseLoader.t) (mode : string)
  (tdata : list (string * DataFrame)) :
  let m := for_each tdata (load_table env loader mode) tt in
  exists done rest,
    tdata = (done ++ rest)%list /\
    writes (trace m) = map (fun x => (fst x, snd x, if_exists_of mode)) done /\
    metrics_calls (trace m) = map (fun x => record_load_call (fst x) (len (snd x))) done /\
    match outcome m with
    | Ok _ => rest = [] /\ handled (trace m) = []
    | Raise s =>
        exists t df rest' e,
          rest = (t, df) :: rest' /\ s = Exception e /\
          to_sql env (DatabaseLoader.engine loader) t df (if_exists_of mode) = Some e /\
          handled (trace m) = [(e, [("table", t); ("phase", "load")])]
    end.
Proof.
  induction tdata as [| [name df] tail IH]; cbn [for_each]; cbv zeta.
  - exists [], []. simpl. auto.
  - rewrite load_table_run.
    destruct (to_sql env (DatabaseLoader.engine loader) name df (if_exists_of mode))
      as [e |] eqn:Esql.
    + exists [], ((name, df) :: tail). simpl. repeat split.
      exists name, df, tail, e. auto.
    + destruct IH as (done & rest & Hsplit & Hw & Hm & Hout).
      exists ((name, df) :: done), rest.
      rewrite outcome_bind, trace_bind. cbn [outcome trace fst snd].
      rewrite writes_app, metrics_calls_app, handled_app. simpl.
      rewrite Hw, Hm.
      refine (conj _ (conj eq_refl (conj eq_refl _))).
      * simpl. f_equal. exact Hsplit.
      * destruct (outcome (for_each tail (load_table env loader mode) tt)) as [[] | s];
          exact Hout.
Qed.

Lemma loader_init_silent (target : Dict) : trace (DatabaseLoader.init env target) = [].
Proof.
  unfold DatabaseLoader.init.
  repeat (rewrite trace_bind, outcome_lift, trace_lift;
          match goal with |- context [dict_item target ?k] => destruct (dict_item target k) end;
          [cbn [app] | reflexivity]).
  destruct (create_engine env _); reflexivity.
Qed.

Lemma load_phase_progress (tdata : list (string * DataFrame))
  (mode : string) :
  let m := _load_phase env self tdata mode in
  exists done rest,
    tdata = (done ++ rest)%list /\
    writes (trace m) = map (fun x => (fst x, snd x, if_exists_of mode)) done /\
    metrics_calls (trace m) = map (fun x => record_load_call (fst x) (len (snd x))) done /\
    match outcome m with
    | Ok _ => rest = [] /\ handled (trace m) = []
    | Raise s =>
        (done = [] /\ trace m = []) \/
        exists t df rest' e,
          rest = (t, df) :: rest' /\ s = Exception e /\
          handled (trace m) = [(e, [("table", t); ("phase", "load")])]
    end.
Proof.
  unfold _load_phase. cbv zeta.
  rewrite outcome_bind, trace_bind, outcome_lift, trace_lift.
  destruct (cfg_target (config self)) as [target |].
  - rewrite outcome_bind, trace_bind, loader_init_silent. cbn [app].
    destruct (outcome (DatabaseLoader.init env target)) as [loader | s] eqn:Ei.
    + destruct (load_loop_progress loader mode tdata) as (done & rest & Hs & Hw & Hm & Hout).
      exists done, rest. refine (conj Hs (conj Hw (conj Hm _))).
      destruct (outcome (for_each tdata (load_table env loader mode) tt)) as [[] | s].
      * exact Hout.
      * right. destruct Hout as (t & df & rest' & e & Hr & Hse & _ & Hh).
        exists t, df, rest', e. auto.
    + exists [], tdata. simpl. repeat split. left. split; reflexivity.
  - exists [], tdata. simpl. repeat split. left. split; reflexivity.
Qed.


(** X4: without a complete target section (all of user, password, host,
    port, database) the load phase raises [KeyError] for a missing key
    and has written nothing, whatever it was given to load. *)
Theorem load_phase_needs_complete_target (tdata : list (string * DataFrame))
  (mode : string) :
  (cfg_target (config self) = None \/
   exists target k, cfg_target (config self) = Some target /\
                    In k target_keys /\ assoc_get k target = None) ->
  exists k, _load_phase env self tdata mode = ([], Raise (Exception (KeyError k))).
Proof.
  unfold _load_phase.
  intros [Hnone | (target & k & Hsome & Hin & Hmiss)].
  - rewrite Hnone. exists "target". reflexivity.
  - rewrite Hsome. unfold DatabaseLoader.init, dict_item. simpl.
    destruct (assoc_get "user" target) eqn:E1; [| exists "user"; reflexivity].
    destruct (assoc_get "password" target) eqn:E2; [| exists "password"; reflexivity].
    destruct (assoc_get "host" target) eqn:E3; [| exists "host"; reflexivity].
    destruct (assoc_get "port" target) eqn:E4; [| exists "port"; reflexivity].
    destruct (assoc_get "database" target) eqn:E5; [| exists "database"; reflexivity].
    exfalso. simpl in Hin.
    destruct Hin as [<- | [<- | [<- | [<- | [<- | []]]]]]; congruence.
Qed.

End LoadPhase.

Lemma load_phase_needs_complete_target_witness :
  exists k,
    _load_phase Sample.healthy
      (mkOrchestrator (mkConfig None (Some [("user", "etl"); ("host", "localhost")]) None None)
         PipelineMetrics.new)
      [("orders", Sample.orders_csv)] "full"
    = ([], Raise (Exception (KeyError k))).
Proof.
  apply load_phase_needs_complete_target.
  right. exists [("user", "etl"); ("host", "localhost")], "password".
  split; [reflexivity |]. split; [right; left; reflexivity | reflexivity].
Defined.

(** ** Transform phase: order and first failure *)

Lemma quiet_logs (tr : list Event) :
  Forall only_logs tr -> metrics_calls tr = [] /\ handled tr = [] /\ writes tr = [] /\
                         transformed_tables tr = [].
Proof.
  induction 1 as [| ev rest Hev _ IH]; simpl; [auto |].
  destruct ev; simpl in Hev; try contradiction. exact IH.
Qed.

Lemma transformed_tables_app (tr1 tr2 : list Event) :
  transformed_tables (tr1 ++ tr2) = (transformed_tables tr1 ++ transformed_tables tr2)%list.
Proof.
  induction tr1 as [| ev rest IH]; simpl; [reflexivity |].
  destruct ev as [| [] | |]; simpl; rewrite ?IH; reflexivity.
Qed.

Lemma log_validation_only_logs (table_name : string) (v : Verdict) :
  Forall only_logs (trace (log_validation table_name v)).
Proof.
  rewrite trace_log_validation. destruct (is_valid v); [constructor |].
  constructor; [exact I |]. apply Forall_forall. intros ev Hin.
  apply in_map_iff in Hin. destruct Hin as (w & <- & _). exact I.
Qed.

Section TransformPhase.

Context {pandas_ops : Pandas}.
Variable clean : DataFrame -> string -> Try DataFrame.
Variable validate : DataFrame -> string -> Verdict.
Variable self : ETLOrchestrator.

#[local] Arguments log_validation : simpl never.

(** What a turn of the transform loop records and reports. *)
Lemma transform_table_bookkeeping (name : string) (df : DataFrame)
  (acc : list (string * DataFrame)) :
  let m := transform_table clean validate (name, df) acc in
  match outcome m with
  | Ok _ => transformed_tables (trace m) = [name] /\ handled (trace m) = []
  | Raise s =>
      exists e, s = Exception e /\
        transformed_tables (trace m) = [] /\
        handled (trace m) = [(e, [("table", name); ("phase", "transform")])] /\
        (clean df name = Threw e \/
         exists df_clean, clean df name = Returned df_clean /\
                          _apply_business_logic df_clean name = Threw e)
  end.
Proof.
  cbv zeta. unfold transform_table.
  destruct (clean df name) as [df_clean | e] eqn:Ec.
  - pose proof (log_validation_returns name (validate df_clean name)) as Hret.
    destruct (quiet_logs _ (log_validation_only_logs name (validate df_clean name)))
      as (_ & Hh & _ & Ht).
    simpl.
    destruct (log_validation name (validate df_clean name)) as [trv ov].
    cbn [outcome trace fst snd] in Hret, Hh, Ht. subst ov.
    destruct (_apply_business_logic df_clean name) as [df_t | e] eqn:Eb; simpl.
    + rewrite transformed_tables_app, handled_app, Hh, Ht. simpl. auto.
    + exists e. split; [reflexivity |].
      rewrite <- app_assoc, transformed_tables_app, handled_app, Hh, Ht. simpl.
      repeat split. right. exists df_clean. auto.
  - exists e. split; [reflexivity |]. simpl. auto.
Qed.

Lemma transform_loop_progress (d acc : list (string * DataFrame)) :
  let m := for_each d (transform_table clean validate) acc in
  exists done rest,
    d = (done ++ rest)%list /\
    transformed_tables (trace m) = keys done /\
    match outcome m with
    | Ok _ => rest = [] /\ handled (trace m) = []
    | Raise s =>
        exists name df rest' e,
          rest = (name, df) :: rest' /\ s = Exception e /\
          handled (trace m) = [(e, [("table", name); ("phase", "transform")])] /\
          (clean df name = Threw e \/
           exists df_clean, clean df name = Returned df_clean /\
                            _apply_business_logic df_clean name = Threw e)
    end.
Proof.
  cbv zeta. revert acc.
  induction d as [| [name df] tail IH]; intro acc; cbn [for_each].
  - exists [], []. simpl. repeat split.
  - pose proof (transform_table_bookkeeping name df acc) as Hstep. cbv zeta in Hstep.
    rewrite outcome_bind, trace_bind.
    destruct (outcome (transform_table clean validate (name, df) acc)) as [acc' | s].
    + destruct Hstep as [Ht Hh].
      destruct (IH acc') as (done & rest & Hsplit & Htt & Hout).
      exists ((name, df) :: done), rest.
      rewrite transformed_tables_app, handled_app, Ht, Hh, Htt.
      refine (conj _ (conj eq_refl _)).
      * simpl. f_equal. exact Hsplit.
      * destruct (outcome (for_each tail (transform_table clean validate) acc'));
          exact Hout.
    + destruct Hstep as (e & -> & Ht & Hh & Hwhy).
      exists [], ((name, df) :: tail).
      refine (conj eq_refl (conj Ht _)).
      exists name, df, tail, e. auto.
Qed.

Lemma transform_phase_progress (d : list (string * DataFrame)) :
  let m := _transform_phase clean validate self d in
  exists done rest,
    d = (done ++ rest)%list /\
    transformed_tables (trace m) = keys done /\
    match outcome m with
    | Ok _ => rest = [] /\ handled (trace m) = []
    | Raise s =>
        exists name df rest' e,
          rest = (name, df) :: rest' /\ s = Exception e /\
          handled (trace m) = [(e, [("table", name); ("phase", "transform")])] /\
          (clean df name = Threw e \/
           exists df_clean, clean df name = Returned df_clean /\
                            _apply_business_logic df_clean name = Threw e)
    end.
Proof. exact (transform_loop_progress d []). Qed.

(** X5: the transform phase takes the tables in the order of the
    dictionary and records each one it has transformed; it stops at the
    first table whose cleaning or business rules raise, hands that
    error with the table's name to [handle_error], and re-raises it:
    no later table is transformed. *)
Theorem transform_phase_stops_at_first_failure (d : list (string * DataFrame)) :
  let m := _transform_phase clean validate self d in
  exists done rest,
    d = (done ++ rest)%list /\
    transformed_tables (trace m) = keys done /\
    match outcome m with
    | Ok _ => rest = [] /\ handled (trace m) = []
    | Raise s =>
        exists name df rest' e,
          rest = (name, df) :: rest' /\ s = Exception e /\
          handled (trace m) = [(e, [("table", name); ("phase", "transform")])] /\
          (clean df name = Threw e \/
           exists df_clean, clean df name = Returned df_clean /\
                            _apply_business_logic df_clean name = Threw e)
    end.
Proof.
  cbv zeta.
  destruct (transform_phase_progress d) as (done & rest & Hsplit & Ht & Hout).
  exists done, rest. repeat split; assumption.
Qed.

(** X6: with the validator shipped in the repository no validation warning
    is ever logged and every recorded quality score is 100, whatever
    the data and the cleaner. *)
Theorem shipped_validator_never_warns (d : list (string * DataFrame)) :
  tame clean_bill (_transform_phase clean DataValidator.validate self d).
Proof.
  unfold _transform_phase. apply tame_for_each. intros [name df] acc _.
  unfold transform_table, log_validation.
  cbn [DataValidator.validate is_valid negb quality_score].
  tame_with ltac:(simpl; first [exact I | reflexivity]).
Qed.

End TransformPhase.

(** ** Extract phase: what is recorded and what is reported *)

Lemma writes_within_nil (tr : list Event) : Forall (written_within []) tr -> writes tr = [].
Proof.
  induction 1 as [| ev rest Hev _ IH]; simpl; [reflexivity |].
  destruct ev; simpl in Hev; try exact IH. contradiction.
Qed.

Lemma bind_ret {A B} (a : A) (k : A -> M B) : bind (ret a) k = k a.
Proof. unfold bind, ret. destruct (k a). reflexivity. Qed.

Lemma trace_bind_ok {A B} (tr : list Event) (a : A) (k : A -> M B) :
  trace (bind (tr, Ok a) k) = (tr ++ trace (k a))%list.
Proof. rewrite trace_bind. reflexivity. Qed.

Lemma outcome_bind_ok {A B} (tr : list Event) (a : A) (k : A -> M B) :
  outcome (bind (tr, Ok a) k) = outcome (k a).
Proof. rewrite outcome_bind. reflexivity. Qed.

Section ExtractBookkeeping.

Variable env : Env.
Variable self : ETLOrchestrator.

Lemma csv_extract_only_logs (ex : CSVExtractor.t) (t : string) :
  tame only_logs (CSVExtractor.extract env ex t).
Proof. tame_with ltac:(exact I). Qed.

Lemma db_extract_only_logs (ex : DatabaseExtractor.t) (t : string) :
  tame only_logs (DatabaseExtractor.extract_table env ex t).
Proof. tame_with ltac:(exact I). Qed.

Lemma extract_csv_table_bookkeeping (ex : CSVExtractor.t) (t : string)
  (d : list (string * DataFrame)) :
  let m := extract_csv_table env ex t d in
  let a := (t, outcome (CSVExtractor.extract env ex t)) in
  metrics_calls (trace m) = attempt_record a /\ handled (trace m) = attempt_report a.
Proof.
  cbv zeta. unfold extract_csv_table, attempt_record, attempt_report.
  destruct (csv_extract_only_logs ex t) as [Hlogs Hx].
  destruct (CSVExtractor.extract env ex t) as [tre [df | [e | c]]];
    cbn [trace fst outcome snd] in Hlogs, Hx.
  - destruct (quiet_logs _ Hlogs) as (Hm & Hh & _). simpl.
    rewrite metrics_calls_app, handled_app, Hm, Hh. split; reflexivity.
  - destruct (quiet_logs _ Hlogs) as (Hm & Hh & _). simpl.
    rewrite metrics_calls_app, handled_app, Hm, Hh. split; reflexivity.
  - exfalso. exact (Hx c eq_refl).
Qed.

Lemma extract_products_bookkeeping (ex : DatabaseExtractor.t) (d : list (string * DataFrame)) :
  let m := extract_products env ex d in
  let a := ("products", outcome (DatabaseExtractor.extract_table env ex "products")) in
  metrics_calls (trace m) = attempt_record a /\ handled (trace m) = attempt_report a.
Proof.
  cbv zeta. unfold extract_products, attempt_record, attempt_report.
  destruct (db_extract_only_logs ex "products") as [Hlogs Hx].
  destruct (DatabaseExtractor.extract_table env ex "products") as [tre [df | [e | c]]];
    cbn [trace fst outcome snd] in Hlogs, Hx.
  - destruct (quiet_logs _ Hlogs) as (Hm & Hh & _). simpl.
    rewrite metrics_calls_app, handled_app, Hm, Hh. split; reflexivity.
  - destruct (quiet_logs _ Hlogs) as (Hm & Hh & _). simpl.
    rewrite metrics_calls_app, handled_app, Hm, Hh. split; reflexivity.
  - exfalso. exact (Hx c eq_refl).
Qed.

Lemma extract_loop_bookkeeping (ex : CSVExtractor.t) (ts : list string)
  (acc : list (string * DataFrame)) :
  let m := for_each ts (extract_csv_table env ex) acc in
  let attempts := map (fun t => (t, outcome (CSVExtractor.extract env ex t))) ts in
  metrics_calls (trace m) = flat_map attempt_record attempts /\
  handled (trace m) = flat_map attempt_report attempts.
Proof.
  cbv zeta. revert acc. induction ts as [| t rest IH]; intro acc; cbn [for_each].
  - split; reflexivity.
  - rewrite trace_bind, extract_csv_table_returns.
    destruct (extract_csv_table_bookkeeping ex t acc) as [Hm Hh].
    destruct (IH (keep_extracted acc (t, outcome (CSVExtractor.extract env ex t))))
      as [Hm' Hh'].
    rewrite metrics_calls_app, handled_app, Hm, Hh, Hm', Hh'. split; reflexivity.
Qed.

(** X7: once the extractors are constructed, the extract phase records with
    [record_extraction] exactly the tables whose extraction returned,
    each with its row count, and hands to [handle_error] exactly the
    failures, each with the name of its table, both in the order of the
    attempts; it never writes to the target. *)
Theorem extract_phase_bookkeeping (table : option string) :
  extractors_ready env self table = true ->
  let m := _extract_phase env self table in
  metrics_calls (trace m) = flat_map attempt_record (extraction_attempts env self table) /\
  handled (trace m) = flat_map attempt_report (extraction_attempts env self table) /\
  writes (trace m) = [].
Proof.
  intros Hready m.
  refine ((fun H => conj (proj1 H) (conj (proj2 H) _)) _).
  - apply writes_within_nil. apply (extract_phase_writes_nothing env self table).
  - unfold m, _extract_phase, extraction_attempts, csv_attempt, products_attempt.
    unfold extractors_ready in Hready.
    destruct (source_setting self "csv_path") as [p | e]; [| discriminate].
    apply andb_prop in Hready. destruct Hready as [Hp Hdb].
    assert (Hinit : CSVExtractor.init env p
                    = ([Log INFO ("CSV Extractor initialized with path: " ++ p)],
                       Ok (CSVExtractor.mk (Path p)))).
    { unfold CSVExtractor.init. cbv zeta. rewrite Hp. reflexivity. }
    cbn [lift]. rewrite bind_ret.
    rewrite Hinit, trace_bind_ok. cbv beta.
    rewrite trace_bind.
    rewrite (outcome_for_each_total (csv_tables table)
               (extract_csv_table env (CSVExtractor.mk (Path p)))
               (fun d t => keep_extracted d
                             (t, outcome (CSVExtractor.extract env (CSVExtractor.mk (Path p)) t)))).
    2: { intros x acc. apply extract_csv_table_returns. }
    destruct (extract_loop_bookkeeping (CSVExtractor.mk (Path p)) (csv_tables table) [])
      as [Hm Hh].
    rewrite !flat_map_app, !metrics_calls_app, !handled_app, Hm, Hh.
    destruct (wants_products table); cbn [negb orb] in Hdb.
    + destruct (source_setting self "sqlite_db") as [q | e]; [| discriminate].
      cbn [lift]. rewrite bind_ret.
      match goal with
      | |- context [extract_products env ?ex ?d] =>
          destruct (extract_products_bookkeeping ex d) as [Hpm Hph]
      end.
      cbn [app]. rewrite Hpm, Hph. simpl. rewrite !app_nil_r. split; reflexivity.
    + simpl. rewrite !app_nil_r. split; reflexivity.
Qed.

End ExtractBookkeeping.

Lemma extract_phase_bookkeeping_witness :
  let m := _extract_phase Sample.no_customers Sample.self None in
  metrics_calls (trace m)
  = [record_extraction_call "orders" 2; record_extraction_call "products" 1] /\
  handled (trace m)
  = [(FileNotFoundError "CSV file not found: data/source/customers.csv",
      [("table", "customers")])].
Proof.
  destruct (extract_phase_bookkeeping Sample.no_customers Sample.self None eq_refl)
    as (Hm & Hh & _).
  split; [rewrite Hm | rewrite Hh]; vm_compute; reflexivity.
Defined.

(** ** Full run: set-up failures, metrics protocol, error reports *)

Lemma records_only_calls (tr : list Event) :
  Forall records_only tr -> Forall is_record (metrics_calls tr).
Proof.
  induction 1 as [| ev rest Hev _ IH]; simpl; [constructor |].
  destruct ev; simpl in Hev; auto.
Qed.

Section FullRunMore.

Context {pandas_ops : Pandas}.
Variable env : Env.
Variable clean : DataFrame -> string -> Try DataFrame.
Variable validate : DataFrame -> string -> Verdict.
Variable self : ETLOrchestrator.
Variable table : option string.

Lemma extract_phase_records_only : tame records_only (_extract_phase env self table).
Proof. tame_with ltac:(exact I). Qed.

Lemma transform_phase_records_only (d : list (string * DataFrame)) :
  tame records_only (_transform_phase clean validate self d).
Proof. tame_with ltac:(exact I). Qed.

Lemma load_phase_records_only (t : list (string * DataFrame)) (mode : string) :
  tame records_only (_load_phase env self t mode).
Proof. tame_with ltac:(exact I). Qed.

Lemma print_summary_only_logs (run_id : string) :
  tame only_logs (_print_summary self run_id).
Proof. tame_with ltac:(exact I). Qed.

(** X8: when an extractor cannot be constructed (no CSV directory
    configured, the directory missing, or no SQLite path configured
    when products are wanted) the extract phase raises, the run is
    recorded as FAILED and re-raised, and nothing is written to the
    target. *)
Theorem full_run_fails_without_extractors :
  extractors_ready env self table = false ->
  let run := run_full_pipeline env clean validate self table in
  exists e,
    outcome (_extract_phase env self table) = Raise (Exception e) /\
    failed_then_raised (full_run_id env) run e /\
    writes (trace run) = [].
Proof.
  intros Hnot run.
  pose proof (run_full_pipeline_shape env clean validate self table) as Hshape.
  fold run in Hshape.
  assert (Hraise : exists e, outcome (_extract_phase env self table) = Raise (Exception e)).
  { destruct (outcome (_extract_phase env self table)) as [d | [e | c]] eqn:Ex.
    - rewrite (extract_phase_ok_ready env self table d Ex) in Hnot. discriminate.
    - exists e. reflexivity.
    - exfalso. exact (proj2 (extract_phase_quiet env self table) c Ex). }
  destruct Hraise as [e He]. exists e. split; [exact He |].
  assert (Hout : outcome run = Raise (Exception e)).
  { rewrite (full_run_outcome env clean validate self table run Hshape), He. reflexivity. }
  destruct (full_run_raise_is_recorded env clean validate self table run _ Hshape Hout)
    as (e' & Heq & Hfail).
  injection Heq as <-. split; [exact Hfail |].
  remember run as m eqn:Hm. clear Hm Hout Hfail.
  destruct Hshape as [trx e0 Ex | trx Ex | trx d trt e0 Ex Hd Et
                     | trx d trt t trl e0 Ex Hd Et El | trx d trt t trl Ex Hd Et El];
    rewrite Ex in He; try discriminate.
  cbn [trace fst]. rewrite !writes_app.
  rewrite (writes_within_nil trx).
  - reflexivity.
  - rewrite <- (trace_of_eq _ _ _ Ex). apply (extract_phase_writes_nothing env self table).
Qed.

(** X9: the metrics collector sees a full run as: [start_pipeline] first,
    then only [record_*] calls, then [end_pipeline] last if it is
    called at all; nothing is recorded after the run has been ended. *)
Theorem full_run_metrics_protocol :
  let run := run_full_pipeline env clean validate self table in
  let run_id := full_run_id env in
  exists records,
    Forall is_record records /\
    metrics_calls (trace run)
    = (start_pipeline_call run_id :: records
       ++ map (end_pipeline_call run_id) (end_statuses run_id (trace run)))%list.
Proof.
  intros run run_id.
  pose proof (run_full_pipeline_shape env clean validate self table) as Hshape.
  fold run in Hshape. remember run as m eqn:Hm. clear Hm.
  assert (Hx : forall trx o, _extract_phase env self table = (trx, o) ->
             Forall is_record (metrics_calls trx) /\ end_statuses run_id trx = []).
  { intros trx o Ex. rewrite <- (trace_of_eq _ _ _ Ex). split.
    - apply records_only_calls. apply extract_phase_records_only.
    - apply end_statuses_quiet. apply (extract_phase_quiet env self table). }
  assert (Ht : forall d trt o, _transform_phase clean validate self d = (trt, o) ->
             Forall is_record (metrics_calls trt) /\ end_statuses run_id trt = []).
  { intros d trt o Et. rewrite <- (trace_of_eq _ _ _ Et). split.
    - apply records_only_calls. apply transform_phase_records_only.
    - apply end_statuses_quiet. apply (transform_phase_quiet clean validate self d). }
  assert (Hl : forall t trl o, _load_phase env self t "full" = (trl, o) ->
             Forall is_record (metrics_calls trl) /\ end_statuses run_id trl = []).
  { intros t trl o El. rewrite <- (trace_of_eq _ _ _ El). split.
    - apply records_only_calls. apply load_phase_records_only.
    - apply end_statuses_quiet. apply (load_phase_quiet env self t "full"). }
  assert (Hs : metrics_calls (trace (_print_summary self run_id)) = [] /\
               end_statuses run_id (trace (_print_summary self run_id)) = []).
  { split.
    - apply (quiet_logs _ (proj1 (print_summary_only_logs run_id))).
    - apply end_statuses_quiet. apply (print_summary_quiet self run_id). }
  destruct Hshape as [trx e0 Ex | trx Ex | trx d trt e0 Ex Hd Et
                     | trx d trt t trl e0 Ex Hd Et El | trx d trt t trl Ex Hd Et El];
    cbn [trace fst]; unfold full_success_events, full_failure_events;
    rewrite !metrics_calls_app, !end_statuses_app;
    try (destruct (Hx _ _ Ex) as [Hrx ->]);
    try (destruct (Ht _ _ _ Et) as [Hrt ->]);
    try (destruct (Hl _ _ _ El) as [Hrl ->]);
    try (destruct Hs as [-> ->]).
  - exists (metrics_calls trx). split; [exact Hrx |].
    simpl. fold run_id. rewrite String.eqb_refl. reflexivity.
  - exists (metrics_calls trx). split; [exact Hrx |].
    simpl. rewrite !app_nil_r. reflexivity.
  - exists (metrics_calls trx ++ metrics_calls trt)%list.
    split; [apply Forall_app; split; assumption |].
    simpl. fold run_id. rewrite String.eqb_refl, <- app_assoc. reflexivity.
  - exists (metrics_calls trx ++ metrics_calls trt ++ metrics_calls trl)%list.
    split; [repeat (apply Forall_app; split); assumption |].
    simpl. fold run_id. rewrite String.eqb_refl, <- !app_assoc. reflexivity.
  - exists (metrics_calls trx ++ metrics_calls trt ++ metrics_calls trl)%list.
    split; [repeat (apply Forall_app; split); assumption |].
    simpl. fold run_id. rewrite String.eqb_refl, <- !app_assoc. reflexivity.
Qed.

End FullRunMore.

Lemma full_run_fails_without_extractors_witness :
  let lost := mkOrchestrator (mkConfig (Some [("csv_path", "data/missing")]) None None None)
                PipelineMetrics.new in
  let run := run_full_pipeline (pandas_ops := Sample.pandas) Sample.healthy Sample.keep
               DataValidator.validate lost None in
  end_statuses (full_run_id Sample.healthy) (trace run) = ["FAILED"] /\
  writes (trace run) = [].
Proof.
  intros lost run.
  destruct (full_run_fails_without_extractors (pandas_ops := Sample.pandas) Sample.healthy
              Sample.keep DataValidator.validate lost None eq_refl)
    as (e & _ & Hfail & Hw).
  split; [exact (failed_then_raised_statuses _ _ _ Hfail) | exact Hw].
Defined.


Section Replace.

Context {pandas_ops : Pandas}.


Variable env : Env.
Variable clean : DataFrame -> string -> Try DataFrame.
Variable validate : DataFrame -> string -> Verdict.
Variable self : ETLOrchestrator.
Variable table : option string.



End Replace.


Section Reports.

Context {pandas_ops : Pandas}.
Variable env : Env.
Variable clean : DataFrame -> string -> Try DataFrame.
Variable validate : DataFrame -> string -> Verdict.
Variable self : ETLOrchestrator.
Variable table : option string.




End Reports.


(** ** The validation verdict is advisory, continued *)

Section AdvisoryVerdict.

Context {pandas_ops : Pandas}.
Variable env : Env.
Variable clean : DataFrame -> string -> Try DataFrame.
Variable validate : DataFrame -> string -> Verdict.
Variable self : ETLOrchestrator.

(** What a load phase that returns has written. *)
Lemma load_phase_returns_writes (t : list (string * DataFrame)) (mode : string) :
  outcome (_load_phase env self t mode) = Ok tt ->
  writes (trace (_load_phase env self t mode))
  = map (fun x => (fst x, snd x, if_exists_of mode)) t.
Proof.
  intro Hout.
  destruct (load_phase_progress env self t mode) as (done & rest & Hsplit & Hw & _ & Hend).
  rewrite Hout in Hend. destruct Hend as [-> _].
  rewrite app_nil_r in Hsplit. subst done. exact Hw.
Qed.

(** The writes of a full run that returns are those of its load phase. *)
Lemma full_run_returns_writes (table : option string) (d t : list (string * DataFrame)) :
  outcome (_extract_phase env self table) = Ok d -> d <> [] ->
  outcome (_transform_phase clean validate self d) = Ok t ->
  let run := run_full_pipeline env clean validate self table in
  outcome run = outcome (_load_phase env self t "full") /\
  (outcome run = Ok tt ->
   forall w, In w (writes (trace (_load_phase env self t "full"))) ->
             In w (writes (trace run))).
Proof.
  intros Hx Hne Ht run.
  pose proof (run_full_pipeline_shape env clean validate self table) as Hshape.
  fold run in Hshape.
  split.
  - rewrite (full_run_outcome env clean validate self table run Hshape), Hx.
    destruct d as [| item rest]; [congruence |]. rewrite Ht. reflexivity.
  - remember run as m eqn:Hm. clear Hm.
    destruct Hshape as [trx e0 Ex | trx Ex | trx d0 trt e0 Ex Hd0 Et
                       | trx d0 trt t0 trl e0 Ex Hd0 Et El | trx d0 trt t0 trl Ex Hd0 Et El];
      cbn [outcome snd trace fst]; try discriminate.
    + rewrite Ex in Hx. simpl in Hx. injection Hx as <-. congruence.
    + rewrite Ex in Hx. simpl in Hx. injection Hx as ->.
      rewrite Et in Ht. simpl in Ht. injection Ht as ->.
      rewrite El. cbn [trace fst]. intros _ w Hw.
      rewrite !writes_app.
      do 5 (apply in_or_app; right). apply in_or_app. left. exact Hw.
Qed.

(** C8: a table whose verdict has [is_valid] false is treated as any
    other.  The transform phase raises only with the exception the
    cleaner or the business rules raised for some table, whatever the
    verdicts; whenever it returns, the verdict's warnings have been
    logged, the table is in its output holding the result of the
    business rules on the cleaned frame, a load phase that returns has
    written that frame to the target, and so has the full run that
    extracted the data, which ends as its load phase does.  Nothing but
    the warning lines depends on [is_valid]: the transform phase and
    the whole run end the same way and write the same events as under
    the same verdicts with [is_valid] true. *)
Theorem invalid_verdict_only_logs_warnings (d : list (string * DataFrame))
  (table_name : string) (df df_clean : DataFrame) :
  NoDup (keys d) -> In (table_name, df) d ->
  clean df table_name = Returned df_clean ->
  is_valid (validate df_clean table_name) = false ->
  let phase := _transform_phase clean validate self d in
  let load t := _load_phase env self t "full" in
  ((forall n f, In (n, f) d ->
      exists c r, clean f n = Returned c /\ _apply_business_logic c n = Returned r) ->
   exists t, outcome phase = Ok t) /\
  (forall s, outcome phase = Raise s ->
     exists n f e,
       In (n, f) d /\ s = Exception e /\
       (clean f n = Threw e \/
        exists c, clean f n = Returned c /\ _apply_business_logic c n = Threw e)) /\
  (forall t, outcome phase = Ok t ->
     (forall w, In w (warnings (validate df_clean table_name)) ->
                In (Log WARNING ("    - " ++ w)) (trace phase)) /\
     exists df_transformed,
       _apply_business_logic df_clean table_name = Returned df_transformed /\
       assoc_get table_name t = Some df_transformed /\
       (outcome (load t) = Ok tt ->
        In (table_name, df_transformed, "replace") (writes (trace (load t)))) /\
       (forall table,
          outcome (_extract_phase env self table) = Ok d ->
          let run := run_full_pipeline env clean validate self table in
          outcome run = outcome (load t) /\
          (outcome run = Ok tt ->
           In (table_name, df_transformed, "replace") (writes (trace run))))) /\
  (forall d', same_but_warnings (_transform_phase clean validate self d')
                                (_transform_phase clean (as_valid validate) self d')) /\
  (forall table, same_but_warnings (run_full_pipeline env clean validate self table)
                   (run_full_pipeline env clean (as_valid validate) self table)).
Proof.
  intros Hnd Hin Hclean Hinvalid phase load.
  assert (Hraise : forall s, outcome phase = Raise s ->
            exists n f e,
              In (n, f) d /\ s = Exception e /\
              (clean f n = Threw e \/
               exists c, clean f n = Returned c /\ _apply_business_logic c n = Threw e)).
  { intros s Hs.
    destruct (transform_phase_progress clean validate self d)
      as (done & rest & Hsplit & _ & Hend).
    fold phase in Hend. rewrite Hs in Hend.
    destruct Hend as (n & f & rest' & e & Hrest & He & _ & Hwhy).
    exists n, f, e. refine (conj _ (conj He Hwhy)).
    rewrite Hsplit, Hrest. apply in_or_app. right. left. reflexivity. }
  refine (conj _ (conj Hraise (conj _
            (conj (transform_phase_same clean validate self)
                  (run_full_pipeline_same env clean validate self))))).
  - intro Hall. destruct (outcome phase) as [t | s] eqn:Hout; [exists t; reflexivity |].
    destruct (Hraise s eq_refl) as (n & f & e & Hnf & _ & Hwhy).
    destruct (Hall n f Hnf) as (c & r & Hc & Hr).
    destruct Hwhy as [Hthrew | (c' & Hc' & Hthrew)]; [congruence |].
    rewrite Hc in Hc'. injection Hc' as <-. congruence.
  - intros t Hout. split.
    + intros w Hw.
      apply (transform_loop_logs_warnings clean validate d [] t table_name df df_clean);
        assumption.
    + destruct (transform_loop_lookup clean validate d [] t table_name df Hout Hnd Hin)
        as (df_clean' & df_t & Hc & Hlogic & Hget).
      rewrite Hclean in Hc. injection Hc as <-.
      assert (Hitem : In (table_name, df_t) t) by (apply assoc_get_In; exact Hget).
      assert (Hwritten : outcome (load t) = Ok tt ->
                In (table_name, df_t, "replace") (writes (trace (load t)))).
      { intro Hload. unfold load. rewrite (load_phase_returns_writes t "full" Hload).
        apply (in_map (fun x => (fst x, snd x, if_exists_of "full")) t _ Hitem). }
      exists df_t. refine (conj Hlogic (conj Hget (conj Hwritten _))).
      intros table Hx run.
      assert (Hne : d <> []) by (intro Hd; rewrite Hd in Hin; contradiction).
      destruct (full_run_returns_writes table d t Hx Hne Hout) as [Hends Hsame].
      fold run in Hends, Hsame. split; [exact Hends |].
      intro Hrun. apply (Hsame Hrun). apply Hwritten.
      exact (eq_trans (eq_sym Hends) Hrun).
Qed.

End AdvisoryVerdict.

Lemma invalid_verdict_only_logs_warnings_witness :
  let run := run_full_pipeline (pandas_ops := Sample.pandas) Sample.healthy Sample.keep
               Sample.strict Sample.self None in
  outcome run = Ok tt /\
  In (Log WARNING "    - duplicate keys")
     (trace (_transform_phase (pandas_ops := Sample.pandas) Sample.keep Sample.strict
               Sample.self Sample.extracted)) /\
  exists df_transformed,
    In ("customers", df_transformed, "replace") (writes (trace run)).
Proof.
  intro run.
  assert (Hrun : outcome run = Ok tt) by (vm_compute; reflexivity).
  destruct (invalid_verdict_only_logs_warnings (pandas_ops := Sample.pandas)
              Sample.healthy Sample.keep Sample.strict Sample.self Sample.extracted
              "customers"
              (CSVExtractor.add_metadata Sample.healthy "customers.csv" Sample.customers_csv)
              (CSVExtractor.add_metadata Sample.healthy "customers.csv" Sample.customers_csv))
    as (Hreturns & _ & Hkept & _).
  - repeat constructor; simpl; intuition discriminate.
  - right. left. reflexivity.
  - reflexivity.
  - reflexivity.
  - destruct Hreturns as [t Ht].
    { intros n f Hnf. unfold Sample.keep. exists f.
      destruct Hnf as [Heq | [Heq | [Heq | []]]]; injection Heq as <- <-;
        eexists; (split; [reflexivity | vm_compute; reflexivity]). }
    destruct (Hkept t Ht) as (Hlogged & df_t & _ & _ & _ & Hfull).
    refine (conj Hrun (conj _ _)).
    + apply Hlogged. right. left. reflexivity.
    + exists df_t. apply (Hfull None); [vm_compute; reflexivity | exact Hrun].
Defined.

(** ** Exit status of the command line *)

Section MainExit.

Context {pandas_ops : Pandas}.
Variable env : Env.
Variable clean : DataFrame -> string -> Try DataFrame.
Variable validate : DataFrame -> string -> Verdict.

Lemma init_tame (config_path : string) : tame only_logs (init env config_path).
Proof.
  unfold init, _load_config, _setup_logging.
  tame_with ltac:(exact I).
Qed.

Lemma full_run_outcomes (o : ETLOrchestrator) (table : option string) :
  outcome (run_full_pipeline env clean validate o table) = Ok tt \/
  exists e, outcome (run_full_pipeline env clean validate o table) = Raise (Exception e).
Proof.
  pose proof (run_full_pipeline_shape env clean validate o table) as Hshape.
  destruct (outcome (run_full_pipeline env clean validate o table)) as [[] | s] eqn:Ho.
  - left. reflexivity.
  - right.
    destruct (full_run_raise_is_recorded env clean validate o table _ s Hshape Ho)
      as (e & -> & _).
    exists e. reflexivity.
Qed.

(** What [main] does with the namespace [parse_args] returned. *)
Lemma main_of_namespace (args : Args) :
  parse_args env = ret args ->
  let m := main env clean validate in
  (outcome m = Ok tt \/ outcome m = Raise (SystemExit 1)) /\
  (exit_code m = 0%Z <->
   args_mode args = full /\
   exists o, outcome (init env (args_config args)) = Ok o /\
             outcome (run_full_pipeline env clean validate o (args_table args)) = Ok tt) /\
  (args_mode args = incremental -> exit_code m = 1%Z).
Proof.
  intro Hparsed. cbv zeta. unfold exit_code, main. rewrite Hparsed, bind_ret.
  rewrite outcome_try_except, outcome_bind.
  destruct (init_tame (args_config args)) as [_ Hnoexit].
  destruct (outcome (init env (args_config args))) as [o | [e | c]] eqn:Ei.
  - destruct (args_mode args) eqn:Emode.
    + destruct (full_run_outcomes o (args_table args)) as [Hok | [e He]].
      * rewrite Hok. repeat split; auto; try discriminate.
        exists o. auto.
      * rewrite He. simpl. repeat split; auto; try discriminate.
        intros [_ (o' & Ho' & Hrun)]. injection Ho' as <-. congruence.
    + assert (Hbody :
        outcome match args_table args with
                | Some tb =>
                    if negb (truthy (args_table args))
                    then logger_error "--table is required for incremental mode";;
                         sys_exit 1
                    else run_incremental_pipeline env clean validate o tb
                | None => logger_error "--table is required for incremental mode";;
                          sys_exit 1
                end = Raise (SystemExit 1) \/
        exists e, outcome match args_table args with
                | Some tb =>
                    if negb (truthy (args_table args))
                    then logger_error "--table is required for incremental mode";;
                         sys_exit 1
                    else run_incremental_pipeline env clean validate o tb
                | None => logger_error "--table is required for incremental mode";;
                          sys_exit 1
                end = Raise (Exception e)).
      { destruct (args_table args) as [tb |]; [| left; reflexivity].
        destruct (negb (truthy (Some tb))); [left; reflexivity |].
        right. eexists. reflexivity. }
      destruct Hbody as [-> | [e ->]]; simpl; repeat split; auto; try discriminate;
        intros [Hfull _]; discriminate.
  - simpl. repeat split; auto; try discriminate.
    intros [_ (o' & Ho' & _)]. discriminate.
  - exfalso. exact (Hnoexit c eq_refl).
Qed.


(** X12: [main] lets no exception escape, and the process ends with
    status 0, 1 or 2: with 2 exactly when [argparse] rejects the command
    line; with 0 exactly after [--help], or in full mode when the
    orchestrator is constructed and [run_full_pipeline] returns; every
    invocation that [argparse] accepts in incremental mode ends with
    status 1. *)
Theorem main_exit_status :
  let m := main env clean validate in
  (forall e, outcome m <> Raise (Exception e)) /\
  (exit_code m = 0%Z \/ exit_code m = 1%Z \/ exit_code m = 2%Z) /\
  (exit_code m = 2%Z <-> exists message, command_line env = UsageError message) /\
  (exit_code m = 0%Z <->
   command_line env = HelpRequested \/
   exists mode table config o,
     command_line env = Options mode table config /\
     args_mode (namespace mode table config) = full /\
     outcome (init env (args_config (namespace mode table config))) = Ok o /\
     outcome (run_full_pipeline env clean validate o table) = Ok tt) /\
  (forall table config,
     command_line env = Options (Some incremental) table config -> exit_code m = 1%Z).
Proof.
  cbv zeta.
  destruct (command_line env) as [mode table config | | message] eqn:Hline.
  - assert (Hparsed : parse_args env = ret (namespace mode table config)).
    { unfold parse_args. rewrite Hline. reflexivity. }
    destruct (main_of_namespace _ Hparsed) as (Hout & Hzero & Hinc).
    assert (Hcode : exit_code (main env clean validate) = 0%Z \/
                    exit_code (main env clean validate) = 1%Z).
    { unfold exit_code. destruct Hout as [-> | ->]; auto. }
    refine (conj _ (conj _ (conj _ (conj _ _)))).
    + intros e He. destruct Hout as [Hout | Hout]; congruence.
    + destruct Hcode; auto.
    + split.
      * intro H2. destruct Hcode as [Hc | Hc]; rewrite Hc in H2; discriminate.
      * intros [message Hm]. discriminate.
    + split.
      * intro H0. right. apply Hzero in H0. destruct H0 as (Hfull & o & Hinit & Hrun).
        exists mode, table, config, o. auto.
      * intros [Hhelp | (mode' & table' & config' & o & Heq & Hfull & Hinit & Hrun)];
          [discriminate |].
        injection Heq as <- <- <-. apply Hzero. split; [exact Hfull |].
        exists o. auto.
    + intros table' config' Heq. injection Heq as -> <- <-. apply Hinc. reflexivity.
  - assert (Hm : main env clean validate = ([], Raise (SystemExit 0))).
    { unfold main, parse_args. rewrite Hline. reflexivity. }
    rewrite Hm. unfold exit_code. simpl.
    refine (conj _ (conj _ (conj _ (conj _ _)))); try discriminate; auto.
    + split; [discriminate | intros [message Hmsg]; discriminate].
    + split; auto.
  - assert (Hm : main env clean validate = ([], Raise (SystemExit 2))).
    { unfold main, parse_args. rewrite Hline. reflexivity. }
    rewrite Hm. unfold exit_code. simpl.
    refine (conj _ (conj _ (conj _ (conj _ _)))); try discriminate; auto.
    + split; [intros _; exists message; reflexivity | reflexivity].
    + split; [discriminate |].
      intros [Hhelp | (mode' & table' & config' & o & Heq & _)]; discriminate.
Qed.

End MainExit.

(** ** [extract_with_schema]: conversion errors are contained *)

Lemma keys_assoc_set_present {V} (k : string) (v v0 : V) (d : list (string * V)) :
  assoc_get k d = Some v0 -> keys (assoc_set k v d) = keys d.
Proof.
  induction d as [| [k' v'] rest IH]; simpl; [discriminate |].
  destruct (String.eqb k k') eqn:E; simpl.
  - apply String.eqb_eq in E. subst. reflexivity.
  - intro Hget. rewrite IH by exact Hget. reflexivity.
Qed.

Section Schema.

Variable D : Type.
Variable astype : Series -> D -> Try Series.
Variable dtype_repr : D -> string.
Variable set_repr : list string -> string.
Variable env : Env.

Lemma convert_column_returns (item : string * D) (df : DataFrame) :
  outcome (convert_column D astype dtype_repr item df) = Ok (converted astype df item).
Proof.
  unfold convert_column, converted, in_columns, has_key, getitem.
  destruct item as [col dtype]. simpl fst. simpl snd.
  destruct (assoc_get col (columns df)) as [s |]; [| reflexivity].
  rewrite outcome_try_except. simpl.
  destruct (astype s dtype) as [s' | e]; reflexivity.
Qed.

Lemma converted_frame (df : DataFrame) (item : string * D) :
  nrows (converted astype df item) = nrows df /\
  keys (columns (converted astype df item)) = keys (columns df) /\
  (forall c, c <> fst item ->
             assoc_get c (columns (converted astype df item)) = assoc_get c (columns df)).
Proof.
  unfold converted.
  destruct (assoc_get (fst item) (columns df)) as [s |] eqn:Eget; [| auto].
  destruct (astype s (snd item)) as [s' | e]; [| auto].
  refine (conj eq_refl (conj _ _)).
  - simpl. apply (keys_assoc_set_present _ _ s). exact Eget.
  - intros c Hne. apply columns_setitem_other. exact Hne.
Qed.

Lemma converted_column (df : DataFrame) (c : string) (d : D) (s : Series) :
  assoc_get c (columns df) = Some s ->
  assoc_get c (columns (converted astype df (c, d)))
  = Some (match astype s d with Returned s' => s' | Threw _ => s end).
Proof.
  intro Hget. unfold converted. simpl fst. simpl snd. rewrite Hget.
  destruct (astype s d) as [s' | e]; [| exact Hget].
  simpl. apply assoc_get_set_same.
Qed.

Lemma converted_all_frame (schema : list (string * D)) (df : DataFrame) :
  nrows (fold_left (converted astype) schema df) = nrows df /\
  keys (columns (fold_left (converted astype) schema df)) = keys (columns df) /\
  (forall c, ~ In c (keys schema) ->
             assoc_get c (columns (fold_left (converted astype) schema df))
             = assoc_get c (columns df)).
Proof.
  revert df. induction schema as [| item rest IH]; intro df; simpl; [auto |].
  destruct (IH (converted astype df item)) as (Hn & Hk & Ho).
  destruct (converted_frame df item) as (Hn1 & Hk1 & Ho1).
  refine (conj _ (conj _ _)).
  - rewrite Hn. exact Hn1.
  - rewrite Hk. exact Hk1.
  - intros c Hc. rewrite Ho by tauto. apply Ho1. intro Heq. apply Hc. left. congruence.
Qed.

Lemma converted_all_column (schema : list (string * D)) (df : DataFrame)
  (c : string) (d : D) (s : Series) :
  NoDup (keys schema) -> In (c, d) schema -> assoc_get c (columns df) = Some s ->
  assoc_get c (columns (fold_left (converted astype) schema df))
  = Some (match astype s d with Returned s' => s' | Threw _ => s end).
Proof.
  revert df. induction schema as [| [c0 d0] rest IH]; intros df Hnd Hin Hget; simpl;
    [contradiction |].
  inversion Hnd as [| ? ? Hnotin Hnd']; subst.
  destruct Hin as [Heq | Hin].
  - injection Heq as -> ->.
    destruct (converted_all_frame rest (converted astype df (c, d))) as (_ & _ & Ho).
    rewrite (Ho c Hnotin). apply converted_column. exact Hget.
  - apply IH; [exact Hnd' | exact Hin |].
    destruct (converted_frame df (c0, d0)) as (_ & _ & Ho1).
    rewrite Ho1; [exact Hget |]. simpl. intros ->. apply Hnotin.
    change c0 with (fst (c0, d)). apply in_map. exact Hin.
Qed.

(** X13: [extract_with_schema] raises only when [extract] does: a column
    whose conversion fails is left as it was.  The frame it returns has
    the rows, the column names and the column order of the extracted
    frame; a column the schema does not name is unchanged, and a column
    it names holds the converted values when the conversion returned. *)
Theorem extract_with_schema_contains_conversion_errors (self : CSVExtractor.t)
  (table_name : string) (schema : list (string * D)) :
  let m := extract_with_schema D astype dtype_repr set_repr env self table_name schema in
  match outcome (CSVExtractor.extract env self table_name) with
  | Raise s => outcome m = Raise s
  | Ok df =>
      exists df',
        outcome m = Ok df' /\
        nrows df' = nrows df /\
        keys (columns df') = keys (columns df) /\
        (forall c, ~ In c (keys schema) ->
                   assoc_get c (columns df') = assoc_get c (columns df)) /\
        (NoDup (keys schema) ->
         forall c d s, In (c, d) schema -> assoc_get c (columns df) = Some s ->
           assoc_get c (columns df')
           = Some (match astype s d with Returned s' => s' | Threw _ => s end))
  end.
Proof.
  cbv zeta. unfold extract_with_schema. rewrite outcome_bind.
  destruct (outcome (CSVExtractor.extract env self table_name)) as [df | s];
    [| reflexivity].
  exists (fold_left (converted astype) schema df).
  destruct (converted_all_frame schema df) as (Hn & Hk & Ho).
  refine (conj _ (conj Hn (conj Hk (conj Ho _)))).
  - rewrite outcome_bind.
    assert (Hwarn : outcome
              match filter (fun c => negb (in_columns c df)) (keys schema) with
              | [] => ret tt
              | _ :: _ =>
                  logger_warning
                    ("Missing expected columns: "
                     ++ set_repr (filter (fun c => negb (in_columns c df)) (keys schema)))
              end = Ok tt).
    { destruct (filter _ (keys schema)); reflexivity. }
    rewrite Hwarn.
    apply (outcome_for_each_total schema (convert_column D astype dtype_repr)
             (converted astype)).
    intros x acc. apply convert_column_returns.
  - intros Hnd c d s Hin Hget. apply converted_all_column; assumption.
Qed.

End Schema.

Lemma extract_with_schema_contains_conversion_errors_witness :
  let refuse (s : Series) (d : string) : Try Series :=
    if String.eqb d "int64" then Returned (mkSeries int64 (values s))
    else Threw (mkExn "TypeError" "data type not understood") in
  exists df',
    outcome (extract_with_schema string refuse (fun d => d) (String.concat ", ")
               Sample.healthy (CSVExtractor.mk (Path "data/source")) "customers"
               [("email", "colour"); ("customer_id", "int64"); ("age", "int64")])
    = Ok df' /\
    assoc_get "email" (columns df')
    = Some (mkSeries object_ [VStr "john.smith0@example.com"]) /\
    assoc_get "customer_id" (columns df') = Some (mkSeries int64 [VStr "CUST000001"]).
Proof.
  intro refuse.
  pose proof (extract_with_schema_contains_conversion_errors string refuse (fun d => d)
                (String.concat ", ") Sample.healthy (CSVExtractor.mk (Path "data/source"))
                "customers" [("email", "colour"); ("customer_id", "int64"); ("age", "int64")])
    as Hschema.
  cbv zeta in Hschema.
  change (outcome (CSVExtractor.extract Sample.healthy (CSVExtractor.mk (Path "data/source"))
                     "customers"))
    with (Ok (CSVExtractor.add_metadata Sample.healthy "customers.csv" Sample.customers_csv))
    in Hschema.
  destruct Hschema as (df' & Hout & _ & _ & _ & Hcols).
  exists df'. split; [exact Hout |].
  assert (Hnd : NoDup (keys [("email", "colour"); ("customer_id", "int64"); ("age", "int64")])).
  { repeat constructor; simpl; intuition discriminate. }
  split.
  - exact (Hcols Hnd "email" "colour" (mkSeries object_ [VStr "john.smith0@example.com"])
             (or_introl eq_refl) eq_refl).
  - exact (Hcols Hnd "customer_id" "int64" (mkSeries object_ [VStr "CUST000001"])
             (or_intror (or_introl eq_refl)) eq_refl).
Defined.

(** ** File names and table names *)

Lemma has_slash_app (a b : string) : has_slash (a ++ b) = has_slash a || has_slash b.
Proof.
  induction a as [| c r IH]; simpl; [reflexivity |]. rewrite IH, orb_assoc. reflexivity.
Qed.

Lemma is_absolute_has_slash (s : string) : is_absolute s = true -> has_slash s = true.
Proof. destruct s as [| c r]; simpl; [discriminate |]. intros ->. reflexivity. Qed.

(** A string without a slash is one piece. *)
Lemma split_slash_plain (s : string) : has_slash s = false -> split_slash s = [s].
Proof.
  induction s as [| c r IH]; [reflexivity |].
  cbn [has_slash split_slash]. intro H. apply orb_false_elim in H. destruct H as [Hc Hr].
  rewrite Hc, (IH Hr). reflexivity.
Qed.

Lemma csv_name_is_component (t : string) : is_component (t ++ ".csv") = true.
Proof.
  unfold is_component. destruct t as [| c r]; [reflexivity |].
  change (String c r ++ ".csv") with (String c (r ++ ".csv")).
  cbn [String.eqb orb]. destruct r as [| c' r']; [| destruct (Ascii.eqb c "."%char)]; 
    try reflexivity.
  destruct (Ascii.eqb c "."%char); reflexivity.
Qed.

(** The name of the file [extract] reads for a table name without a
    slash, whatever the source directory. *)
Lemma table_file_name (dir : PurePath) (table_name : string) :
  has_slash table_name = false ->
  path_name (path_join dir (table_name ++ ".csv")) = table_name ++ ".csv".
Proof.
  intro Hplain.
  assert (Hchild : has_slash (table_name ++ ".csv") = false).
  { rewrite has_slash_app, Hplain. reflexivity. }
  unfold path_join.
  destruct (is_absolute (table_name ++ ".csv")) eqn:Eabs.
  - apply is_absolute_has_slash in Eabs. congruence.
  - unfold path_name, Path. cbn [path_parts].
    rewrite (split_slash_plain _ Hchild). cbn [filter].
    rewrite csv_name_is_component. apply last_last.
Qed.

Lemma append_csv_not_empty (r : string) : String.eqb (r ++ ".csv") "" = false.
Proof. destruct r; reflexivity. Qed.

Lemma has_dot_csv (r : string) : has_dot (r ++ ".csv") = true.
Proof. induction r as [| c r IH]; simpl; [reflexivity |]. rewrite IH. apply orb_true_r. Qed.

Lemma ends_with_dot_csv (r : string) : ends_with "." (r ++ ".csv") = false.
Proof.
  induction r as [| c r IH]; [reflexivity |].
  change (String c r ++ ".csv") with (String c (r ++ ".csv")).
  cbn [ends_with]. rewrite IH, orb_false_r.
  simpl. rewrite append_csv_not_empty. apply andb_false_r.
Qed.

Lemma before_last_dot_csv (r : string) : before_last_dot (r ++ ".csv") = r.
Proof.
  induction r as [| c r IH]; [reflexivity |].
  change (String c r ++ ".csv") with (String c (r ++ ".csv")).
  cbn [before_last_dot]. rewrite has_dot_csv, IH. reflexivity.
Qed.

(** [stem] undoes the [".csv"] that [extract] appends, for every table
    name but the empty one. *)
Lemma stem_of_table_file (t : string) : t <> "" -> stem (t ++ ".csv") = t.
Proof.
  destruct t as [| c r]; [congruence |]. intros _.
  change (String c r ++ ".csv") with (String c (r ++ ".csv")).
  unfold stem. rewrite has_dot_csv, ends_with_dot_csv, before_last_dot_csv. reflexivity.
Qed.

Lemma ends_with_csv_intro (t : string) : ends_with ".csv" (t ++ ".csv") = true.
Proof.
  induction t as [| c r IH]; [reflexivity |].
  change (String c r ++ ".csv") with (String c (r ++ ".csv")).
  cbn [ends_with]. rewrite IH. apply orb_true_r.
Qed.

Lemma ends_with_csv_elim (n : string) :
  ends_with ".csv" n = true -> exists t, n = t ++ ".csv".
Proof.
  induction n as [| c r IH]; [discriminate |].
  cbn [ends_with]. intro H. apply orb_prop in H. destruct H as [H | H].
  - apply String.eqb_eq in H. exists "". exact H.
  - destruct (IH H) as [t ->]. exists (String c t). reflexivity.
Qed.

Section Listing.

Variable iterdir : PurePath -> list string.

(** X14: [list_available_files] returns the table names of the [.csv]
    entries of the source directory: a file [t.csv] is listed as [t],
    the name [extract] turns back into [t.csv], and nothing else is
    listed.  The one exception is a file named [.csv], which is listed
    under its full name and cannot be extracted by it. *)
Theorem list_available_files_names (self : CSVExtractor.t) :
  let listing := iterdir (CSVExtractor.source_path self) in
  (forall t, t <> "" -> In (t ++ ".csv") listing ->
             In t (list_available_files iterdir self)) /\
  (forall s, In s (list_available_files iterdir self) ->
             In (s ++ ".csv") listing \/ (s = ".csv" /\ In ".csv" listing)) /\
  (forall t, t <> "" -> has_slash t = false ->
             stem (path_name (path_join (CSVExtractor.source_path self) (t ++ ".csv"))) = t).
Proof.
  intro listing. unfold list_available_files. fold listing.
  refine (conj _ (conj _ _)).
  - intros t Ht Hin. rewrite <- (stem_of_table_file t Ht).
    apply in_map. apply filter_In. split; [exact Hin | apply ends_with_csv_intro].
  - intros s Hin. apply in_map_iff in Hin. destruct Hin as (n & Hstem & Hn).
    apply filter_In in Hn. destruct Hn as [Hin Hcsv].
    destruct (ends_with_csv_elim n Hcsv) as [t ->].
    destruct t as [| c r].
    + right. simpl in Hstem. subst s. split; [reflexivity | exact Hin].
    + left. rewrite stem_of_table_file in Hstem by discriminate. subst s. exact Hin.
  - intros t Ht Hplain. rewrite table_file_name by exact Hplain.
    apply stem_of_table_file. exact Ht.
Qed.

End Listing.

Lemma list_available_files_names_witness :
  let iterdir (dir : PurePath) := ["orders.csv"; "notes.txt"; "customers.v2.csv"; ".csv"] in
  In "customers.v2" (list_available_files iterdir (CSVExtractor.mk (Path "data/source"))) /\
  stem (path_name (path_join (Path "data/source") ("orders" ++ ".csv"))) = "orders".
Proof.
  intro iterdir.
  destruct (list_available_files_names iterdir (CSVExtractor.mk (Path "data/source")))
    as (Hlisted & _ & Hback).
  split.
  - apply Hlisted; [discriminate | right; right; left; reflexivity].
  - apply Hback; [discriminate | reflexivity].
Defined.

(** ** [CSVExtractor.extract]: how it fails *)

Section CsvExtractOutcomes.

Variable env : Env.

(** X15: [extract] raises [FileNotFoundError] without logging when the file
    is missing, logs and re-raises unchanged whatever [pd.read_csv]
    raises, and returns in no other case than an existing file that
    parses; for a table name without a slash the [_source_file] column
    then holds [<table>.csv] on every row.  The messages name the file
    as [pathlib] writes it, [str(self.source_path / f"{table_name}.csv")]. *)
Theorem csv_extract_outcomes (self : CSVExtractor.t) (table_name : string) :
  let file_path := path_join (CSVExtractor.source_path self) (table_name ++ ".csv") in
  let m := CSVExtractor.extract env self table_name in
  (path_exists env (path_str file_path) = false ->
   m = ([], Raise (Exception
                     (FileNotFoundError ("CSV file not found: " ++ path_str file_path))))) /\
  (path_exists env (path_str file_path) = true ->
   forall e, read_csv env (path_str file_path) (CSVExtractor._get_date_columns table_name) = Threw e ->
     m = ([ Log INFO ("Extracting from: " ++ path_str file_path);
            Log ERROR ("Failed to extract from " ++ path_str file_path ++ ": "
                       ++ exn_msg e) ],
          Raise (Exception e))) /\
  (forall df, outcome m = Ok df ->
     exists parsed,
       path_exists env (path_str file_path) = true /\
       read_csv env (path_str file_path) (CSVExtractor._get_date_columns table_name) = Returned parsed /\
       df = CSVExtractor.add_metadata env (path_name file_path) parsed /\
       (has_slash table_name = false ->
        assoc_get "_source_file" (columns df)
        = Some (broadcast object_ (VStr (table_name ++ ".csv")) (nrows parsed)))).
Proof.
  intros file_path m. unfold m, CSVExtractor.extract. fold file_path.
  refine (conj _ (conj _ _)).
  - intros ->. reflexivity.
  - intros -> e ->. reflexivity.
  - intros df. destruct (path_exists env (path_str file_path)); [| discriminate]. cbn [negb].
    destruct (read_csv env (path_str file_path) (CSVExtractor._get_date_columns table_name))
      as [parsed | e]; [| discriminate].
    simpl. intro Heq. injection Heq as <-. exists parsed.
    refine (conj eq_refl (conj eq_refl (conj eq_refl _))).
    intro Hplain. unfold file_path. rewrite table_file_name by exact Hplain.
    apply assoc_get_set_same.
Qed.

End CsvExtractOutcomes.

Lemma csv_extract_outcomes_witness :
  CSVExtractor.extract Sample.no_customers (CSVExtractor.mk (Path "data/source/")) "customers"
  = ([], Raise (Exception
                  (FileNotFoundError "CSV file not found: data/source/customers.csv"))).
Proof.
  apply (proj1 (csv_extract_outcomes Sample.no_customers
                  (CSVExtractor.mk (Path "data/source/")) "customers")).
  reflexivity.
Defined.

(** ** The summary block *)

Ltac not_the_title :=
  unfold not_summary_title, summary_title;
  let H := fresh in
  intro H; first [discriminate H | cbv in H; discriminate H].

Section Summary.

Context {pandas_ops : Pandas}.
Variable env : Env.
Variable clean : DataFrame -> string -> Try DataFrame.
Variable validate : DataFrame -> string -> Verdict.
Variable self : ETLOrchestrator.
Variable table : option string.

Lemma extract_phase_no_title : tame not_summary_title (_extract_phase env self table).
Proof. tame_with not_the_title. Qed.

Lemma transform_phase_no_title (d : list (string * DataFrame)) :
  tame not_summary_title (_transform_phase clean validate self d).
Proof. tame_with not_the_title. Qed.

Lemma load_phase_no_title (t : list (string * DataFrame)) (mode : string) :
  tame not_summary_title (_load_phase env self t mode).
Proof. tame_with not_the_title. Qed.

Lemma fixed_events_no_title (e : Exn) :
  Forall not_summary_title (full_run_head env) /\
  Forall not_summary_title (banner_events "PHASE 2: TRANSFORM") /\
  Forall not_summary_title (banner_events "PHASE 3: LOAD") /\
  Forall not_summary_title (full_failure_events env e).
Proof.
  unfold full_run_head, banner_events, full_failure_events, failure_events.
  repeat split; repeat constructor; not_the_title.
Qed.

(** X16: the summary block is printed exactly by the runs that extracted
    something and returned; a run that raises, or that extracted
    nothing, prints none.  Since the figures come from the metrics
    collector, the block always reports status SUCCESS with 0 records
    extracted and 0 loaded, whatever the run processed. *)
Theorem summary_block_only_on_success :
  let run := run_full_pipeline env clean validate self table in
  (In summary_title (trace run) <->
   outcome run = Ok tt /\
   exists d, outcome (_extract_phase env self table) = Ok d /\ d <> []) /\
  (In summary_title (trace run) ->
   In (Log INFO "Status: SUCCESS") (trace run) /\
   In (Log INFO "Records Extracted: 0") (trace run) /\
   In (Log INFO "Records Loaded: 0") (trace run)).
Proof.
  intro run.
  pose proof (run_full_pipeline_shape env clean validate self table) as Hshape.
  fold run in Hshape. remember run as m eqn:Hm. clear Hm.
  assert (Hx : forall trx o, _extract_phase env self table = (trx, o) ->
             Forall not_summary_title trx).
  { intros trx o Ex. rewrite <- (trace_of_eq _ _ _ Ex). apply extract_phase_no_title. }
  assert (Ht : forall d trt o, _transform_phase clean validate self d = (trt, o) ->
             Forall not_summary_title trt).
  { intros d trt o Et. rewrite <- (trace_of_eq _ _ _ Et). apply transform_phase_no_title. }
  assert (Hl : forall t trl o, _load_phase env self t "full" = (trl, o) ->
             Forall not_summary_title trl).
  { intros t trl o El. rewrite <- (trace_of_eq _ _ _ El). apply load_phase_no_title. }
  assert (Hno : forall tr, Forall not_summary_title tr -> ~ In summary_title tr).
  { intros tr Hall Hin. rewrite Forall_forall in Hall. exact (Hall _ Hin eq_refl). }
  destruct Hshape as [trx e0 Ex | trx Ex | trx d trt e0 Ex Hd Et
                     | trx d trt t trl e0 Ex Hd Et El | trx d trt t trl Ex Hd Et El];
    cbn [trace fst outcome snd]; rewrite Ex; cbn [outcome snd];
    try (destruct (fixed_events_no_title e0) as (Hhead & Hb2 & Hb3 & Hfail)).
  - assert (Hnone : ~ In summary_title
                        (full_run_head env ++ trx ++ full_failure_events env e0)).
    { apply Hno. repeat (apply Forall_app; split); eauto. }
    split; [split |]; intros H; try contradiction. destruct H as [H _]. discriminate.
  - assert (Hnone : ~ In summary_title
                        (full_run_head env ++ trx
                         ++ [Log WARNING "No data extracted. Aborting pipeline."])).
    { apply Hno. destruct (fixed_events_no_title (mkExn "" "")) as (Hhead & _).
      repeat (apply Forall_app; split); eauto. repeat constructor. not_the_title. }
    split; [split |]; intros H; try contradiction.
    destruct H as [_ (d & Heq & Hd)]. congruence.
  - assert (Hnone : ~ In summary_title
                        (full_run_head env ++ trx ++ banner_events "PHASE 2: TRANSFORM"
                         ++ trt ++ full_failure_events env e0)).
    { apply Hno. repeat (apply Forall_app; split); eauto. }
    split; [split |]; intros H; try contradiction. destruct H as [H _]. discriminate.
  - assert (Hnone : ~ In summary_title
                        (full_run_head env ++ trx ++ banner_events "PHASE 2: TRANSFORM"
                         ++ trt ++ banner_events "PHASE 3: LOAD" ++ trl
                         ++ full_failure_events env e0)).
    { apply Hno. repeat (apply Forall_app; split); eauto. }
    split; [split |]; intros H; try contradiction. destruct H as [H _]. discriminate.
  - assert (Hsum : forall ev, In ev (trace (_print_summary self (full_run_id env))) ->
               In ev (full_run_head env ++ trx ++ banner_events "PHASE 2: TRANSFORM"
                      ++ trt ++ banner_events "PHASE 3: LOAD" ++ trl
                      ++ full_success_events env self)).
    { intros ev Hin. unfold full_success_events.
      do 7 (apply in_or_app; right). exact Hin. }
    split; [split |].
    + intros _. split; [reflexivity |]. exists d. split; [reflexivity | exact Hd].
    + intros _. apply Hsum. simpl. right. left. reflexivity.
    + intros _. repeat split; apply Hsum; simpl; auto 12.
Qed.

End Summary.

Lemma main_exit_status_witness :
  exit_code (main (pandas_ops := Sample.pandas)
               (Sample.invoked (Options (Some incremental) (Some "orders") None)
                  Sample.healthy)
               Sample.keep DataValidator.validate) = 1%Z /\
  exit_code (main (pandas_ops := Sample.pandas)
               (Sample.invoked (UsageError "unrecognized arguments: --tables") Sample.healthy)
               Sample.keep DataValidator.validate) = 2%Z.
Proof.
  split.
  - apply (proj2 (proj2 (proj2 (proj2
             (main_exit_status (pandas_ops := Sample.pandas)
                (Sample.invoked (Options (Some incremental) (Some "orders") None)
                   Sample.healthy)
                Sample.keep DataValidator.validate))))
             (Some "orders") None).
    reflexivity.
  - apply (proj2 (proj1 (proj2 (proj2
             (main_exit_status (pandas_ops := Sample.pandas)
                (Sample.invoked (UsageError "unrecognized arguments: --tables")
                   Sample.healthy)
                Sample.keep DataValidator.validate))))).
    exists "unrecognized arguments: --tables". reflexivity.
Defined.

Lemma summary_block_only_on_success_witness :
  In (Log INFO "Records Extracted: 0")
     (trace (run_full_pipeline (pandas_ops := Sample.pandas) Sample.healthy Sample.keep
               DataValidator.validate Sample.self None)).
Proof.
  destruct (summary_block_only_on_success (pandas_ops := Sample.pandas) Sample.healthy
              Sample.keep DataValidator.validate Sample.self None) as [Hiff Hfig].
  refine (proj1 (proj2 (Hfig _))).
  apply Hiff. split; [vm_compute; reflexivity |].
  eexists. split; [vm_compute; reflexivity | discriminate].
Defined.
